(** * Turbotise: the expertise engine (engine.py, search.py, commit_analyzer.py)

    A shallow embedding of the three Python programs of the repository and
    the properties of their event-to-analysis-to-log pipeline.

    - Part I    Python values as [json.loads] produces them
    - Part II   [json.loads]
    - Part III  the world the programs run in: SQLite file, clock, backend
    - Part IV   the three programs, one module per source file
    - Part V    properties
    - Part VI   further properties of the three programs *)

From Stdlib Require Import List ZArith NArith Bool String Ascii Lia.
From Stdlib Require Import Floats.SpecFloat.
Import ListNotations.

Set Implicit Arguments.
Set Warnings "-register-all".
Open Scope Z_scope.

(* ================================================================== *)
(** * Part I: Python values *)
(* ================================================================== *)

(** A Python [str] is a sequence of Unicode code points. *)
Definition str := list N.

(** [lit] reads an ASCII literal of this file as a [str]. *)
Definition lit (s : string) : str :=
  map N_of_ascii (list_ascii_of_string s).

Definition str_eqb (a b : str) : bool :=
  if list_eq_dec N.eq_dec a b then true else false.

(** Python floats are IEEE 754 binary64. *)
Definition prec : Z := 53.
Definition emax : Z := 1024.
Definition pyfloat := spec_float.

(** The values [json.loads] can return: None, bool, int, float, str,
    list and dict.  A dict keeps its keys in insertion order. *)
Inductive pyval :=
| PNone
| PBool (b : bool)
| PInt (z : Z)
| PFloat (f : pyfloat)
| PStr (s : str)
| PList (l : list pyval)
| PDict (d : list (str * pyval)).

Definition dict := list (str * pyval).

Fixpoint dict_lookup (k : str) (d : dict) : option pyval :=
  match d with
  | [] => None
  | (k', v) :: d' => if str_eqb k k' then Some v else dict_lookup k d'
  end.

(** [d[k] = v]: an existing key keeps its place and takes the new value. *)
Fixpoint dict_set (d : dict) (k : str) (v : pyval) : dict :=
  match d with
  | [] => [(k, v)]
  | (k', v') :: d' =>
      if str_eqb k k' then (k', v) :: d' else (k', v') :: dict_set d' k v
  end.

Definition float_is_zero (f : pyfloat) : bool :=
  match f with S754_zero _ => true | _ => false end.

(** [bool(v)], as [if v:] tests it. *)
Definition truthy (v : pyval) : bool :=
  match v with
  | PNone => false
  | PBool b => b
  | PInt z => negb (z =? 0)
  | PFloat f => negb (float_is_zero f)
  | PStr s => match s with [] => false | _ => true end
  | PList l => match l with [] => false | _ => true end
  | PDict d => match d with [] => false | _ => true end
  end.

(** Exceptions the programs can meet.  [SystemExit] is what [sys.exit]
    raises; it is not an [Exception]. *)
Inductive exn :=
| AttributeError
| TypeError
| OverflowError
| UnicodeEncodeError
| JSONDecodeError
| RequestException
| OSError
| CalledProcessError
| OperationalError
| IntegrityError
| InterfaceError
| SystemExit (code : Z).

(** [isinstance(e, Exception)]. *)
Definition is_Exception (e : exn) : bool :=
  match e with SystemExit _ => false | _ => true end.

(** [isinstance(e, requests.exceptions.RequestException)]. *)
Definition is_RequestException (e : exn) : bool :=
  match e with RequestException => true | _ => false end.

Inductive result (A : Type) :=
| Ok (a : A)
| Raise (e : exn).
Arguments Ok {A} a.
Arguments Raise {A} e.

(** [o.get(k, default)]: only a dict has the method. *)
Definition py_get (o : pyval) (k : str) (default : pyval) : result pyval :=
  match o with
  | PDict d =>
      Ok (match dict_lookup k d with Some v => v | None => default end)
  | _ => Raise AttributeError
  end.

(** int to float, rounding to nearest even; [None] past the largest float
    (Python raises OverflowError there). *)
Definition float_of_int (z : Z) : option pyfloat :=
  match binary_normalize prec emax z 0 false with
  | S754_infinity _ => None
  | f => Some f
  end.

Definition int_of_bool (b : bool) : Z := if b then 1 else 0.

(** The numeric view of a value: bool is a subclass of int. *)
Inductive number :=
| NumInt (z : Z)
| NumFloat (f : pyfloat).

Definition as_number (v : pyval) : option number :=
  match v with
  | PBool b => Some (NumInt (int_of_bool b))
  | PInt z => Some (NumInt z)
  | PFloat f => Some (NumFloat f)
  | _ => None
  end.

Definition num_add (a b : number) : result pyval :=
  match a, b with
  | NumInt x, NumInt y => Ok (PInt (x + y))
  | NumFloat x, NumFloat y => Ok (PFloat (SFadd prec emax x y))
  | NumInt x, NumFloat y =>
      match float_of_int x with
      | Some fx => Ok (PFloat (SFadd prec emax fx y))
      | None => Raise OverflowError
      end
  | NumFloat x, NumInt y =>
      match float_of_int y with
      | Some fy => Ok (PFloat (SFadd prec emax x fy))
      | None => Raise OverflowError
      end
  end.

(** [a + b]: numbers add, two strs or two lists concatenate, anything
    else is a TypeError. *)
Definition py_add (a b : pyval) : result pyval :=
  match a, b with
  | PStr x, PStr y => Ok (PStr (x ++ y))
  | PList x, PList y => Ok (PList (x ++ y))
  | _, _ =>
      match as_number a, as_number b with
      | Some x, Some y => num_add x y
      | _, _ => Raise TypeError
      end
  end.

(** [str.isspace] on one code point. *)
Definition is_space (c : N) : bool :=
  ((9 <=? c) && (c <=? 13) || (28 <=? c) && (c <=? 32)
   || (c =? 133) || (c =? 160) || (c =? 5760)
   || (8192 <=? c) && (c <=? 8202)
   || (c =? 8232) || (c =? 8233) || (c =? 8239) || (c =? 8287)
   || (c =? 12288))%N.

Fixpoint lstrip (s : str) : str :=
  match s with
  | c :: s' => if is_space c then lstrip s' else s
  | [] => []
  end.

(** [s.strip()]. *)
Definition strip (s : str) : str := rev (lstrip (rev (lstrip s))).

(** [s.startswith(p)]. *)
Fixpoint startswith (p s : str) : bool :=
  match p, s with
  | [], _ => true
  | a :: p', b :: s' => (a =? b)%N && startswith p' s'
  | _ :: _, [] => false
  end.

(** [os.path.basename] (POSIX): what follows the last slash. *)
Fixpoint basename_from (cur s : str) : str :=
  match s with
  | [] => cur
  | c :: s' => if (c =? 47)%N then basename_from s' s' else basename_from cur s'
  end.

Definition basename (p : str) : str := basename_from p p.

(* ================================================================== *)
(** * Part II: json.loads *)
(* ================================================================== *)

(** The reader follows the grammar CPython's scanner accepts: the JSON
    grammar of RFC 8259 plus the constants NaN, Infinity and -Infinity,
    strings in strict mode, and the last value kept for a repeated key.
    The interpreter's own limits (recursion depth, the digit limit of int
    conversion) are not modelled. *)

Definition is_digit (c : N) : bool := ((48 <=? c) && (c <=? 57))%N.

Definition is_json_ws (c : N) : bool :=
  ((c =? 32) || (c =? 9) || (c =? 10) || (c =? 13))%N.

Definition hex_value (c : N) : option N :=
  if is_digit c then Some (c - 48)%N
  else if ((97 <=? c) && (c <=? 102))%N then Some (c - 87)%N
  else if ((65 <=? c) && (c <=? 70))%N then Some (c - 55)%N
  else None.

Definition hex4 (a b c d : N) : option N :=
  match hex_value a, hex_value b, hex_value c, hex_value d with
  | Some x, Some y, Some z, Some w =>
      Some (x * 4096 + y * 256 + z * 16 + w)%N
  | _, _, _, _ => None
  end.

(** The character a two-character escape stands for. *)
Definition simple_escape (c : N) : option N :=
  if (c =? 34)%N then Some 34%N            (* quote *)
  else if (c =? 92)%N then Some 92%N       (* backslash *)
  else if (c =? 47)%N then Some 47%N       (* slash *)
  else if (c =? 98)%N then Some 8%N        (* b *)
  else if (c =? 102)%N then Some 12%N      (* f *)
  else if (c =? 110)%N then Some 10%N      (* n *)
  else if (c =? 114)%N then Some 13%N      (* r *)
  else if (c =? 116)%N then Some 9%N       (* t *)
  else None.

(** What a string literal contributes: a character, or the 16-bit unit of
    a \uXXXX escape.  Only two escapes in a row can form a surrogate pair. *)
Inductive unit16 :=
| Chr (c : N)
| Esc (u : N).

Definition is_high (u : N) : bool := ((55296 <=? u) && (u <=? 56319))%N.
Definition is_low (u : N) : bool := ((56320 <=? u) && (u <=? 57343))%N.

Fixpoint join_surrogates (l : list unit16) : str :=
  match l with
  | [] => []
  | Chr c :: l' => c :: join_surrogates l'
  | Esc h :: l' =>
      match l' with
      | Esc lo :: l'' =>
          if is_high h && is_low lo
          then (65536 + ((h - 55296) * 1024 + (lo - 56320)))%N
                 :: join_surrogates l''
          else h :: join_surrogates l'
      | _ => h :: join_surrogates l'
      end
  end.

(** Numbers. *)
Fixpoint span_digits (s : str) : str * str :=
  match s with
  | c :: s' =>
      if is_digit c
      then let '(d, r) := span_digits s' in (c :: d, r)
      else ([], s)
  | [] => ([], [])
  end.

Definition digits_value (d : str) : Z :=
  fold_left (fun acc c => acc * 10 + Z.of_N (c - 48)) d 0.

(** The float nearest to [m * 10^e], ties to even; [neg] is its sign. *)
Definition float_of_decimal (neg : bool) (m e : Z) : pyfloat :=
  match m with
  | Zpos p =>
      if 0 <=? e
      then binary_normalize prec emax
             (cond_Zopp neg (Z.pos p * 10 ^ e)) 0 false
      else SFdiv prec emax (S754_finite neg p 0)
                           (S754_finite false (Z.to_pos (10 ^ (- e))) 0)
  | _ => S754_zero neg
  end.

(** The text of a number, read whole: an int when it has neither a
    fraction nor an exponent, a float otherwise. *)
Definition number_of (s : str) : option pyval :=
  let '(neg, s1) :=
    match s with
    | c :: r => if (c =? 45)%N then (true, r) else (false, s)
    | [] => (false, s)
    end in
  let '(ip, s2) := span_digits s1 in
  let int_ok :=
    match ip with
    | [] => false
    | c :: r => negb (c =? 48)%N || match r with [] => true | _ => false end
    end in
  let '(fp, has_frac, frac_ok, s3) :=
    match s2 with
    | c :: r =>
        if (c =? 46)%N
        then let '(d, r') := span_digits r in
             (d, true, match d with [] => false | _ => true end, r')
        else ([], false, true, s2)
    | [] => ([], false, true, s2)
    end in
  let '(ex, has_exp, exp_ok) :=
    match s3 with
    | [] => (0, false, true)
    | c :: r =>
        if (c =? 101)%N || (c =? 69)%N
        then
          let '(eneg, r1) :=
            match r with
            | c' :: r' =>
                if (c' =? 45)%N then (true, r')
                else if (c' =? 43)%N then (false, r')
                else (false, r)
            | [] => (false, r)
            end in
          let '(d, rest) := span_digits r1 in
          (cond_Zopp eneg (digits_value d), true,
           match d, rest with _ :: _, [] => true | _, _ => false end)
        else (0, false, false)
    end in
  if int_ok && frac_ok && exp_ok
  then
    if has_frac || has_exp
    then Some (PFloat (float_of_decimal neg (digits_value (ip ++ fp))
                                        (ex - Z.of_nat (List.length fp))))
    else Some (PInt (cond_Zopp neg (digits_value ip)))
  else None.

(** Tokens. *)
Inductive token :=
| TLBrace | TRBrace | TLBracket | TRBracket | TColon | TComma
| TStr (s : str)
| TAtom (v : pyval).

Definition punct (c : N) : option token :=
  if (c =? 123)%N then Some TLBrace
  else if (c =? 125)%N then Some TRBrace
  else if (c =? 91)%N then Some TLBracket
  else if (c =? 93)%N then Some TRBracket
  else if (c =? 58)%N then Some TColon
  else if (c =? 44)%N then Some TComma
  else None.

(** What may follow a number: white space, a comma or a closing bracket. *)
Definition ends_number (c : N) : bool :=
  ((c =? 125) || (c =? 93) || (c =? 44))%N.

Definition is_number_char (c : N) : bool :=
  (is_digit c || (c =? 45) || (c =? 43) || (c =? 46) || (c =? 101)
   || (c =? 69))%N.

Inductive lex_mode :=
| Between
| InStr (acc : list unit16)   (* the units read so far, last first *)
| InNum (acc : str).          (* the characters read so far, last first *)

Definition emit (t : token) (r : option (list token)) : option (list token) :=
  match r with Some ts => Some (t :: ts) | None => None end.

Definition emit_number (acc : str) (r : option (list token))
  : option (list token) :=
  match number_of (rev acc) with
  | Some v => emit (TAtom v) r
  | None => None
  end.

Fixpoint lex (m : lex_mode) (s : str) {struct s} : option (list token) :=
  match m, s with
  | Between, [] => Some []
  | Between, c :: s' =>
      if is_json_ws c then lex Between s'
      else if (c =? 34)%N then lex (InStr []) s'
      else if startswith (lit "-Infinity") s then
        match s' with
        | _ :: _ :: _ :: _ :: _ :: _ :: _ :: _ :: r =>
            emit (TAtom (PFloat (S754_infinity true))) (lex Between r)
        | _ => None
        end
      else if is_digit c || (c =? 45)%N then lex (InNum [c]) s'
      else if startswith (lit "null") s then
        match s' with
        | _ :: _ :: _ :: r => emit (TAtom PNone) (lex Between r)
        | _ => None
        end
      else if startswith (lit "true") s then
        match s' with
        | _ :: _ :: _ :: r => emit (TAtom (PBool true)) (lex Between r)
        | _ => None
        end
      else if startswith (lit "false") s then
        match s' with
        | _ :: _ :: _ :: _ :: r => emit (TAtom (PBool false)) (lex Between r)
        | _ => None
        end
      else if startswith (lit "NaN") s then
        match s' with
        | _ :: _ :: r => emit (TAtom (PFloat S754_nan)) (lex Between r)
        | _ => None
        end
      else if startswith (lit "Infinity") s then
        match s' with
        | _ :: _ :: _ :: _ :: _ :: _ :: _ :: r =>
            emit (TAtom (PFloat (S754_infinity false))) (lex Between r)
        | _ => None
        end
      else
        match punct c with
        | Some t => emit t (lex Between s')
        | None => None
        end
  | InStr acc, [] => None
  | InStr acc, c :: s' =>
      if (c =? 34)%N
      then emit (TStr (join_surrogates (rev acc))) (lex Between s')
      else if (c =? 92)%N then
        match s' with
        | e :: s'' =>
            if (e =? 117)%N then
              match s'' with
              | h1 :: h2 :: h3 :: h4 :: r =>
                  match hex4 h1 h2 h3 h4 with
                  | Some u => lex (InStr (Esc u :: acc)) r
                  | None => None
                  end
              | _ => None
              end
            else
              match simple_escape e with
              | Some x => lex (InStr (Chr x :: acc)) s''
              | None => None
              end
        | [] => None
        end
      else if (c <? 32)%N then None
      else lex (InStr (Chr c :: acc)) s'
  | InNum acc, [] => emit_number acc (Some [])
  | InNum acc, c :: s' =>
      if is_number_char c then lex (InNum (c :: acc)) s'
      else if is_json_ws c then emit_number acc (lex Between s')
      else if ends_number c then
        match punct c with
        | Some t => emit_number acc (emit t (lex Between s'))
        | None => None
        end
      else None
  end.

(** The parser reads the tokens one at a time, keeping the containers
    that are still open on a stack. *)
Inductive frame :=
| InArr (items : list pyval)
| InObj (d : dict) (key : option str).

Inductive expect :=
| EValue          (* a value *)
| EValueOrClose   (* a value, or the bracket closing an empty list *)
| EKeyOrClose     (* a key, or the brace closing an empty dict *)
| EKey            (* a key *)
| EColon
| ECommaOrClose   (* a comma, or the end of the open container *)
| EEnd.           (* nothing: the value is complete *)

Record pstate := {
  stack    : list frame;
  expects  : expect;
  finished : option pyval
}.

(** A complete value goes into the innermost open container, or is the
    result when none is open. *)
Definition deliver (v : pyval) (st : list frame) : option pstate :=
  match st with
  | [] => Some {| stack := []; expects := EEnd; finished := Some v |}
  | InArr items :: st' =>
      Some {| stack := InArr (items ++ [v]) :: st';
              expects := ECommaOrClose; finished := None |}
  | InObj d (Some k) :: st' =>
      Some {| stack := InObj (dict_set d k v) None :: st';
              expects := ECommaOrClose; finished := None |}
  | InObj _ None :: _ => None
  end.

Definition open_value (t : token) (st : list frame) : option pstate :=
  match t with
  | TLBracket =>
      Some {| stack := InArr [] :: st; expects := EValueOrClose;
              finished := None |}
  | TLBrace =>
      Some {| stack := InObj [] None :: st; expects := EKeyOrClose;
              finished := None |}
  | TStr s => deliver (PStr s) st
  | TAtom v => deliver v st
  | _ => None
  end.

Definition take_key (t : token) (st : list frame) : option pstate :=
  match t, st with
  | TStr k, InObj d None :: st' =>
      Some {| stack := InObj d (Some k) :: st'; expects := EColon;
              finished := None |}
  | _, _ => None
  end.

Definition close_container (t : token) (st : list frame) : option pstate :=
  match t, st with
  | TRBracket, InArr items :: st' => deliver (PList items) st'
  | TRBrace, InObj d None :: st' => deliver (PDict d) st'
  | _, _ => None
  end.

Definition pstep (p : pstate) (t : token) : option pstate :=
  let st := stack p in
  match expects p with
  | EValue => open_value t st
  | EValueOrClose =>
      match t with TRBracket => close_container t st | _ => open_value t st end
  | EKeyOrClose =>
      match t with TRBrace => close_container t st | _ => take_key t st end
  | EKey => take_key t st
  | EColon =>
      match t with
      | TColon => Some {| stack := st; expects := EValue; finished := None |}
      | _ => None
      end
  | ECommaOrClose =>
      match t, st with
      | TComma, InArr _ :: _ =>
          Some {| stack := st; expects := EValue; finished := None |}
      | TComma, InObj _ _ :: _ =>
          Some {| stack := st; expects := EKey; finished := None |}
      | _, _ => close_container t st
      end
  | EEnd => None
  end.

Fixpoint parse (p : pstate) (ts : list token) : option pyval :=
  match ts with
  | [] => finished p
  | t :: ts' =>
      match pstep p t with
      | Some p' => parse p' ts'
      | None => None
      end
  end.

Definition decode (s : str) : option pyval :=
  match lex Between s with
  | Some ts =>
      parse {| stack := []; expects := EValue; finished := None |} ts
  | None => None
  end.

(** [json.loads(s)] on a str. *)
Definition json_loads_str (s : str) : result pyval :=
  match decode s with
  | Some v => Ok v
  | None => Raise JSONDecodeError
  end.

(** [json.loads(v)]: the argument must be a str (bytes and bytearray do
    not come out of a JSON document). *)
Definition json_loads (v : pyval) : result pyval :=
  match v with
  | PStr s => json_loads_str s
  | _ => Raise TypeError
  end.

(* ================================================================== *)
(** * Part III: the world *)
(* ================================================================== *)

(** ** The SQLite file *)

(** The values SQLite stores.  A text is kept by what produced it: a str,
    [json.dumps] of a value, or [time.strftime] at an instant.  A row
    holds the values as they were bound: the TEXT affinity of the columns,
    which would render a number as text, is not applied. *)
Inductive text :=
| Str (s : str)
| JsonDumps (v : pyval)     (* the str json.dumps(v) returns *)
| Strftime (t : Z).         (* '%Y-%m-%d %H:%M:%S' of the local time at t *)

Inductive sqlval :=
| SqlNull
| SqlInt (z : Z)
| SqlReal (f : pyfloat)
| SqlText (t : text).

(** The members of the tuple given to [cursor.execute]. *)
Inductive param :=
| PyVal (v : pyval)
| Dumped (v : pyval)        (* json.dumps(v) *)
| Stamp (t : Z).            (* time.strftime(...) evaluated at t *)

Definition is_surrogate (c : N) : bool := ((55296 <=? c) && (c <=? 57343))%N.

Definition int64_min : Z := - 2 ^ 63.
Definition int64_max : Z := 2 ^ 63 - 1.

(** Binding one parameter: None, int, float and str are supported; an int
    must fit 64 bits, a str must encode to UTF-8, NaN is stored as NULL.
    A list or a dict cannot be bound (InterfaceError; recent versions of
    the sqlite3 module raise ProgrammingError instead). *)
Definition bind_param (p : param) : result sqlval :=
  match p with
  | PyVal PNone => Ok SqlNull
  | PyVal (PBool b) => Ok (SqlInt (int_of_bool b))
  | PyVal (PInt z) =>
      if (int64_min <=? z) && (z <=? int64_max)
      then Ok (SqlInt z) else Raise OverflowError
  | PyVal (PFloat S754_nan) => Ok SqlNull
  | PyVal (PFloat f) => Ok (SqlReal f)
  | PyVal (PStr s) =>
      if existsb is_surrogate s
      then Raise UnicodeEncodeError else Ok (SqlText (Str s))
  | PyVal (PList _) => Raise InterfaceError
  | PyVal (PDict _) => Raise InterfaceError
  | Dumped v => Ok (SqlText (JsonDumps v))
  | Stamp t => Ok (SqlText (Strftime t))
  end.

Fixpoint bind_params (ps : list param) : result (list sqlval) :=
  match ps with
  | [] => Ok []
  | p :: ps' =>
      match bind_param p with
      | Ok v =>
          match bind_params ps' with
          | Ok vs => Ok (v :: vs)
          | Raise e => Raise e
          end
      | Raise e => Raise e
      end
  end.

(** A column of [expertise_log] other than [id]. *)
Record column := {
  col_name : str;
  not_null : bool
}.

Record row := {
  rowid : Z;                       (* id INTEGER PRIMARY KEY AUTOINCREMENT *)
  cells : list (str * sqlval)      (* the other columns, by name *)
}.

(** The table [expertise_log]: its columns, its rows in insertion order
    and the largest id it has ever given out (sqlite_sequence). *)
Record table := {
  columns : list column;
  rows    : list row;
  seq     : Z
}.

(** The database file: the table, once it has been created. *)
Definition database := option table.

Definition records (db : database) : list row :=
  match db with Some t => rows t | None => [] end.

Definition max_rowid (rs : list row) : Z :=
  fold_right (fun r m => Z.max (rowid r) m) 0 rs.

(** AUTOINCREMENT: one more than the largest id ever used. *)
Definition next_id (t : table) : Z := Z.max (seq t) (max_rowid (rows t)) + 1.

Fixpoint assoc (k : str) (l : list (str * sqlval)) : option sqlval :=
  match l with
  | [] => None
  | (k', v) :: l' => if str_eqb k k' then Some v else assoc k l'
  end.

Definition cell (r : row) (name : str) : sqlval :=
  match assoc name (cells r) with Some v => v | None => SqlNull end.

Definition has_column (t : table) (name : str) : bool :=
  existsb (fun c => str_eqb name (col_name c)) (columns t).

Definition is_null (v : sqlval) : bool :=
  match v with SqlNull => true | _ => false end.

(** [CREATE TABLE IF NOT EXISTS expertise_log (...)]. *)
Definition sql_create (cols : list column) (db : database) : database :=
  match db with
  | Some t => Some t
  | None => Some {| columns := cols; rows := []; seq := 0 |}
  end.

(** [INSERT INTO expertise_log (names) VALUES (?, ...)] with its
    parameters: the statement is compiled against the table, the
    parameters are bound, the NOT NULL constraints are checked and the row
    takes the next id. *)
Definition sql_insert (names : list str) (ps : list param) (db : database)
  : result database :=
  match db with
  | None => Raise OperationalError
  | Some t =>
      if negb (forallb (has_column t) names) then Raise OperationalError
      else
        match bind_params ps with
        | Raise e => Raise e
        | Ok vs =>
            let given := combine names vs in
            let value c :=
              match assoc (col_name c) given with
              | Some v => v
              | None => SqlNull
              end in
            if existsb (fun c => not_null c && is_null (value c)) (columns t)
            then Raise IntegrityError
            else if int64_max <? next_id t then Raise OperationalError
            else
              let r := {| rowid := next_id t;
                          cells := map (fun c => (col_name c, value c))
                                       (columns t) |} in
              Ok (Some {| columns := columns t;
                          rows := rows t ++ [r];
                          seq := next_id t |})
        end
  end.

(** ** What the programs meet outside *)

Inductive http_reply :=
| NoResponse                          (* connection refused, timeout *)
| Response (status : Z) (body : str).

(** The three prompts, each a fixed text around the content. *)
Inductive prompt :=
| CommitPrompt (content : str)        (* commit_analyzer.py *)
| CodePrompt (content : str)          (* search.py *)
| SkillsPrompt (content : str).       (* engine.py *)

(** The answers of the outside during one run of the hook, or during the
    handling of one file event. *)
Record Env := {
  db_opens   : bool;          (* sqlite3.connect finds the file usable *)
  reply      : http_reply;    (* what the POST to the backend meets *)
  latency    : Z;             (* the seconds the POST takes *)
  file_text  : option str;    (* the text of the file, if it can be read *)
  login      : option str;    (* os.getlogin() *)
  staged     : option str;    (* git diff --staged *)
  message    : option str;    (* the file named by sys.argv[1] *)
  git_user   : option str;    (* git config user.name *)
  toplevel   : option str     (* git rev-parse --show-toplevel *)
}.

(** The lines the programs print. *)
Inductive line :=
| LRunning | LAnalyzing | LSaved | LNoBackend | LGitError (e : exn)
| LSkipping | LAnalysisFailed
| LStarting | LReady | LWatching
| LDetected (path : str) | LAsking | LLength (n : nat)
| LComplete | LField (name : str) (v : pyval)
| LSavedFrom (name : str) | LEmptyFile | LError (e : exn).

(** What a program does that can be seen from outside. *)
Inductive action :=
| Print (l : line)
| Post (model : str) (p : prompt) (timeout : Z)
| Open (path : str)
| Connect.

(** The world of one program: engine.py opens expertise.db in the working
    directory, search.py and commit_analyzer.py the one beside the
    script. *)
Record World := {
  db    : database;        (* the expertise.db the program opens *)
  clock : Z;               (* seconds *)
  trace : list action
}.

(** ** Computations *)

Definition M (A : Type) : Type := Env -> World -> result A * World.

Definition ret {A} (a : A) : M A := fun _ w => (Ok a, w).

Definition bind {A B} (m : M A) (f : A -> M B) : M B :=
  fun e w =>
    match m e w with
    | (Ok a, w') => f a e w'
    | (Raise x, w') => (Raise x, w')
    end.

Definition raise {A} (x : exn) : M A := fun _ w => (Raise x, w).

Definition lift {A} (r : result A) : M A := fun _ w => (r, w).

Definition ask : M Env := fun e w => (Ok e, w).

Definition get : M World := fun _ w => (Ok w, w).

Definition put (w : World) : M unit := fun _ _ => (Ok tt, w).

Declare Scope py_scope.
Delimit Scope py_scope with py.
Notation "x <- m ;; k" := (bind m (fun x => k))
  (at level 100, m at next level, right associativity) : py_scope.
Notation "m ;; k" := (bind m (fun _ => k))
  (at level 100, right associativity) : py_scope.
Open Scope py_scope.

(** [try: body except C as e: handler e], [catches] telling the
    exceptions of class C. *)
Definition try_except {A} (body : M A) (catches : exn -> bool)
                      (handler : exn -> M A) : M A :=
  fun e w =>
    match body e w with
    | (Raise x, w') => if catches x then handler x e w' else (Raise x, w')
    | done => done
    end.

Definition act (a : action) : M unit :=
  fun _ w => (Ok tt, {| db := db w; clock := clock w;
                        trace := trace w ++ [a] |}).

(** [print(...)]: the terminal is taken to accept any text. *)
Definition print (l : line) : M unit := act (Print l).

(** [sys.exit(code)]. *)
Definition sys_exit {A} (code : Z) : M A := raise (SystemExit code).

(** The exit status of the process: an exception that reaches the top
    ends it with status 1. *)
Definition exit_status {A} (r : result A) : Z :=
  match r with
  | Ok _ => 0
  | Raise (SystemExit c) => c
  | Raise _ => 1
  end.

(** A connection works on its own view of the file; [commit] makes the
    view the file's content. *)
Record connection := { view : database }.

Definition sqlite3_connect : M connection :=
  act Connect ;;
  e <- ask ;;
  if db_opens e
  then (w <- get ;; ret {| view := db w |})
  else raise OperationalError.

Definition execute_create (c : connection) (cols : list column)
  : M connection :=
  ret {| view := sql_create cols (view c) |}.

Definition execute_insert (c : connection) (names : list str)
                          (ps : list param) : M connection :=
  v <- lift (sql_insert names ps (view c)) ;;
  ret {| view := v |}.

Definition commit (c : connection) : M unit :=
  w <- get ;;
  put {| db := view c; clock := clock w; trace := trace w |}.

Definition close (c : connection) : M unit := ret tt.

(** [time.strftime('%Y-%m-%d %H:%M:%S')]: the clock is read now. *)
Definition time_strftime : M param :=
  w <- get ;; ret (Stamp (clock w)).

(** [requests.post(url, json=..., timeout=...)]: the call takes its time
    and returns the response, or raises when there is none. *)
Definition requests_post (model : str) (p : prompt) (timeout : Z)
  : M (Z * str) :=
  act (Post model p timeout) ;;
  e <- ask ;;
  w <- get ;;
  put {| db := db w; clock := clock w + latency e; trace := trace w |} ;;
  match reply e with
  | NoResponse => raise RequestException
  | Response status body => ret (status, body)
  end.

(** [response.raise_for_status()]. *)
Definition raise_for_status (r : Z * str) : M unit :=
  if (400 <=? fst r) && (fst r <? 600) then raise RequestException
  else ret tt.

(** [response.json()]: a body that is not JSON raises requests'
    JSONDecodeError, which is a RequestException. *)
Definition response_json (r : Z * str) : M pyval :=
  match decode (snd r) with
  | Some v => ret v
  | None => raise RequestException
  end.

(** [open(path, 'r', encoding='utf-8', errors='ignore')] and [f.read()]. *)
Definition read_file (path : str) : M str :=
  act (Open path) ;;
  e <- ask ;;
  match file_text e with
  | Some s => ret s
  | None => raise OSError
  end.

Definition os_getlogin : M str :=
  e <- ask ;;
  match login e with
  | Some s => ret s
  | None => raise OSError
  end.

(** A command whose output, or a file whose text, the hook reads;
    [failure] is what is raised when there is none. *)
Definition read_from (source : Env -> option str) (failure : exn) : M str :=
  e <- ask ;;
  match source e with
  | Some s => ret s
  | None => raise failure
  end.

(** [x.strip()] where [x] is a str or None. *)
Definition strip_of (x : option str) : result str :=
  match x with
  | Some s => Ok (strip s)
  | None => Raise AttributeError
  end.

(** [f"{x}"] where [x] is a str or None. *)
Definition format (x : option str) : str :=
  match x with
  | Some s => s
  | None => lit "None"
  end.

Definition nonempty (s : str) : bool :=
  match s with [] => false | _ => true end.

Definition value_of (x : option str) : pyval :=
  match x with
  | Some s => PStr s
  | None => PNone
  end.

(** The file event the watcher delivers to the handler. *)
Record event := {
  is_directory : bool;
  src_path     : str
}.

Definition col (name : string) (nn : bool) : column :=
  {| col_name := lit name; not_null := nn |}.

(* ================================================================== *)
(** * Part IV: the programs *)
(* ================================================================== *)

(** ** commit_analyzer.py: the commit hook *)
Module commit_analyzer.

Definition MODEL_NAME : str := lit "mistral".

Definition schema : list column :=
  [ col "user_id" true; col "timestamp" true; col "repo_name" false;
    col "commit_hash" false; col "primary_technologies" false;
    col "supporting_libraries" false;
    col "key_patterns_and_concepts" false; col "inferred_skills" false;
    col "analysis_summary" false ].

Definition init_database : M unit :=
  conn <- sqlite3_connect ;;
  conn <- execute_create conn schema ;;
  commit conn ;;
  close conn.

(** The tuple of the INSERT, its members evaluated from left to right. *)
Definition insert_values (user_id repo_name commit_hash analysis : pyval)
  : M (list param) :=
  now <- time_strftime ;;
  pt <- lift (py_get analysis (lit "primary_technologies") (PList [])) ;;
  sl <- lift (py_get analysis (lit "supporting_libraries") (PList [])) ;;
  kp <- lift (py_get analysis (lit "key_patterns_and_concepts") (PList [])) ;;
  sk <- lift (py_get analysis (lit "inferred_skills") (PList [])) ;;
  su <- lift (py_get analysis (lit "analysis_summary") (PStr [])) ;;
  ret [ PyVal user_id; now; PyVal repo_name; PyVal commit_hash;
        Dumped pt; Dumped sl; Dumped kp; Dumped sk; PyVal su ].

Definition save_expertise (user_id repo_name commit_hash analysis : pyval)
  : M unit :=
  conn <- sqlite3_connect ;;
  values <- insert_values user_id repo_name commit_hash analysis ;;
  conn <- execute_insert conn (map col_name schema) values ;;
  commit conn ;;
  close conn ;;
  print LSaved.

Definition analyze_content_with_llm (content : str) : M pyval :=
  print LAnalyzing ;;
  let prompt := CommitPrompt content in
  try_except
    (response <- requests_post MODEL_NAME prompt 180 ;;
     raise_for_status response ;;
     envelope <- response_json response ;;
     payload <- lift (py_get envelope (lit "response") (PStr (lit "{}"))) ;;
     lift (json_loads payload))
    is_RequestException
    (fun e => print LNoBackend ;; ret PNone).

(** The four results are strs, or all None. *)
Definition get_git_info
  : M (option str * option str * option str * option str) :=
  try_except
    (diff <- read_from staged CalledProcessError ;;
     commit_message <- read_from message OSError ;;
     user_name <- read_from git_user CalledProcessError ;;
     top <- read_from toplevel CalledProcessError ;;
     ret (Some diff, Some commit_message, Some (strip user_name),
          Some (basename (strip top))))
    is_Exception
    (fun e => print (LGitError e) ;; ret (None, None, None, None)).

(** The text sent for analysis: the commit message, then the diff. *)
Definition analysis_content (commit_message diff : option str) : str :=
  lit "Commit Message:" ++ [10%N] ++ format commit_message
    ++ [10%N; 10%N] ++ lit "Code Diff:" ++ [10%N] ++ format diff.

Definition main : M unit :=
  print LRunning ;;
  init_database ;;
  info <- get_git_info ;;
  let '(diff, commit_message, user_name, repo_name) := info in
  d <- lift (strip_of diff) ;;
  skip <- (if negb (nonempty d) then ret true
           else (m <- lift (strip_of commit_message) ;;
                 ret (negb (nonempty m)))) ;;
  if skip : bool then (print LSkipping ;; sys_exit 0)
  else
    analysis <- analyze_content_with_llm
                  (analysis_content commit_message diff) ;;
    (if truthy analysis
     then save_expertise (value_of user_name) (value_of repo_name)
                         (PStr (lit "pre-commit-analysis")) analysis
     else print LAnalysisFailed) ;;
    sys_exit 0.

End commit_analyzer.

(** ** search.py: the watcher with the five-field prompt *)
Module search.

Definition MODEL_NAME : str := lit "mistral".

Definition schema : list column :=
  [ col "user_id" true; col "timestamp" true; col "file_path" true;
    col "technologies" false; col "core_concepts" false;
    col "summary" false ].

Definition init_database : M unit :=
  conn <- sqlite3_connect ;;
  conn <- execute_create conn schema ;;
  commit conn ;;
  close conn.

Definition insert_values (user_id file_path analysis : pyval)
  : M (list param) :=
  now <- time_strftime ;;
  pt <- lift (py_get analysis (lit "primary_technologies") (PList [])) ;;
  sl <- lift (py_get analysis (lit "supporting_libraries") (PList [])) ;;
  technologies <- lift (py_add pt sl) ;;
  kp <- lift (py_get analysis (lit "key_patterns_and_concepts") (PList [])) ;;
  sk <- lift (py_get analysis (lit "inferred_skills") (PList [])) ;;
  core_concepts <- lift (py_add kp sk) ;;
  su <- lift (py_get analysis (lit "analysis_summary") (PStr [])) ;;
  ret [ PyVal user_id; now; PyVal file_path;
        Dumped technologies; Dumped core_concepts; PyVal su ].

Definition save_expertise (user_id file_path analysis : pyval) : M unit :=
  conn <- sqlite3_connect ;;
  values <- insert_values user_id file_path analysis ;;
  conn <- execute_insert conn (map col_name schema) values ;;
  commit conn ;;
  close conn ;;
  match file_path with
  | PStr p => print (LSavedFrom (basename p))
  | _ => raise TypeError
  end.

Definition analyze_content_with_llm (content : str) : M pyval :=
  print LAsking ;;
  print (LLength (List.length content)) ;;
  let prompt := CodePrompt content in
  try_except
    (response <- requests_post MODEL_NAME prompt 120 ;;
     raise_for_status response ;;
     envelope <- response_json response ;;
     payload <- lift (py_get envelope (lit "response") (PStr (lit "{}"))) ;;
     lift (json_loads payload))
    is_RequestException
    (fun e => print LNoBackend ;; ret PNone).

Definition show (label key : string) (analysis : pyval) : M unit :=
  v <- lift (py_get analysis (lit key) (PStr (lit "N/A"))) ;;
  print (LField (lit label) v).

Definition on_modified (ev : event) : M unit :=
  if negb (is_directory ev) then
    let file_path := src_path ev in
    if startswith (lit ".") (basename file_path) then ret tt
    else
      print (LDetected file_path) ;;
      try_except
        (content <- read_file file_path ;;
         if nonempty (strip content) then
           analysis <- analyze_content_with_llm content ;;
           if truthy analysis then
             print LComplete ;;
             show "Primary Technologies" "primary_technologies" analysis ;;
             show "Supporting Libraries" "supporting_libraries" analysis ;;
             show "Key Patterns & Concepts" "key_patterns_and_concepts"
                  analysis ;;
             show "Inferred Skills" "inferred_skills" analysis ;;
             show "Summary" "analysis_summary" analysis ;;
             user_id <- os_getlogin ;;
             save_expertise (PStr user_id) (PStr file_path) analysis
           else ret tt
         else print LEmptyFile)
        is_Exception
        (fun e => print (LError e))
  else ret tt.

(** What [__main__] does before the watch loop. *)
Definition main : M unit :=
  print LStarting ;;
  init_database ;;
  print LReady ;;
  print LWatching.

End search.

(** ** engine.py: the watcher with the three-field prompt *)
Module engine.

Definition MODEL_NAME : str := lit "mistral".

Definition schema : list column := search.schema.

Definition init_database : M unit :=
  conn <- sqlite3_connect ;;
  conn <- execute_create conn schema ;;
  commit conn ;;
  close conn.

Definition insert_values (user_id file_path analysis : pyval)
  : M (list param) :=
  now <- time_strftime ;;
  technologies <- lift (py_get analysis (lit "technologies") (PList [])) ;;
  core_concepts <- lift (py_get analysis (lit "core_concepts") (PList [])) ;;
  su <- lift (py_get analysis (lit "summary") (PStr [])) ;;
  ret [ PyVal user_id; now; PyVal file_path;
        Dumped technologies; Dumped core_concepts; PyVal su ].

Definition save_expertise (user_id file_path analysis : pyval) : M unit :=
  conn <- sqlite3_connect ;;
  values <- insert_values user_id file_path analysis ;;
  conn <- execute_insert conn (map col_name schema) values ;;
  commit conn ;;
  close conn ;;
  match file_path with
  | PStr p => print (LSavedFrom (basename p))
  | _ => raise TypeError
  end.

Definition analyze_content_with_llm (content : str) : M pyval :=
  print LAsking ;;
  print (LLength (List.length content)) ;;
  let prompt := SkillsPrompt content in
  try_except
    (response <- requests_post MODEL_NAME prompt 120 ;;
     raise_for_status response ;;
     envelope <- response_json response ;;
     payload <- lift (py_get envelope (lit "response") (PStr (lit "{}"))) ;;
     lift (json_loads payload))
    is_RequestException
    (fun e => print LNoBackend ;; ret PNone).

Definition show (label key : string) (analysis : pyval) : M unit :=
  v <- lift (py_get analysis (lit key) (PStr (lit "N/A"))) ;;
  print (LField (lit label) v).

Definition on_modified (ev : event) : M unit :=
  if negb (is_directory ev) then
    let file_path := src_path ev in
    print (LDetected file_path) ;;
    try_except
      (content <- read_file file_path ;;
       if nonempty (strip content) then
         analysis <- analyze_content_with_llm content ;;
         if truthy analysis then
           print LComplete ;;
           show "Technologies" "technologies" analysis ;;
           show "Concepts" "core_concepts" analysis ;;
           show "Summary" "summary" analysis ;;
           user_id <- os_getlogin ;;
           save_expertise (PStr user_id) (PStr file_path) analysis
         else ret tt
       else print LEmptyFile)
      is_Exception
      (fun e => print (LError e))
  else ret tt.

Definition main : M unit :=
  print LStarting ;;
  init_database ;;
  print LReady ;;
  print LWatching.

End engine.

(** The watch loop: the observer hands the events to the handler one
    after the other, each meeting its own answers from outside. *)
Fixpoint watch (handler : event -> M unit) (deliveries : list (Env * event))
               (w : World) : World :=
  match deliveries with
  | [] => w
  | (e, ev) :: rest => watch handler rest (snd (handler ev e w))
  end.

(** Running a program from a state of the world. *)
Definition status_of {A} (m : M A) (e : Env) (w : World) : Z :=
  exit_status (fst (m e w)).

Definition world_after {A} (m : M A) (e : Env) (w : World) : World :=
  snd (m e w).

(** The HTTP calls a trace holds. *)
Definition is_post (a : action) : bool :=
  match a with Post _ _ _ => true | _ => false end.

Definition is_open (a : action) : bool :=
  match a with Open _ => true | _ => false end.

Definition is_connect (a : action) : bool :=
  match a with Connect => true | _ => false end.

Definition posts (w : World) : list action := filter is_post (trace w).
Definition opens (w : World) : list action := filter is_open (trace w).
Definition connects (w : World) : list action := filter is_connect (trace w).

(** ** Sample worlds *)

(** JSON text of this file is written with ['] where JSON has the double
    quote. *)
Definition json (s : string) : str :=
  map (fun c => if (c =? 39)%N then 34%N else c) (lit s).

(** A machine where nothing has run yet. *)
Definition fresh : World := {| db := None; clock := 1700000000; trace := [] |}.

(** A developer's machine: the database opens, the backend answers with
    [body] after three seconds, the file holds one line of Python, git
    knows the commit. *)
Definition answering (body : str) : Env :=
  {| db_opens := true;
     reply := Response 200 body;
     latency := 3;
     file_text := Some (lit "def foo(): pass");
     login := Some (lit "callum");
     staged := Some (lit "+def foo(): pass");
     message := Some (lit "add foo");
     git_user := Some (lit "Callum McCabe");
     toplevel := Some (lit "/Users/callum/Turbotise") |}.

Definition saved_file : event :=
  {| is_directory := false;
     src_path := lit "/Users/callummccabe/Downloads/notes.py" |}.

Definition hidden_file : event :=
  {| is_directory := false;
     src_path := lit "/Users/callummccabe/Downloads/.DS_Store" |}.

(** The hook run outside a repository: no git command answers. *)
Definition outside_repository : Env :=
  {| db_opens := true;
     reply := Response 200 (json "{'response': '{}'}");
     latency := 3;
     file_text := None;
     login := Some (lit "callum");
     staged := None;
     message := None;
     git_user := None;
     toplevel := None |}.

(** The hook where the database file cannot be opened. *)
Definition read_only_directory : Env :=
  {| db_opens := false;
     reply := Response 200 (json "{'response': '{}'}");
     latency := 3;
     file_text := None;
     login := Some (lit "callum");
     staged := Some (lit "+def foo(): pass");
     message := Some (lit "add foo");
     git_user := Some (lit "Callum McCabe");
     toplevel := Some (lit "/Users/callum/Turbotise") |}.

(** The answer of a backend that follows engine.py's prompt. *)
Definition skills_answer : str :=
  json "{'response': '{\'technologies\': [\'Python\'], \'core_concepts\': [\'plist\'], \'summary\': \'Finder metadata.\'}'}".

(** The world once search.py or engine.py has started. *)
Definition watching : World := world_after search.main (answering []) fresh.

(** The world once the hook has created its table. *)
Definition hooked : World :=
  snd (commit_analyzer.init_database (answering []) fresh).

(** A payload with one canonical field and one the prompt never asked for. *)
Definition summary_only : dict :=
  [ (lit "analysis_summary", PStr (lit "Prints a line.")) ].

Definition summary_and_mood : dict :=
  [ (lit "mood", PStr (lit "cheerful"));
    (lit "analysis_summary", PStr (lit "Prints a line.")) ].

(** The answer of a backend that follows the five-field prompt. *)
Definition five_field_answer : str :=
  json "{'response': '{\'primary_technologies\':[\'Python\'],\'supporting_libraries\':[],\'key_patterns_and_concepts\':[\'function definition\'],\'inferred_skills\':[\'Python programming\'],\'analysis_summary\':\'Defines an empty function.\'}'}".

(** The same machine where the saved file holds white space only. *)
Definition blank_file : Env :=
  {| db_opens := true;
     reply := Response 200 five_field_answer;
     latency := 3;
     file_text := Some [32%N; 10%N; 9%N];
     login := Some (lit "callum");
     staged := None;
     message := None;
     git_user := None;
     toplevel := None |}.

(** ** Vocabulary of the properties *)

(** The id the next insert would take. *)
Definition next_of (d : database) : Z :=
  match d with Some t => next_id t | None => 1 end.

(** [a, a+1, ...], [n] of them. *)
Fixpoint ids_from (a : Z) (n : nat) : list Z :=
  match n with
  | O => []
  | S n' => a :: ids_from (a + 1) n'
  end.

(** One call of commit_analyzer's [save_expertise]: how long after the
    previous one it comes, what it meets outside, and its arguments. *)
Record save_call := {
  call_after : Z;
  call_env   : Env;
  call_user  : pyval;
  call_repo  : pyval;
  call_hash  : pyval;
  call_analysis : pyval
}.

(** Time passing. *)
Definition tick (seconds : Z) (w : World) : World :=
  {| db := db w; clock := clock w + seconds; trace := trace w |}.

(** A single writer makes the calls one after the other; a call that
    raises does not stop the next one.  Each call is listed with its
    outcome and the instant at which it was made. *)
Fixpoint run_saves (calls : list save_call) (w : World)
  : list (result unit * Z) * World :=
  match calls with
  | [] => ([], w)
  | c :: rest =>
      let w0 := tick (call_after c) w in
      let '(r, w1) := commit_analyzer.save_expertise
                        (call_user c) (call_repo c) (call_hash c)
                        (call_analysis c) (call_env c) w0 in
      let '(rs, w2) := run_saves rest w1 in
      ((r, clock w0) :: rs, w2)
  end.

Definition succeeded (r : result unit) : bool :=
  match r with Ok _ => true | Raise _ => false end.

(** The calls that appended, with their instants. *)
Definition written (outcomes : list (result unit * Z)) : list (result unit * Z) :=
  filter (fun o => succeeded (fst o)) outcomes.

(** A payload with the field names of engine.py's prompt. *)
Definition legacy_payload : dict :=
  [ (lit "technologies", PList [PStr (lit "Python"); PStr (lit "Flask")]);
    (lit "core_concepts", PList [PStr (lit "web server")]);
    (lit "summary", PStr (lit "Serves a page.")) ].

(** A payload whose first list field is a str. *)
Definition str_for_list : dict :=
  [ (lit "primary_technologies", PStr (lit "Python"));
    (lit "analysis_summary", PStr (lit "Prints a line.")) ].

(** Three commits in a row; the backend's answer to the second cannot be
    stored, its summary being a list. *)
Definition three_commits : list save_call :=
  [ {| call_after := 60; call_env := answering [];
       call_user := PStr (lit "callum"); call_repo := PStr (lit "Turbotise");
       call_hash := PStr (lit "pre-commit-analysis");
       call_analysis := PDict summary_only |};
    {| call_after := 600; call_env := answering [];
       call_user := PStr (lit "callum"); call_repo := PStr (lit "Turbotise");
       call_hash := PStr (lit "pre-commit-analysis");
       call_analysis := PDict [(lit "analysis_summary", PList [])] |};
    {| call_after := 30; call_env := answering [];
       call_user := PStr (lit "callum"); call_repo := PStr (lit "Turbotise");
       call_hash := PStr (lit "pre-commit-analysis");
       call_analysis := PDict summary_and_mood |} ].

(** The keys the five-field prompt asks for. *)
Definition canonical_keys : list str :=
  [ lit "primary_technologies"; lit "supporting_libraries";
    lit "key_patterns_and_concepts"; lit "inferred_skills";
    lit "analysis_summary" ].


(** The payload the backend's answer carries: the str under "response"
    in the envelope. *)
Definition carries (e : Env) (payload : str) : Prop :=
  exists status body envelope,
    reply e = Response status body
    /\ decode body = Some (PDict envelope)
    /\ dict_lookup (lit "response") envelope = Some (PStr payload).

Definition is_dict (v : pyval) : bool :=
  match v with PDict _ => true | _ => false end.

(** [d.get(k, default)] on a dict. *)
Definition field (d : dict) (k : string) (default : pyval) : pyval :=
  match dict_lookup (lit k) d with Some v => v | None => default end.

(** The world after the program has done [l] and nothing else. *)
Definition logged (w : World) (l : list action) : World :=
  {| db := db w; clock := clock w; trace := trace w ++ l |}.

(** The members of the INSERT's tuple for a dict, at the instant [t]. *)
Definition commit_values (u rn h : pyval) (d : dict) (t : Z) : list param :=
  [ PyVal u; Stamp t; PyVal rn; PyVal h;
    Dumped (field d "primary_technologies" (PList []));
    Dumped (field d "supporting_libraries" (PList []));
    Dumped (field d "key_patterns_and_concepts" (PList []));
    Dumped (field d "inferred_skills" (PList []));
    PyVal (field d "analysis_summary" (PStr [])) ].

Definition engine_values (u p : pyval) (d : dict) (t : Z) : list param :=
  [ PyVal u; Stamp t; PyVal p;
    Dumped (field d "technologies" (PList []));
    Dumped (field d "core_concepts" (PList []));
    PyVal (field d "summary" (PStr [])) ].

Definition search_values (u p : pyval) (d : dict) (t : Z)
                         (technologies core_concepts : pyval) : list param :=
  [ PyVal u; Stamp t; PyVal p;
    Dumped technologies; Dumped core_concepts;
    PyVal (field d "analysis_summary" (PStr [])) ].

(** What the two-layer parse of the backend's answer gives. *)
Definition parsed (r : http_reply) : result pyval :=
  match r with
  | NoResponse => Raise RequestException
  | Response status body =>
      if (400 <=? status) && (status <? 600) then Raise RequestException
      else
        match decode body with
        | None => Raise RequestException
        | Some envelope =>
            match py_get envelope (lit "response") (PStr (lit "{}")) with
            | Ok payload => json_loads payload
            | Raise x => Raise x
            end
        end
  end.

(** The analysis client: what it returns, and the world it leaves. *)
Definition returned (r : result pyval) : result pyval :=
  match r with
  | Raise RequestException => Ok PNone
  | other => other
  end.

Definition reported (r : result pyval) : list action :=
  match r with
  | Raise RequestException => [Print LNoBackend]
  | _ => []
  end.

(** The log is as it was. *)
Definition untouched (d d' : database) : Prop :=
  records d' = records d /\ next_of d' = next_of d.

(** The log has one more record, under the next id. *)
Definition one_more (d d' : database) (r : row) : Prop :=
  records d' = records d ++ [r]
  /\ rowid r = next_of d
  /\ next_of d' = next_of d + 1.

(** A handler that appends at most once per event.  It returns; it has
    called the analysis client at most once and opened at most one
    connection, which is what a call of [save_expertise] starts with; the
    log is as it was or has one more record, and is as it was when no
    connection was opened; a connection is opened only for a truthy result
    of the analysis; a directory event does nothing; and for a file whose
    text trims to empty the handler reads the file, prints that it is
    empty, and neither calls the analysis client nor opens a connection. *)
Definition appends_at_most_once (on_modified : event -> M unit)
                                (analyze : str -> M pyval) : Prop :=
  forall (ev : event) (e : Env) (w : World),
    fst (on_modified ev e w) = Ok tt
    /\ exists l,
         trace (snd (on_modified ev e w)) = trace w ++ l
         /\ (List.length (filter is_post l) <= 1)%nat
         /\ (List.length (filter is_connect l) <= 1)%nat
         /\ (untouched (db w) (db (snd (on_modified ev e w)))
             \/ exists r, one_more (db w) (db (snd (on_modified ev e w))) r)
         /\ (filter is_connect l = [] -> db (snd (on_modified ev e w)) = db w)
         /\ (filter is_connect l <> [] ->
             exists a, truthy a = true
                       /\ forall content, fst (analyze content e w) = Ok a)
         /\ (is_directory ev = true -> l = [])
         /\ (forall content, file_text e = Some content ->
               strip content = [] ->
               (l = [] \/ l = [Print (LDetected (src_path ev));
                               Open (src_path ev); Print LEmptyFile])
               /\ filter is_post l = [] /\ filter is_connect l = []
               /\ db (snd (on_modified ev e w)) = db w).

(** The hook with an empty commit message. *)
Definition blank_message : Env :=
  {| db_opens := true;
     reply := NoResponse;
     latency := 0;
     file_text := None;
     login := None;
     staged := Some (lit "+def foo(): pass");
     message := Some (lit "   ");
     git_user := Some (lit "Callum McCabe");
     toplevel := Some (lit "/Users/callum/Turbotise") |}.

(** ** Vocabulary of the further properties *)

(** A value SQLite cannot bind: a list or a dict. *)
Definition is_container (v : pyval) : bool :=
  match v with PList _ | PDict _ => true | _ => false end.

(** A str that encodes to UTF-8. *)
Definition encodable (s : str) : bool := negb (existsb is_surrogate s).

(** What a TEXT column holds for a summary that is a str or None (the
    JSON null): the value as it is bound.  A number is bound as well,
    but the TEXT affinity of the column then stores its text, which the
    rows of this model do not render: the properties that state a stored
    row take the summary from here. *)
Definition text_cell (v : pyval) : option sqlval :=
  match v with
  | PNone => Some SqlNull
  | PStr s => if encodable s then Some (SqlText (Str s)) else None
  | _ => None
  end.

(** A payload with none of the five canonical keys, as one with the
    field names of engine.py's prompt. *)
Definition no_canonical_key (d : dict) : Prop :=
  forall k, In k canonical_keys -> dict_lookup k d = None.

(** The three [init_database], each with the columns it creates. *)
Definition initializers : list (M unit * list column) :=
  [ (commit_analyzer.init_database, commit_analyzer.schema);
    (search.init_database, search.schema);
    (engine.init_database, engine.schema) ].

(** The file beside the scripts once search.py has started and the hook
    has then run its own [init_database]. *)
Definition watcher_first : World :=
  snd (commit_analyzer.init_database (answering [])
         (snd (search.init_database (answering []) fresh))).

(** The backend does not answer, or answers with an HTTP error status. *)
Definition backend_fails (e : Env) : Prop :=
  reply e = NoResponse
  \/ exists status body,
       reply e = Response status body /\ 400 <= status < 600.

(** The backend answers with a status that [raise_for_status] accepts. *)
Definition backend_answers (e : Env) (body : str) : Prop :=
  exists status,
    reply e = Response status body /\ (status < 400 \/ 600 <= status).

(** A machine whose backend is down. *)
Definition backend_down : Env :=
  {| db_opens := true;
     reply := NoResponse;
     latency := 1;
     file_text := Some (lit "def foo(): pass");
     login := Some (lit "callum");
     staged := Some (lit "+def foo(): pass");
     message := Some (lit "add foo");
     git_user := Some (lit "Callum McCabe");
     toplevel := Some (lit "/Users/callum/Turbotise") |}.

(** The database file holds no table yet, or the table that the program
    with the columns [cols] creates, with ids left to give. *)
Definition holds_table (cols : list column) (d : database) : Prop :=
  match d with
  | None => True
  | Some t => columns t = cols /\ next_id t <= int64_max
  end.

(** What [get_git_info] meets first when git does not answer: the
    commands raise CalledProcessError, the message file OSError. *)
Definition git_error (e : Env) : exn :=
  match staged e, message e with
  | Some _, None => OSError
  | _, _ => CalledProcessError
  end.

(** The world once the hook has announced itself and [init_database]
    has returned. *)
Definition started (w : World) : World :=
  {| db := sql_create commit_analyzer.schema (db w);
     clock := clock w;
     trace := trace w ++ [Print LRunning; Connect] |}.

(** The world once the hook's analysis of [msg] and [diff] has returned
    or has raised. *)
Definition analyzed (e : Env) (w : World) (msg diff : str) : World :=
  {| db := sql_create commit_analyzer.schema (db w);
     clock := clock w + latency e;
     trace := trace w
                ++ [Print LRunning; Connect; Print LAnalyzing;
                    Post (lit "mistral")
                      (CommitPrompt
                         (commit_analyzer.analysis_content (Some msg)
                            (Some diff))) 180]
                ++ reported (parsed (reply e)) |}.


(** A commit with a blank message in a repository where user.name is
    not set: [git config user.name] fails. *)
Definition no_user_name : Env :=
  {| db_opens := true;
     reply := NoResponse;
     latency := 0;
     file_text := None;
     login := None;
     staged := Some (lit "+def foo(): pass");
     message := Some (lit "   ");
     git_user := None;
     toplevel := Some (lit "/Users/callum/Turbotise") |}.

(* ================================================================== *)
(** * Part V: properties *)
(* ================================================================== *)

Create HintDb py.

#[local] Hint Unfold bind ret raise lift ask get put act print try_except
  sys_exit sqlite3_connect execute_create execute_insert commit close
  time_strftime requests_post raise_for_status response_json read_file
  os_getlogin read_from : py.

#[local] Hint Unfold commit_analyzer.main commit_analyzer.init_database
  commit_analyzer.get_git_info commit_analyzer.save_expertise
  commit_analyzer.insert_values commit_analyzer.analyze_content_with_llm
  search.main search.init_database search.save_expertise
  search.insert_values search.analyze_content_with_llm search.on_modified
  search.show
  engine.main engine.init_database engine.save_expertise
  engine.insert_values engine.analyze_content_with_llm engine.on_modified
  engine.show : py.

#[local] Arguments commit_analyzer.analyze_content_with_llm : simpl never.
#[local] Arguments commit_analyzer.save_expertise : simpl never.
#[local] Arguments search.analyze_content_with_llm : simpl never.
#[local] Arguments search.save_expertise : simpl never.
#[local] Arguments engine.analyze_content_with_llm : simpl never.
#[local] Arguments engine.save_expertise : simpl never.

(** The monad's operations alone, the programs' functions left folded. *)
#[local] Arguments startswith : simpl never.
#[local] Arguments basename : simpl never.
#[local] Arguments strip : simpl never.
#[local] Arguments dict_lookup : simpl never.

Ltac run :=
  unfold read_file, os_getlogin, read_from, print, sys_exit;
  unfold act, try_except, bind, ret, raise, lift, ask, get, put; simpl.

(** ** Strings and the store *)

Lemma str_eqb_eq (a b : str) : str_eqb a b = true <-> a = b.
Proof.
  unfold str_eqb. destruct (list_eq_dec N.eq_dec a b); split; congruence.
Qed.

Lemma records_create (cols : list column) (d : database) :
  records (sql_create cols d) = records d.
Proof. destruct d; reflexivity. Qed.

Lemma next_of_create (cols : list column) (d : database) :
  next_of (sql_create cols d) = next_of d.
Proof. destruct d; reflexivity. Qed.

Lemma app_one_neq {A} (l : list A) (x : A) : l <> l ++ [x].
Proof.
  intro H. apply (f_equal (@List.length A)) in H.
  rewrite length_app in H. simpl in H. lia.
Qed.

Lemma max_rowid_app (l : list row) (r : row) :
  max_rowid (l ++ [r]) = Z.max (max_rowid l) (rowid r).
Proof.
  unfold max_rowid. induction l as [| a l IH]; simpl.
  - lia.
  - rewrite IH. lia.
Qed.

Lemma max_rowid_nonneg (l : list row) : 0 <= max_rowid l.
Proof.
  unfold max_rowid. induction l as [| a l IH]; simpl; lia.
Qed.

Lemma assoc_columns (g : str -> sqlval) (cols : list column) (name : str) :
  existsb (fun c => str_eqb name (col_name c)) cols = true ->
  assoc name (map (fun c => (col_name c, g (col_name c))) cols)
    = Some (g name).
Proof.
  induction cols as [| c cols IH]; simpl; intro H.
  - discriminate.
  - destruct (str_eqb name (col_name c)) eqn:E.
    + apply str_eqb_eq in E. subst. reflexivity.
    + apply IH. exact H.
Qed.

(** A successful INSERT appends one row, under the next id, holding the
    bound value of every column the statement names. *)
Lemma sql_insert_ok (names : list str) (ps : list param) (d d' : database) :
  sql_insert names ps d = Ok d' ->
  exists r vs,
    one_more d d' r
    /\ bind_params ps = Ok vs
    /\ forall name, In name names ->
         cell r name = match assoc name (combine names vs) with
                       | Some v => v
                       | None => SqlNull
                       end.
Proof.
  unfold sql_insert. destruct d as [t |]; [| discriminate].
  destruct (forallb (has_column t) names) eqn:Hcols; simpl; [| discriminate].
  destruct (bind_params ps) as [vs | x]; [| discriminate].
  destruct (existsb _ (columns t)); [discriminate |].
  destruct (int64_max <? next_id t); [discriminate |].
  intro H. injection H as <-.
  eexists. exists vs. split; [| split].
  - unfold one_more. simpl. split; [reflexivity |]. split; [reflexivity |].
    unfold next_id. simpl. rewrite max_rowid_app. simpl.
    pose proof (max_rowid_nonneg (rows t)). lia.
  - reflexivity.
  - intros name Hin. unfold cell. simpl.
    rewrite forallb_forall in Hcols. specialize (Hcols name Hin).
    unfold has_column in Hcols.
    rewrite (assoc_columns
               (fun k => match assoc k (combine names vs) with
                         | Some v => v
                         | None => SqlNull
                         end) _ _ Hcols).
    reflexivity.
Qed.

Lemma untouched_refl (d : database) : untouched d d.
Proof. split; reflexivity. Qed.

(** ** The three [save_expertise] and [analyze_content_with_llm], run *)

Ltac same_world :=
  repeat (simpl; rewrite <- ?app_assoc, ?app_nil_r); reflexivity.

Lemma commit_save_dict (u rn h : pyval) (d : dict) (e : Env) (w : World) :
  commit_analyzer.save_expertise u rn h (PDict d) e w =
    if db_opens e then
      match sql_insert (map col_name commit_analyzer.schema)
                       (commit_values u rn h d (clock w)) (db w) with
      | Ok d' => (Ok tt, {| db := d'; clock := clock w;
                            trace := (trace w ++ [Connect]) ++ [Print LSaved] |})
      | Raise x => (Raise x, logged w [Connect])
      end
    else (Raise OperationalError, logged w [Connect]).
Proof.
  autounfold with py. unfold logged, commit_values, field. simpl.
  destruct (db_opens e); simpl; [| reflexivity].
  destruct (sql_insert _ _ (db w)); reflexivity.
Qed.

Lemma commit_save_other (u rn h a : pyval) (e : Env) (w : World) :
  is_dict a = false ->
  commit_analyzer.save_expertise u rn h a e w =
    (Raise (if db_opens e then AttributeError else OperationalError),
     logged w [Connect]).
Proof.
  intro H. autounfold with py. unfold logged. simpl.
  destruct (db_opens e); simpl; [| reflexivity].
  destruct a; try discriminate; reflexivity.
Qed.

Lemma engine_save_dict (u p : str) (d : dict) (e : Env) (w : World) :
  engine.save_expertise (PStr u) (PStr p) (PDict d) e w =
    if db_opens e then
      match sql_insert (map col_name engine.schema)
                       (engine_values (PStr u) (PStr p) d (clock w))
                       (db w) with
      | Ok d' => (Ok tt, {| db := d'; clock := clock w;
                            trace := (trace w ++ [Connect])
                                       ++ [Print (LSavedFrom (basename p))] |})
      | Raise x => (Raise x, logged w [Connect])
      end
    else (Raise OperationalError, logged w [Connect]).
Proof.
  autounfold with py. unfold logged, engine_values, field. simpl.
  destruct (db_opens e); simpl; [| reflexivity].
  destruct (sql_insert _ _ (db w)); reflexivity.
Qed.

Lemma search_save_dict (u p : str) (d : dict) (e : Env) (w : World) :
  search.save_expertise (PStr u) (PStr p) (PDict d) e w =
    if db_opens e then
      match py_add (field d "primary_technologies" (PList []))
                   (field d "supporting_libraries" (PList [])) with
      | Raise x => (Raise x, logged w [Connect])
      | Ok technologies =>
          match py_add (field d "key_patterns_and_concepts" (PList []))
                       (field d "inferred_skills" (PList [])) with
          | Raise x => (Raise x, logged w [Connect])
          | Ok core_concepts =>
              match sql_insert (map col_name search.schema)
                      (search_values (PStr u) (PStr p) d (clock w)
                                     technologies core_concepts)
                      (db w) with
              | Ok d' =>
                  (Ok tt, {| db := d'; clock := clock w;
                             trace := (trace w ++ [Connect])
                                        ++ [Print (LSavedFrom (basename p))] |})
              | Raise x => (Raise x, logged w [Connect])
              end
          end
      end
    else (Raise OperationalError, logged w [Connect]).
Proof.
  autounfold with py. unfold logged, search_values, field. simpl.
  destruct (db_opens e); simpl; [| reflexivity].
  destruct (py_add _ _); simpl; [| reflexivity].
  destruct (py_add _ _); simpl; [| reflexivity].
  destruct (sql_insert _ _ (db w)); reflexivity.
Qed.

Lemma commit_analyze_run (content : str) (e : Env) (w : World) :
  commit_analyzer.analyze_content_with_llm content e w =
    (returned (parsed (reply e)),
     {| db := db w; clock := clock w + latency e;
        trace := (trace w ++ [Print LAnalyzing;
                              Post commit_analyzer.MODEL_NAME
                                   (CommitPrompt content) 180])
                   ++ reported (parsed (reply e)) |}).
Proof.
  autounfold with py. unfold parsed. simpl.
  destruct (reply e) as [| status body]; simpl; [same_world |].
  destruct ((400 <=? status) && (status <? 600)); simpl; [same_world |].
  destruct (decode body) as [envelope |]; simpl; [| same_world].
  destruct (py_get envelope _ _) as [payload | x]; simpl;
    [| destruct x; same_world].
  destruct (json_loads payload) as [v | x]; simpl;
    [| destruct x]; same_world.
Qed.

Lemma search_analyze_run (content : str) (e : Env) (w : World) :
  search.analyze_content_with_llm content e w =
    (returned (parsed (reply e)),
     {| db := db w; clock := clock w + latency e;
        trace := (trace w ++ [Print LAsking;
                              Print (LLength (List.length content));
                              Post search.MODEL_NAME (CodePrompt content) 120])
                   ++ reported (parsed (reply e)) |}).
Proof.
  autounfold with py. unfold parsed. simpl.
  destruct (reply e) as [| status body]; simpl; [same_world |].
  destruct ((400 <=? status) && (status <? 600)); simpl; [same_world |].
  destruct (decode body) as [envelope |]; simpl; [| same_world].
  destruct (py_get envelope _ _) as [payload | x]; simpl;
    [| destruct x; same_world].
  destruct (json_loads payload) as [v | x]; simpl;
    [| destruct x]; same_world.
Qed.

Lemma engine_analyze_run (content : str) (e : Env) (w : World) :
  engine.analyze_content_with_llm content e w =
    (returned (parsed (reply e)),
     {| db := db w; clock := clock w + latency e;
        trace := (trace w ++ [Print LAsking;
                              Print (LLength (List.length content));
                              Post engine.MODEL_NAME (SkillsPrompt content) 120])
                   ++ reported (parsed (reply e)) |}).
Proof.
  autounfold with py. unfold parsed. simpl.
  destruct (reply e) as [| status body]; simpl; [same_world |].
  destruct ((400 <=? status) && (status <? 600)); simpl; [same_world |].
  destruct (decode body) as [envelope |]; simpl; [| same_world].
  destruct (py_get envelope _ _) as [payload | x]; simpl;
    [| destruct x; same_world].
  destruct (json_loads payload) as [v | x]; simpl;
    [| destruct x]; same_world.
Qed.

(** Nothing in the two-layer parse raises SystemExit. *)
Lemma parsed_raises_Exception (r : http_reply) (x : exn) :
  parsed r = Raise x -> is_Exception x = true.
Proof.
  unfold parsed. destruct r as [| status body]; [intros [= <-]; reflexivity |].
  destruct ((400 <=? status) && (status <? 600));
    [intros [= <-]; reflexivity |].
  destruct (decode body) as [envelope |]; [| intros [= <-]; reflexivity].
  destruct envelope; simpl; try (intros [= <-]; reflexivity).
  unfold json_loads, json_loads_str.
  destruct (match dict_lookup _ d with Some v => v | None => _ end);
    try (intros [= <-]; reflexivity).
  destruct (decode s); [discriminate | intros [= <-]; reflexivity].
Qed.

(** ** Saves that succeed *)

Lemma bind_str (s : str) :
  encodable s = true -> bind_param (PyVal (PStr s)) = Ok (SqlText (Str s)).
Proof.
  unfold encodable. simpl. destruct (existsb is_surrogate s);
    [discriminate | reflexivity].
Qed.

(** A summary that is a str or None is bound as it is. *)
Lemma text_cell_binds (v : pyval) (c : sqlval) :
  text_cell v = Some c -> bind_param (PyVal v) = Ok c.
Proof.
  destruct v as [| | | | s | |]; try discriminate.
  - intros [= <-]. reflexivity.
  - simpl. unfold encodable.
    destruct (existsb is_surrogate s); simpl; [discriminate |].
    intros [= <-]. reflexivity.
Qed.

Lemma holds_table_create (cols : list column) (d : database) :
  holds_table cols d ->
  exists t,
    sql_create cols d = Some t
    /\ columns t = cols
    /\ rows t = records d
    /\ next_id t = next_of d
    /\ next_id t <= int64_max.
Proof.
  destruct d as [t |]; simpl.
  - intros [Hc Hn]. exists t. repeat split; assumption.
  - intros _. eexists. split; [reflexivity |]. simpl.
    repeat split. vm_compute. discriminate.
Qed.

(** On a table with the columns of the program that writes to it,
    [save_expertise] returns and the table has the row it was given. *)
Lemma commit_save_succeeds
    (u rn h : str) (d : dict) (summary : sqlval) (e : Env) (w : World)
    (t : table) :
  db_opens e = true ->
  db w = Some t -> columns t = commit_analyzer.schema ->
  next_id t <= int64_max ->
  encodable u = true -> encodable rn = true -> encodable h = true ->
  text_cell (field d "analysis_summary" (PStr [])) = Some summary ->
  commit_analyzer.save_expertise (PStr u) (PStr rn) (PStr h) (PDict d) e w
  = (Ok tt,
     {| db :=
          Some
            {| columns := commit_analyzer.schema;
               rows :=
                 rows t ++
                 [ {| rowid := next_id t;
                      cells :=
                        [ (lit "user_id", SqlText (Str u));
                          (lit "timestamp", SqlText (Strftime (clock w)));
                          (lit "repo_name", SqlText (Str rn));
                          (lit "commit_hash", SqlText (Str h));
                          (lit "primary_technologies",
                           SqlText (JsonDumps
                                      (field d "primary_technologies"
                                         (PList []))));
                          (lit "supporting_libraries",
                           SqlText (JsonDumps
                                      (field d "supporting_libraries"
                                         (PList []))));
                          (lit "key_patterns_and_concepts",
                           SqlText (JsonDumps
                                      (field d "key_patterns_and_concepts"
                                         (PList []))));
                          (lit "inferred_skills",
                           SqlText (JsonDumps
                                      (field d "inferred_skills" (PList []))));
                          (lit "analysis_summary", summary) ] |} ];
               seq := next_id t |};
        clock := clock w;
        trace := (trace w ++ [Connect]) ++ [Print LSaved] |}).
Proof.
  intros Hopen Ht Hc Hmax Hu Hrn Hh Hsum. apply text_cell_binds in Hsum.
  rewrite commit_save_dict, Hopen, Ht.
  unfold sql_insert, commit_values.
  cbn [bind_params]. rewrite (@bind_str _ Hu), (@bind_str _ Hrn), (@bind_str _ Hh), Hsum.
  cbn [bind_param]. unfold has_column. rewrite Hc.
  replace (int64_max <? next_id t) with false
    by (symmetry; apply Z.ltb_ge; exact Hmax).
  reflexivity.
Qed.

Lemma search_save_succeeds
    (u p : str) (d : dict) (technologies core_concepts : pyval)
    (summary : sqlval) (e : Env) (w : World) (t : table) :
  db_opens e = true ->
  db w = Some t -> columns t = search.schema -> next_id t <= int64_max ->
  encodable u = true -> encodable p = true ->
  py_add (field d "primary_technologies" (PList []))
         (field d "supporting_libraries" (PList [])) = Ok technologies ->
  py_add (field d "key_patterns_and_concepts" (PList []))
         (field d "inferred_skills" (PList [])) = Ok core_concepts ->
  text_cell (field d "analysis_summary" (PStr [])) = Some summary ->
  search.save_expertise (PStr u) (PStr p) (PDict d) e w
  = (Ok tt,
     {| db :=
          Some
            {| columns := search.schema;
               rows :=
                 rows t ++
                 [ {| rowid := next_id t;
                      cells :=
                        [ (lit "user_id", SqlText (Str u));
                          (lit "timestamp", SqlText (Strftime (clock w)));
                          (lit "file_path", SqlText (Str p));
                          (lit "technologies",
                           SqlText (JsonDumps technologies));
                          (lit "core_concepts",
                           SqlText (JsonDumps core_concepts));
                          (lit "summary", summary) ] |} ];
               seq := next_id t |};
        clock := clock w;
        trace := (trace w ++ [Connect]) ++ [Print (LSavedFrom (basename p))] |}).
Proof.
  intros Hopen Ht Hc Hmax Hu Hp Ht1 Ht2 Hsum. apply text_cell_binds in Hsum.
  rewrite search_save_dict, Hopen, Ht1, Ht2, Ht.
  unfold sql_insert, search_values.
  cbn [bind_params]. rewrite (@bind_str _ Hu), (@bind_str _ Hp), Hsum.
  cbn [bind_param]. unfold has_column. rewrite Hc.
  replace (int64_max <? next_id t) with false
    by (symmetry; apply Z.ltb_ge; exact Hmax).
  reflexivity.
Qed.

Lemma engine_save_succeeds
    (u p : str) (d : dict) (summary : sqlval) (e : Env) (w : World)
    (t : table) :
  db_opens e = true ->
  db w = Some t -> columns t = engine.schema -> next_id t <= int64_max ->
  encodable u = true -> encodable p = true ->
  text_cell (field d "summary" (PStr [])) = Some summary ->
  engine.save_expertise (PStr u) (PStr p) (PDict d) e w
  = (Ok tt,
     {| db :=
          Some
            {| columns := engine.schema;
               rows :=
                 rows t ++
                 [ {| rowid := next_id t;
                      cells :=
                        [ (lit "user_id", SqlText (Str u));
                          (lit "timestamp", SqlText (Strftime (clock w)));
                          (lit "file_path", SqlText (Str p));
                          (lit "technologies",
                           SqlText (JsonDumps
                                      (field d "technologies" (PList []))));
                          (lit "core_concepts",
                           SqlText (JsonDumps
                                      (field d "core_concepts" (PList []))));
                          (lit "summary", summary) ] |} ];
               seq := next_id t |};
        clock := clock w;
        trace := (trace w ++ [Connect]) ++ [Print (LSavedFrom (basename p))] |}).
Proof.
  intros Hopen Ht Hc Hmax Hu Hp Hsum. apply text_cell_binds in Hsum.
  rewrite engine_save_dict, Hopen, Ht.
  unfold sql_insert, engine_values.
  cbn [bind_params]. rewrite (@bind_str _ Hu), (@bind_str _ Hp), Hsum.
  cbn [bind_param]. unfold has_column. rewrite Hc.
  replace (int64_max <? next_id t) with false
    by (symmetry; apply Z.ltb_ge; exact Hmax).
  reflexivity.
Qed.



(** ** What can be raised *)

Lemma bind_params_raises (ps : list param) (x : exn) :
  bind_params ps = Raise x -> is_Exception x = true.
Proof.
  induction ps as [| p ps IH]; simpl; [discriminate |].
  destruct (bind_param p) as [v | y] eqn:E.
  - destruct (bind_params ps); [discriminate |].
    intros [= <-]. apply IH. reflexivity.
  - intros [= <-]. destruct p as [v | v | t]; simpl in E; try discriminate.
    destruct v; simpl in E; try discriminate;
      repeat match type of E with
             | (if ?c then _ else _) = _ => destruct c
             | match ?f with _ => _ end = _ => destruct f
             end; try discriminate; injection E as <-; reflexivity.
Qed.

Lemma sql_insert_raises (names : list str) (ps : list param) (d : database)
                        (x : exn) :
  sql_insert names ps d = Raise x -> is_Exception x = true.
Proof.
  unfold sql_insert. destruct d as [t |]; [| intros [= <-]; reflexivity].
  destruct (negb _); [intros [= <-]; reflexivity |].
  destruct (bind_params ps) as [vs | y] eqn:E.
  - destruct (existsb _ _); [intros [= <-]; reflexivity |].
    destruct (_ <? _); [intros [= <-]; reflexivity | discriminate].
  - intros [= <-]. exact (bind_params_raises _ E).
Qed.

Lemma py_add_raises (a b : pyval) (x : exn) :
  py_add a b = Raise x -> is_Exception x = true.
Proof.
  unfold py_add, num_add.
  destruct a, b; simpl; try (intros [= <-]; reflexivity); try discriminate;
    repeat match goal with
           | |- context [float_of_int ?z] => destruct (float_of_int z)
           end; try discriminate; intros [= <-]; reflexivity.
Qed.

(** ** The watchers' handlers, case by case *)

(** What a call of search.py's [save_expertise] on a dict leaves: one
    connection, and either the log as it was, with an exception, or one
    more record. *)
Lemma search_save_summary (u p : str) (d : dict) (e : Env) (w : World) :
  exists l,
    trace (snd (search.save_expertise (PStr u) (PStr p) (PDict d) e w))
      = trace w ++ Connect :: l
    /\ filter is_connect l = [] /\ filter is_post l = []
    /\ match fst (search.save_expertise (PStr u) (PStr p) (PDict d) e w) with
       | Ok _ => exists r,
           one_more (db w)
             (db (snd (search.save_expertise (PStr u) (PStr p) (PDict d) e w)))
             r
       | Raise x =>
           is_Exception x = true
           /\ db (snd (search.save_expertise (PStr u) (PStr p) (PDict d) e w))
              = db w
       end.
Proof.
  rewrite search_save_dict.
  destruct (db_opens e); simpl.
  2:{ exists []. repeat split. }
  destruct (py_add _ _) as [t | x] eqn:E1; simpl.
  2:{ exists []. repeat split. exact (py_add_raises _ _ E1). }
  destruct (py_add _ _) as [c | x] eqn:E2 in |- *; simpl.
  2:{ exists []. repeat split. exact (py_add_raises _ _ E2). }
  destruct (sql_insert _ _ (db w)) as [d' | x] eqn:E3; simpl.
  - exists [Print (LSavedFrom (basename p))].
    rewrite <- app_assoc. repeat split.
    destruct (sql_insert_ok _ _ _ E3) as (r & vs & H & _). exists r. exact H.
  - exists []. repeat split. exact (sql_insert_raises _ _ _ E3).
Qed.

(** The same for engine.py's. *)
Lemma engine_save_summary (u p : str) (d : dict) (e : Env) (w : World) :
  exists l,
    trace (snd (engine.save_expertise (PStr u) (PStr p) (PDict d) e w))
      = trace w ++ Connect :: l
    /\ filter is_connect l = [] /\ filter is_post l = []
    /\ match fst (engine.save_expertise (PStr u) (PStr p) (PDict d) e w) with
       | Ok _ => exists r,
           one_more (db w)
             (db (snd (engine.save_expertise (PStr u) (PStr p) (PDict d) e w)))
             r
       | Raise x =>
           is_Exception x = true
           /\ db (snd (engine.save_expertise (PStr u) (PStr p) (PDict d) e w))
              = db w
       end.
Proof.
  rewrite engine_save_dict.
  destruct (db_opens e); simpl.
  2:{ exists []. repeat split. }
  destruct (sql_insert _ _ (db w)) as [d' | x] eqn:E3; simpl.
  - exists [Print (LSavedFrom (basename p))].
    rewrite <- app_assoc. repeat split.
    destruct (sql_insert_ok _ _ _ E3) as (r & vs & H & _). exists r. exact H.
  - exists []. repeat split. exact (sql_insert_raises _ _ _ E3).
Qed.

(** Closes a case in which the handler has not called [save_expertise]. *)
Ltac quiet :=
  split; [reflexivity |]; eexists; rewrite <- ?app_assoc; simpl;
  (split; [reflexivity |]); simpl;
  repeat split; auto; try discriminate; try lia; try (intros; congruence).

(** search.py's handler returns, whatever it met.  It has sent at most one
    request; it has opened a connection only for a non-empty dict that the
    analysis returned, once, and then the log has at most one more
    record. *)
Lemma search_on_modified_cases (ev : event) (e : Env) (w : World) :
  fst (search.on_modified ev e w) = Ok tt
  /\ exists l,
       trace (snd (search.on_modified ev e w)) = trace w ++ l
       /\ (List.length (filter is_post l) <= 1)%nat
       /\ (is_directory ev = true -> l = [])
       /\ (startswith (lit ".") (basename (src_path ev)) = true -> l = [])
       /\ (forall content, file_text e = Some content ->
             strip content = [] ->
             l = [] \/ l = [Print (LDetected (src_path ev));
                            Open (src_path ev); Print LEmptyFile])
       /\ ((filter is_connect l = []
            /\ db (snd (search.on_modified ev e w)) = db w)
           \/ (filter is_connect l = [Connect]
               /\ (exists k v d, parsed (reply e) = Ok (PDict ((k, v) :: d)))
               /\ (untouched (db w) (db (snd (search.on_modified ev e w)))
                   \/ exists r,
                        one_more (db w)
                                 (db (snd (search.on_modified ev e w))) r))).
Proof.
  unfold search.on_modified, search.show. run.
  destruct (is_directory ev); simpl.
  { split; [reflexivity |]. exists []. rewrite app_nil_r.
    repeat split; auto. }
  destruct (startswith (lit ".") (basename (src_path ev))); simpl.
  { split; [reflexivity |]. exists []. rewrite app_nil_r.
    repeat split; auto. }
  destruct (file_text e) as [content |]; simpl; [| quiet].
  destruct (strip content) eqn:Hs; simpl; [quiet |].
  rewrite search_analyze_run. simpl.
  destruct (parsed (reply e)) as [a | x] eqn:P; simpl.
  2:{ pose proof (parsed_raises_Exception _ P) as Hx.
      destruct x; simpl; try discriminate; quiet. }
  destruct (truthy a) eqn:T; simpl; [| quiet].
  destruct a as [| b | z | f | s0 | l0 | d]; simpl; try quiet.
  destruct d as [| [k v] d]; [discriminate |].
  destruct (login e) as [u |] eqn:L; simpl; [| quiet].
  match goal with
  | |- context [search.save_expertise _ _ _ e ?W] =>
      destruct (search_save_summary u (src_path ev) ((k, v) :: d) e W)
        as (l & Htr & Hc & Hp & Hres)
  end.
  destruct (search.save_expertise _ _ _ e _) as [r w'] eqn:S.
  simpl in Htr, Hres.
  destruct r as [[] | x]; simpl.
  - split; [reflexivity |]. eexists. rewrite Htr, <- !app_assoc. simpl.
    split; [reflexivity |]. simpl. rewrite Hp, Hc. simpl.
    repeat split; auto; try discriminate; try (intros; congruence).
    right. repeat split; eauto.
  - destruct Hres as [Hx Hdb]. rewrite Hx. simpl.
    split; [reflexivity |]. eexists. rewrite Htr, <- !app_assoc. simpl.
    split; [reflexivity |]. simpl.
    rewrite !filter_app, Hp, Hc. simpl.
    repeat split; auto; try discriminate; try (intros; congruence).
    right. repeat split; eauto. left. rewrite Hdb. apply untouched_refl.
Qed.

(** The same for engine.py's handler, which has no test on the name. *)
Lemma engine_on_modified_cases (ev : event) (e : Env) (w : World) :
  fst (engine.on_modified ev e w) = Ok tt
  /\ exists l,
       trace (snd (engine.on_modified ev e w)) = trace w ++ l
       /\ (List.length (filter is_post l) <= 1)%nat
       /\ (is_directory ev = true -> l = [])
       /\ (forall content, file_text e = Some content ->
             strip content = [] ->
             l = [] \/ l = [Print (LDetected (src_path ev));
                            Open (src_path ev); Print LEmptyFile])
       /\ ((filter is_connect l = []
            /\ db (snd (engine.on_modified ev e w)) = db w)
           \/ (filter is_connect l = [Connect]
               /\ (exists k v d, parsed (reply e) = Ok (PDict ((k, v) :: d)))
               /\ (untouched (db w) (db (snd (engine.on_modified ev e w)))
                   \/ exists r,
                        one_more (db w)
                                 (db (snd (engine.on_modified ev e w))) r))).
Proof.
  unfold engine.on_modified, engine.show. run.
  destruct (is_directory ev); simpl.
  { split; [reflexivity |]. exists []. rewrite app_nil_r.
    repeat split; auto. }
  destruct (file_text e) as [content |]; simpl; [| quiet].
  destruct (strip content) eqn:Hs; simpl; [quiet |].
  rewrite engine_analyze_run. simpl.
  destruct (parsed (reply e)) as [a | x] eqn:P; simpl.
  2:{ pose proof (parsed_raises_Exception _ P) as Hx.
      destruct x; simpl; try discriminate; quiet. }
  destruct (truthy a) eqn:T; simpl; [| quiet].
  destruct a as [| b | z | f | s0 | l0 | d]; simpl; try quiet.
  destruct d as [| [k v] d]; [discriminate |].
  destruct (login e) as [u |] eqn:L; simpl; [| quiet].
  match goal with
  | |- context [engine.save_expertise _ _ _ e ?W] =>
      destruct (engine_save_summary u (src_path ev) ((k, v) :: d) e W)
        as (l & Htr & Hc & Hp & Hres)
  end.
  destruct (engine.save_expertise _ _ _ e _) as [r w'] eqn:S.
  simpl in Htr, Hres.
  destruct r as [[] | x]; simpl.
  - split; [reflexivity |]. eexists. rewrite Htr, <- !app_assoc. simpl.
    split; [reflexivity |]. simpl. rewrite Hp, Hc. simpl.
    repeat split; auto; try discriminate; try (intros; congruence).
    right. repeat split; eauto.
  - destruct Hres as [Hx Hdb]. rewrite Hx. simpl.
    split; [reflexivity |]. eexists. rewrite Htr, <- !app_assoc. simpl.
    split; [reflexivity |]. simpl.
    rewrite !filter_app, Hp, Hc. simpl.
    repeat split; auto; try discriminate; try (intros; congruence).
    right. repeat split; eauto. left. rewrite Hdb. apply untouched_refl.
Qed.

(** ** The hook, case by case *)

Lemma one_more_after_create (cols : list column) (d d' : database) (r : row) :
  one_more (sql_create cols d) d' r -> one_more d d' r.
Proof.
  unfold one_more. rewrite records_create, next_of_create. auto.
Qed.

Lemma commit_values_bound (u rn h : pyval) (d : dict) (t : Z)
                          (vs : list sqlval) :
  bind_params (commit_values u rn h d t) = Ok vs ->
  exists vu vr vh vsum,
    vs = [ vu; SqlText (Strftime t); vr; vh;
           SqlText (JsonDumps (field d "primary_technologies" (PList [])));
           SqlText (JsonDumps (field d "supporting_libraries" (PList [])));
           SqlText (JsonDumps (field d "key_patterns_and_concepts" (PList [])));
           SqlText (JsonDumps (field d "inferred_skills" (PList [])));
           vsum ]
    /\ bind_param (PyVal (field d "analysis_summary" (PStr []))) = Ok vsum.
Proof.
  unfold commit_values.
  remember (bind_param (PyVal u)) as bu.
  remember (bind_param (PyVal rn)) as br.
  remember (bind_param (PyVal h)) as bh.
  remember (bind_param (PyVal (field d "analysis_summary" (PStr [])))) as bs.
  cbn [bind_params]. rewrite <- Heqbu, <- Heqbr, <- Heqbh, <- Heqbs.
  cbn [bind_param].
  destruct bu as [vu |]; [| discriminate].
  destruct br as [vr |]; [| discriminate].
  destruct bh as [vh |]; [| discriminate].
  destruct bs as [vsum |]; [| discriminate].
  intros [= <-]. exists vu, vr, vh, vsum. split; reflexivity.
Qed.

Lemma commit_main_cases (e : Env) (w : World) :
  records (db (snd (commit_analyzer.main e w))) = records (db w)
  \/ exists k v d r,
       parsed (reply e) = Ok (PDict ((k, v) :: d))
       /\ one_more (db w) (db (snd (commit_analyzer.main e w))) r
       /\ cell r (lit "timestamp")
          = SqlText (Strftime (clock w + latency e))
       /\ fst (commit_analyzer.main e w) = Raise (SystemExit 0).
Proof.
  unfold commit_analyzer.main, commit_analyzer.init_database,
    commit_analyzer.get_git_info.
  unfold sqlite3_connect, execute_create, commit, close. run.
  destruct (db_opens e) eqn:Hdb; simpl; [| left; reflexivity].
  destruct (staged e) as [diff |]; simpl;
    [| left; apply records_create].
  destruct (message e) as [msg |]; simpl;
    [| left; apply records_create].
  destruct (git_user e) as [user |]; simpl;
    [| left; apply records_create].
  destruct (toplevel e) as [top |]; simpl;
    [| left; apply records_create].
  destruct (strip diff) eqn:Hd; simpl; [left; apply records_create |].
  destruct (strip msg) eqn:Hm; simpl; [left; apply records_create |].
  rewrite commit_analyze_run. simpl.
  destruct (parsed (reply e)) as [a | x] eqn:P; simpl.
  2:{ destruct x; simpl; left; apply records_create. }
  destruct (truthy a) eqn:T; simpl; [| left; apply records_create].
  destruct (is_dict a) eqn:D.
  2:{ rewrite commit_save_other by exact D. simpl.
      left; apply records_create. }
  destruct a as [| | | | | | d]; try discriminate.
  destruct d as [| [k v] d]; [discriminate |].
  rewrite commit_save_dict. rewrite Hdb. simpl.
  destruct (sql_insert _ _ _) as [d' | x] eqn:S; simpl;
    [| left; apply records_create].
  right. exists k, v, d.
  destruct (sql_insert_ok _ _ _ S) as (r & vs & Hone & Hb & Hcell).
  exists r. split; [reflexivity |].
  split; [exact (one_more_after_create _ _ Hone) |].
  split; [| reflexivity].
  destruct (commit_values_bound _ _ _ _ _ Hb) as (vu & vr & vh & vsum & -> & _).
  rewrite (Hcell (lit "timestamp")) by (vm_compute; tauto).
  reflexivity.
Qed.
(** ** Two runs *)

(** The hook on a commit that adds [def foo(): pass], the backend
    answering with the five fields: one record, id 1, stamped after the
    answer, holding the five fields; exit status 0. *)
Lemma hook_stores_the_five_fields :
  status_of commit_analyzer.main (answering five_field_answer) fresh = 0
  /\ map (fun r => (rowid r, cells r))
         (records (db (world_after commit_analyzer.main
                         (answering five_field_answer) fresh)))
     = [ (1,
          [ (lit "user_id", SqlText (Str (lit "Callum McCabe")));
            (lit "timestamp", SqlText (Strftime 1700000003));
            (lit "repo_name", SqlText (Str (lit "Turbotise")));
            (lit "commit_hash", SqlText (Str (lit "pre-commit-analysis")));
            (lit "primary_technologies",
             SqlText (JsonDumps (PList [PStr (lit "Python")])));
            (lit "supporting_libraries", SqlText (JsonDumps (PList [])));
            (lit "key_patterns_and_concepts",
             SqlText (JsonDumps (PList [PStr (lit "function definition")])));
            (lit "inferred_skills",
             SqlText (JsonDumps (PList [PStr (lit "Python programming")])));
            (lit "analysis_summary",
             SqlText (Str (lit "Defines an empty function."))) ]) ].
Proof. vm_compute. split; reflexivity. Qed.

(** search.py on a file of white space: the file is read and reported
    empty, and that is all. *)
Lemma blank_file_is_skipped :
  search.on_modified saved_file blank_file watching
    = (Ok tt,
       logged watching [ Print (LDetected (src_path saved_file));
                         Open (src_path saved_file); Print LEmptyFile ]).
Proof. vm_compute. reflexivity. Qed.

(** ** C1: a payload that is not JSON, or not an object *)

Lemma parsed_of_carried (e : Env) (payload : str) :
  carries e payload ->
  parsed (reply e) = Raise RequestException
  \/ parsed (reply e) = json_loads_str payload.
Proof.
  intros (status & body & envelope & Hr & Hb & Hp).
  unfold parsed. rewrite Hr.
  destruct ((400 <=? status) && (status <? 600)); [left; reflexivity |].
  right. rewrite Hb. simpl. rewrite Hp. reflexivity.
Qed.

(** With such a payload the analysis never returns a non-empty dict. *)
Lemma malformed_never_saved (e : Env) (payload : str) :
  carries e payload ->
  decode payload = None
  \/ (exists v, decode payload = Some v /\ is_dict v = false) ->
  forall k v d, parsed (reply e) <> Ok (PDict ((k, v) :: d)).
Proof.
  intros Hc Hbad k v d.
  destruct (parsed_of_carried Hc) as [-> | ->]; [discriminate |].
  unfold json_loads_str.
  destruct Hbad as [-> | (a & -> & Ha)]; [discriminate |].
  intros [= ->]. discriminate.
Qed.

(** C1, as the code has it.  When the payload str of the backend's answer
    is not valid JSON, or parses to a value that is not a JSON object, no
    record is appended for that event: each watcher's handler returns
    with the database as it was, and the hook leaves the records as they
    were. *)
Theorem C1_malformed_payload_appends_nothing
    (ev : event) (e : Env) (w : World) (payload : str) :
  carries e payload ->
  decode payload = None
  \/ (exists v, decode payload = Some v /\ is_dict v = false) ->
  (fst (search.on_modified ev e w) = Ok tt
   /\ db (snd (search.on_modified ev e w)) = db w)
  /\ (fst (engine.on_modified ev e w) = Ok tt
      /\ db (snd (engine.on_modified ev e w)) = db w)
  /\ records (db (snd (commit_analyzer.main e w))) = records (db w).
Proof.
  intros Hc Hbad.
  pose proof (malformed_never_saved Hc Hbad) as Hnever.
  split; [| split].
  - destruct (search_on_modified_cases ev e w)
      as (Hret & l & _ & _ & _ & _ & _ & Hsave).
    split; [exact Hret |].
    destruct Hsave as [[_ H] | (_ & (k & v & d & P) & _)]; [exact H |].
    destruct (Hnever k v d P).
  - destruct (engine_on_modified_cases ev e w)
      as (Hret & l & _ & _ & _ & _ & Hsave).
    split; [exact Hret |].
    destruct Hsave as [[_ H] | (_ & (k & v & d & P) & _)]; [exact H |].
    destruct (Hnever k v d P).
  - destruct (commit_main_cases e w) as [H | (k & v & d & r & P & _)];
      [exact H |].
    destruct (Hnever k v d P).
Qed.

(** C1 at the answer [{"response":"not json"}]. *)
Lemma C1_witness :
  (fst (search.on_modified saved_file
          (answering (json "{'response': 'not json'}")) fresh) = Ok tt
   /\ db (snd (search.on_modified saved_file
                 (answering (json "{'response': 'not json'}")) fresh))
      = db fresh)
  /\ (fst (engine.on_modified saved_file
             (answering (json "{'response': 'not json'}")) fresh) = Ok tt
      /\ db (snd (engine.on_modified saved_file
                    (answering (json "{'response': 'not json'}")) fresh))
         = db fresh)
  /\ records (db (snd (commit_analyzer.main
                         (answering (json "{'response': 'not json'}"))
                         fresh)))
     = records (db fresh).
Proof.
  apply (@C1_malformed_payload_appends_nothing saved_file
           (answering (json "{'response': 'not json'}")) fresh
           (lit "not json")).
  - exists 200, (json "{'response': 'not json'}"),
      [(lit "response", PStr (lit "not json"))].
    repeat split; vm_compute; reflexivity.
  - left. vm_compute. reflexivity.
Defined.

(** The claim as the specification words it fails twice.  On the answer
    [{"response":"not json"}] the analysis client does not return a
    failure: [json.loads] raises out of it, and the hook dies with status
    1.  And a payload that is an object without any of the expected keys is
    not rejected: the watcher appends a record for it. *)
Lemma C1_counterexample :
  fst (commit_analyzer.analyze_content_with_llm (lit "+def foo(): pass")
         (answering (json "{'response': 'not json'}")) fresh)
    = Raise JSONDecodeError
  /\ status_of commit_analyzer.main
       (answering (json "{'response': 'not json'}")) fresh = 1
  /\ List.length
       (records (db (world_after (engine.on_modified saved_file)
                       (answering (json "{'response': '{\'note\': \'n/a\'}'}"))
                       (world_after engine.main (answering []) fresh))))
     = 1%nat.
Proof. vm_compute. repeat split; reflexivity. Qed.

(** ** C6: at most one append per event *)






(** ** The watch loop *)

(** Over any run of the watch loop the log only grows, by at most one
    record per delivered event, and the new records take the next ids in
    order. *)
Lemma watch_appends_at_most_one_per_event
    (handler : event -> M unit) (analyze : str -> M pyval) :
  appends_at_most_once handler analyze ->
  forall (deliveries : list (Env * event)) (w : World),
  exists added,
    records (db (watch handler deliveries w)) = records (db w) ++ added
    /\ (List.length added <= List.length deliveries)%nat
    /\ map rowid added = ids_from (next_of (db w)) (List.length added)
    /\ next_of (db (watch handler deliveries w))
       = next_of (db w) + Z.of_nat (List.length added).
Proof.
  intros Hh deliveries.
  induction deliveries as [| [e ev] rest IH]; intro w; simpl.
  - exists []. rewrite app_nil_r. simpl. repeat split; lia.
  - destruct (Hh ev e w) as (_ & l & _ & _ & _ & Hlog & _).
    destruct (IH (snd (handler ev e w))) as (added & Hrec & Hlen & Hids & Hn).
    destruct Hlog as [[Hr Hnext] | (r & Hr & Hid & Hnext)].
    + exists added. rewrite Hrec, Hn, Hids, Hr, Hnext.
      repeat split; lia.
    + exists (r :: added). rewrite Hrec, Hn, Hr, Hnext, <- app_assoc.
      simpl List.length. repeat split; try lia.
      simpl. rewrite Hid, Hids, Hnext. reflexivity.
Qed.

(** ** C5: an empty diff or an empty message *)

(** C5, where the code departs from it.  In one-shot mode, when the
    staged diff or the commit message trims to empty, the hook sends
    nothing to the backend and appends no record.  It prints that it
    skips the analysis and exits with status 0 when the database could
    be opened and git gave the user name and the top-level directory.
    When the database cannot be opened, or git has no user name or no
    top-level directory to give, the hook does not reach the test of the
    diff and the message: it ends with status 1. *)
Theorem C5_empty_commit_exit_status
    (e : Env) (w : World) (diff msg : str) :
  staged e = Some diff -> message e = Some msg ->
  strip diff = [] \/ strip msg = [] ->
  posts (world_after commit_analyzer.main e w) = posts w
  /\ records (db (world_after commit_analyzer.main e w)) = records (db w)
  /\ (status_of commit_analyzer.main e w = 0
      \/ status_of commit_analyzer.main e w = 1)
  /\ (status_of commit_analyzer.main e w = 0 <->
      db_opens e = true /\ git_user e <> None /\ toplevel e <> None)
  /\ (status_of commit_analyzer.main e w = 0 ->
      fst (commit_analyzer.main e w) = Raise (SystemExit 0)
      /\ trace (world_after commit_analyzer.main e w)
         = trace w ++ [Print LRunning; Connect; Print LSkipping]).
Proof.
  intros Hd Hm Hempty.
  unfold status_of, world_after, posts.
  autounfold with py. simpl.
  destruct (db_opens e) eqn:Hopen; simpl.
  2:{ rewrite <- ?app_assoc. simpl. rewrite ?filter_app. simpl.
      rewrite ?app_nil_r.
      repeat split; try discriminate; try tauto;
        try (intros [H _]; discriminate). }
  rewrite Hd. simpl. rewrite Hm. simpl.
  destruct (git_user e) as [user |]; simpl.
  2:{ rewrite <- ?app_assoc. simpl. rewrite ?filter_app. simpl.
      rewrite ?app_nil_r, ?records_create.
      repeat split; try discriminate; try tauto;
        try (intros (_ & H & _); contradiction). }
  destruct (toplevel e) as [top |]; simpl.
  2:{ rewrite <- ?app_assoc. simpl. rewrite ?filter_app. simpl.
      rewrite ?app_nil_r, ?records_create.
      repeat split; try discriminate; try tauto;
        try (intros (_ & _ & H); contradiction). }
  destruct Hempty as [E | E].
  - rewrite E. simpl. rewrite <- ?app_assoc. simpl.
    rewrite ?filter_app. simpl. rewrite ?app_nil_r, ?records_create.
    repeat split; try discriminate; tauto.
  - rewrite E. destruct (strip diff); simpl;
      rewrite <- ?app_assoc; simpl;
      rewrite ?filter_app; simpl; rewrite ?app_nil_r, ?records_create;
      repeat split; try discriminate; tauto.
Qed.

(** C5 at a commit whose message is three spaces: in a repository where
    user.name is not set the hook ends with status 1, having sent and
    stored nothing; where it is set, with status 0. *)
Lemma C5_witness :
  status_of commit_analyzer.main no_user_name fresh = 1
  /\ posts (world_after commit_analyzer.main no_user_name fresh) = posts fresh
  /\ records (db (world_after commit_analyzer.main no_user_name fresh))
     = records (db fresh)
  /\ status_of commit_analyzer.main blank_message fresh = 0.
Proof.
  assert (Hb : strip (lit "+def foo(): pass") = [] \/ strip (lit "   ") = [])
    by (right; vm_compute; reflexivity).
  destruct (@C5_empty_commit_exit_status blank_message fresh
              (lit "+def foo(): pass") (lit "   ") eq_refl eq_refl Hb)
    as (_ & _ & _ & Hset & _).
  destruct (@C5_empty_commit_exit_status no_user_name fresh
              (lit "+def foo(): pass") (lit "   ") eq_refl eq_refl Hb)
    as (Hp & Hr & [H0 | H1] & Hiff & _).
  - exfalso. destruct (proj1 Hiff H0) as (_ & Hu & _). exact (Hu eq_refl).
  - split; [exact H1 |]. split; [exact Hp |]. split; [exact Hr |].
    apply Hset. repeat split; discriminate.
Defined.

(** ** C9: no "response" field, or an empty object *)

Lemma parsed_missing_or_empty (e : Env) (status : Z) (body : str)
                              (envelope : dict) :
  reply e = Response status body ->
  decode body = Some (PDict envelope) ->
  dict_lookup (lit "response") envelope = None
  \/ (exists payload,
        dict_lookup (lit "response") envelope = Some (PStr payload)
        /\ decode payload = Some (PDict [])) ->
  parsed (reply e) = Raise RequestException
  \/ parsed (reply e) = Ok (PDict []).
Proof.
  intros Hr Hb Hp. unfold parsed. rewrite Hr.
  destruct ((400 <=? status) && (status <? 600)); [left; reflexivity |].
  right. rewrite Hb. simpl.
  destruct Hp as [-> | (payload & -> & Hd)].
  - reflexivity.
  - simpl. unfold json_loads_str. rewrite Hd. reflexivity.
Qed.

(** The hook, when it reaches the analysis and the analysis returns a
    falsy value: it prints that the analysis failed and exits with 0. *)
Lemma commit_main_analysis_failed (e : Env) (w : World)
                                  (diff msg user top : str) (a : pyval) :
  db_opens e = true ->
  staged e = Some diff -> message e = Some msg ->
  git_user e = Some user -> toplevel e = Some top ->
  strip diff <> [] -> strip msg <> [] ->
  returned (parsed (reply e)) = Ok a -> truthy a = false ->
  fst (commit_analyzer.main e w) = Raise (SystemExit 0)
  /\ In (Print LAnalysisFailed) (trace (snd (commit_analyzer.main e w)))
  /\ connects (snd (commit_analyzer.main e w)) = connects w ++ [Connect].
Proof.
  intros Hdb Hd Hm Hu Ht Hdne Hmne Ha Hf.
  unfold connects, commit_analyzer.main, commit_analyzer.init_database,
    commit_analyzer.get_git_info.
  unfold sqlite3_connect, execute_create, commit, close. run.
  rewrite Hdb. simpl. rewrite Hd. simpl. rewrite Hm. simpl.
  rewrite Hu. simpl. rewrite Ht. simpl.
  destruct (strip diff); [contradiction |].
  destruct (strip msg); [contradiction |]. simpl.
  rewrite commit_analyze_run. simpl. rewrite Ha. simpl. rewrite Hf. simpl.
  split; [reflexivity |]. split.
  - apply in_or_app. right. left. reflexivity.
  - rewrite !filter_app. simpl.
    destruct (parsed (reply e)) as [v | x]; simpl;
      [| destruct x; simpl]; rewrite ?app_nil_r; reflexivity.
Qed.

(** C9. When the envelope of the backend's answer has no "response"
    field, or its payload parses to the empty object, the analysis returns
    a falsy value and the result is dropped as a failed analysis: neither
    watcher's handler changes the database, the hook leaves the records
    as they were and, where it reached the analysis, prints that the
    analysis failed and exits with status 0. *)
Theorem C9_missing_or_empty_payload_is_dropped
    (ev : event) (e : Env) (w : World)
    (status : Z) (body : str) (envelope : dict) :
  reply e = Response status body ->
  decode body = Some (PDict envelope) ->
  dict_lookup (lit "response") envelope = None
  \/ (exists payload,
        dict_lookup (lit "response") envelope = Some (PStr payload)
        /\ decode payload = Some (PDict [])) ->
  (exists a,
      truthy a = false
      /\ (forall c w0,
            fst (commit_analyzer.analyze_content_with_llm c e w0) = Ok a)
      /\ (forall c w0, fst (search.analyze_content_with_llm c e w0) = Ok a)
      /\ (forall c w0, fst (engine.analyze_content_with_llm c e w0) = Ok a))
  /\ db (snd (search.on_modified ev e w)) = db w
  /\ db (snd (engine.on_modified ev e w)) = db w
  /\ records (db (snd (commit_analyzer.main e w))) = records (db w)
  /\ (forall diff msg user top,
        db_opens e = true ->
        staged e = Some diff -> message e = Some msg ->
        git_user e = Some user -> toplevel e = Some top ->
        strip diff <> [] -> strip msg <> [] ->
        fst (commit_analyzer.main e w) = Raise (SystemExit 0)
        /\ In (Print LAnalysisFailed)
              (trace (snd (commit_analyzer.main e w)))).
Proof.
  intros Hr Hb Hp.
  pose proof (parsed_missing_or_empty _ Hr Hb Hp) as Hparsed.
  assert (Hfalsy : exists a, truthy a = false
                             /\ returned (parsed (reply e)) = Ok a).
  { destruct Hparsed as [-> | ->];
      [exists PNone | exists (PDict [])]; split; reflexivity. }
  assert (Hnever : forall k v d, parsed (reply e) <> Ok (PDict ((k, v) :: d))).
  { intros k v d. destruct Hparsed as [-> | ->]; discriminate. }
  destruct Hfalsy as (a & Hf & Ha).
  split; [| split; [| split; [| split]]].
  - exists a. split; [exact Hf |]. repeat split; intros c w0.
    + rewrite commit_analyze_run. exact Ha.
    + rewrite search_analyze_run. exact Ha.
    + rewrite engine_analyze_run. exact Ha.
  - destruct (search_on_modified_cases ev e w)
      as (_ & l & _ & _ & _ & _ & _ & Hsave).
    destruct Hsave as [[_ H] | (_ & (k & v & d & P) & _)]; [exact H |].
    destruct (Hnever k v d P).
  - destruct (engine_on_modified_cases ev e w)
      as (_ & l & _ & _ & _ & _ & Hsave).
    destruct Hsave as [[_ H] | (_ & (k & v & d & P) & _)]; [exact H |].
    destruct (Hnever k v d P).
  - destruct (commit_main_cases e w) as [H | (k & v & d & r & P & _)];
      [exact H |].
    destruct (Hnever k v d P).
  - intros diff msg user top Hdb Hd Hm Hu Ht Hdne Hmne.
    destruct (@commit_main_analysis_failed e w diff msg user top a
                Hdb Hd Hm Hu Ht Hdne Hmne Ha Hf) as (H1 & H2 & _).
    split; assumption.
Qed.

(** C9 at the answer [{"done": true}], which has no "response" field. *)
Lemma C9_witness :
  (exists a,
      truthy a = false
      /\ (forall c w0,
            fst (commit_analyzer.analyze_content_with_llm c
                   (answering (json "{'done': true}")) w0) = Ok a)
      /\ (forall c w0,
            fst (search.analyze_content_with_llm c
                   (answering (json "{'done': true}")) w0) = Ok a)
      /\ (forall c w0,
            fst (engine.analyze_content_with_llm c
                   (answering (json "{'done': true}")) w0) = Ok a))
  /\ db (snd (search.on_modified saved_file
                (answering (json "{'done': true}")) fresh)) = db fresh
  /\ db (snd (engine.on_modified saved_file
                (answering (json "{'done': true}")) fresh)) = db fresh
  /\ records (db (snd (commit_analyzer.main
                         (answering (json "{'done': true}")) fresh)))
     = records (db fresh)
  /\ (forall diff msg user top,
        db_opens (answering (json "{'done': true}")) = true ->
        staged (answering (json "{'done': true}")) = Some diff ->
        message (answering (json "{'done': true}")) = Some msg ->
        git_user (answering (json "{'done': true}")) = Some user ->
        toplevel (answering (json "{'done': true}")) = Some top ->
        strip diff <> [] -> strip msg <> [] ->
        fst (commit_analyzer.main (answering (json "{'done': true}")) fresh)
          = Raise (SystemExit 0)
        /\ In (Print LAnalysisFailed)
              (trace (snd (commit_analyzer.main
                             (answering (json "{'done': true}")) fresh)))).
Proof.
  apply (@C9_missing_or_empty_payload_is_dropped saved_file
           (answering (json "{'done': true}")) fresh 200
           (json "{'done': true}") [(lit "done", PBool true)]).
  - reflexivity.
  - vm_compute. reflexivity.
  - left. vm_compute. reflexivity.
Defined.

(** ** C2: the exit status of the hook *)

(** Whenever a git command or the message file fails, the hook prints
    the error and then dies on [None.strip()]. *)
Lemma hook_dies_without_git_info (e : Env) (w : World) :
  db_opens e = true ->
  staged e = None \/ message e = None \/ git_user e = None
  \/ toplevel e = None ->
  fst (commit_analyzer.main e w) = Raise AttributeError
  /\ status_of commit_analyzer.main e w = 1.
Proof.
  intros Hdb Hnone.
  unfold status_of, commit_analyzer.main, commit_analyzer.init_database,
    commit_analyzer.get_git_info.
  unfold sqlite3_connect, execute_create, commit, close. run.
  rewrite Hdb. simpl.
  destruct (staged e); simpl; [| split; reflexivity].
  destruct (message e); simpl; [| split; reflexivity].
  destruct (git_user e); simpl; [| split; reflexivity].
  destruct (toplevel e); simpl; [| split; reflexivity].
  destruct Hnone as [H | [H | [H | H]]]; discriminate.
Qed.

(** C2, where the code departs from it.  Outside a repository the hook
    prints the git error, raises AttributeError and ends with status 1;
    it ends with status 1 as well when the database cannot be opened and
    when the payload is not JSON. *)
Theorem C2_hook_exits_nonzero_on_failures :
  fst (commit_analyzer.main outside_repository fresh) = Raise AttributeError
  /\ trace (snd (commit_analyzer.main outside_repository fresh))
     = [Print LRunning; Connect; Print (LGitError CalledProcessError)]
  /\ status_of commit_analyzer.main outside_repository fresh = 1
  /\ status_of commit_analyzer.main read_only_directory fresh = 1
  /\ status_of commit_analyzer.main
       (answering (json "{'response': 'not json'}")) fresh = 1.
Proof. vm_compute. repeat split; reflexivity. Qed.

(** ** C7: files whose name starts with a dot *)

(** search.py's handler returns at once on such a file: nothing is read,
    sent or stored. *)
Lemma search_skips_hidden_files (ev : event) (e : Env) (w : World) :
  startswith (lit ".") (basename (src_path ev)) = true ->
  search.on_modified ev e w = (Ok tt, w).
Proof.
  intro H. unfold search.on_modified. rewrite H.
  destruct (is_directory ev); reflexivity.
Qed.

(** C7, where the code departs from it.  engine.py's handler has no test
    on the name: given a change of .DS_Store it opens the file, sends its
    text to the backend and appends a record. *)
Theorem C7_engine_analyzes_hidden_files :
  startswith (lit ".") (basename (src_path hidden_file)) = true
  /\ opens (world_after (engine.on_modified hidden_file)
              (answering skills_answer)
              (world_after engine.main (answering []) fresh))
     = [Open (src_path hidden_file)]
  /\ posts (world_after (engine.on_modified hidden_file)
              (answering skills_answer)
              (world_after engine.main (answering []) fresh))
     = [Post engine.MODEL_NAME (SkillsPrompt (lit "def foo(): pass")) 120]
  /\ map rowid
       (records (db (world_after (engine.on_modified hidden_file)
                       (answering skills_answer)
                       (world_after engine.main (answering []) fresh))))
     = [1]
  /\ search.on_modified hidden_file (answering skills_answer)
       (world_after search.main (answering []) fresh)
     = (Ok tt, world_after search.main (answering []) fresh).
Proof. vm_compute. repeat split; reflexivity. Qed.

(** ** C4: absent fields and extra fields *)

Lemma search_values_bound (u p : pyval) (d : dict) (t : Z)
                          (tech conc : pyval) (vs : list sqlval) :
  bind_params (search_values u p d t tech conc) = Ok vs ->
  exists vu vp vsum,
    vs = [ vu; SqlText (Strftime t); vp;
           SqlText (JsonDumps tech); SqlText (JsonDumps conc); vsum ]
    /\ bind_param (PyVal (field d "analysis_summary" (PStr []))) = Ok vsum.
Proof.
  unfold search_values.
  remember (bind_param (PyVal u)) as bu.
  remember (bind_param (PyVal p)) as bp.
  remember (bind_param (PyVal (field d "analysis_summary" (PStr [])))) as bs.
  cbn [bind_params]. rewrite <- Heqbu, <- Heqbp, <- Heqbs.
  cbn [bind_param].
  destruct bu as [vu |]; [| discriminate].
  destruct bp as [vp |]; [| discriminate].
  destruct bs as [vsum |]; [| discriminate].
  intros [= <-]. exists vu, vp, vsum. split; reflexivity.
Qed.

Lemma engine_values_bound (u p : pyval) (d : dict) (t : Z)
                          (vs : list sqlval) :
  bind_params (engine_values u p d t) = Ok vs ->
  exists vu vp vsum,
    vs = [ vu; SqlText (Strftime t); vp;
           SqlText (JsonDumps (field d "technologies" (PList [])));
           SqlText (JsonDumps (field d "core_concepts" (PList [])));
           vsum ]
    /\ bind_param (PyVal (field d "summary" (PStr []))) = Ok vsum.
Proof.
  unfold engine_values.
  remember (bind_param (PyVal u)) as bu.
  remember (bind_param (PyVal p)) as bp.
  remember (bind_param (PyVal (field d "summary" (PStr [])))) as bs.
  cbn [bind_params]. rewrite <- Heqbu, <- Heqbp, <- Heqbs.
  cbn [bind_param].
  destruct bu as [vu |]; [| discriminate].
  destruct bp as [vp |]; [| discriminate].
  destruct bs as [vsum |]; [| discriminate].
  intros [= <-]. exists vu, vp, vsum. split; reflexivity.
Qed.

(** What a successful call of commit_analyzer's [save_expertise] stores. *)
Lemma commit_save_stores (u rn h : pyval) (d : dict) (e : Env)
                         (w w' : World) :
  commit_analyzer.save_expertise u rn h (PDict d) e w = (Ok tt, w') ->
  exists r,
    one_more (db w) (db w') r
    /\ cell r (lit "timestamp") = SqlText (Strftime (clock w))
    /\ (forall k : string,
          In k ["primary_technologies"; "supporting_libraries";
                "key_patterns_and_concepts"; "inferred_skills"]%string ->
          cell r (lit k) = SqlText (JsonDumps (field d k (PList []))))
    /\ bind_param (PyVal (field d "analysis_summary" (PStr [])))
       = Ok (cell r (lit "analysis_summary")).
Proof.
  rewrite commit_save_dict.
  destruct (db_opens e); [| discriminate].
  destruct (sql_insert _ _ (db w)) as [d' | x] eqn:S; [| discriminate].
  intros [= <-].
  destruct (sql_insert_ok _ _ _ S) as (r & vs & Hone & Hb & Hcell).
  destruct (commit_values_bound _ _ _ _ _ Hb)
    as (vu & vr & vh & vsum & -> & Hsum).
  exists r. split; [exact Hone |].
  split; [rewrite Hcell by (vm_compute; tauto); reflexivity |].
  split.
  - intros k Hin. simpl in Hin.
    destruct Hin as [<- | [<- | [<- | [<- | []]]]];
      rewrite Hcell by (vm_compute; tauto); reflexivity.
  - rewrite Hcell by (vm_compute; tauto). exact Hsum.
Qed.

(** What a successful call of search.py's [save_expertise] stores. *)
Lemma search_save_stores (u p : str) (d : dict) (e : Env) (w w' : World) :
  search.save_expertise (PStr u) (PStr p) (PDict d) e w = (Ok tt, w') ->
  exists r technologies core_concepts,
    one_more (db w) (db w') r
    /\ py_add (field d "primary_technologies" (PList []))
              (field d "supporting_libraries" (PList [])) = Ok technologies
    /\ py_add (field d "key_patterns_and_concepts" (PList []))
              (field d "inferred_skills" (PList [])) = Ok core_concepts
    /\ cell r (lit "technologies") = SqlText (JsonDumps technologies)
    /\ cell r (lit "core_concepts") = SqlText (JsonDumps core_concepts)
    /\ bind_param (PyVal (field d "analysis_summary" (PStr [])))
       = Ok (cell r (lit "summary")).
Proof.
  rewrite search_save_dict.
  destruct (db_opens e); [| discriminate].
  destruct (py_add _ _) as [tech | x] eqn:E1; [| discriminate].
  destruct (py_add _ _) as [conc | x] eqn:E2 in |- *; [| discriminate].
  destruct (sql_insert _ _ (db w)) as [d' | x] eqn:S; [| discriminate].
  intros [= <-].
  destruct (sql_insert_ok _ _ _ S) as (r & vs & Hone & Hb & Hcell).
  destruct (search_values_bound _ _ _ _ _ _ Hb) as (vu & vp & vsum & -> & Hsum).
  exists r, tech, conc. split; [exact Hone |].
  split; [reflexivity |]. split; [reflexivity |].
  split; [rewrite Hcell by (vm_compute; tauto); reflexivity |].
  split; [rewrite Hcell by (vm_compute; tauto); reflexivity |].
  rewrite Hcell by (vm_compute; tauto). exact Hsum.
Qed.

(** What a successful call of engine.py's [save_expertise] stores. *)
Lemma engine_save_stores (u p : str) (d : dict) (e : Env) (w w' : World) :
  engine.save_expertise (PStr u) (PStr p) (PDict d) e w = (Ok tt, w') ->
  exists r,
    one_more (db w) (db w') r
    /\ cell r (lit "technologies")
       = SqlText (JsonDumps (field d "technologies" (PList [])))
    /\ cell r (lit "core_concepts")
       = SqlText (JsonDumps (field d "core_concepts" (PList [])))
    /\ bind_param (PyVal (field d "summary" (PStr [])))
       = Ok (cell r (lit "summary")).
Proof.
  rewrite engine_save_dict.
  destruct (db_opens e); [| discriminate].
  destruct (sql_insert _ _ (db w)) as [d' | x] eqn:S; [| discriminate].
  intros [= <-].
  destruct (sql_insert_ok _ _ _ S) as (r & vs & Hone & Hb & Hcell).
  destruct (engine_values_bound _ _ _ _ Hb) as (vu & vp & vsum & -> & Hsum).
  exists r. split; [exact Hone |].
  split; [rewrite Hcell by (vm_compute; tauto); reflexivity |].
  split; [rewrite Hcell by (vm_compute; tauto); reflexivity |].
  rewrite Hcell by (vm_compute; tauto). exact Hsum.
Qed.

(** The two stores with the five-field prompt read the five canonical
    keys of the payload and nothing else. *)
Lemma commit_save_reads_canonical_keys
    (u rn h : pyval) (d d' : dict) (e : Env) (w : World) :
  (forall k, In k canonical_keys -> dict_lookup k d' = dict_lookup k d) ->
  commit_analyzer.save_expertise u rn h (PDict d') e w
    = commit_analyzer.save_expertise u rn h (PDict d) e w.
Proof.
  intro Hsame.
  assert (Hfield : forall (k : string) dflt,
             In (lit k) canonical_keys -> field d' k dflt = field d k dflt).
  { intros k dflt Hin. unfold field. rewrite (Hsame _ Hin). reflexivity. }
  rewrite !commit_save_dict. unfold commit_values.
  rewrite !Hfield by (vm_compute; tauto). reflexivity.
Qed.

Lemma search_save_reads_canonical_keys
    (user path : str) (d d' : dict) (e : Env) (w : World) :
  (forall k, In k canonical_keys -> dict_lookup k d' = dict_lookup k d) ->
  search.save_expertise (PStr user) (PStr path) (PDict d') e w
    = search.save_expertise (PStr user) (PStr path) (PDict d) e w.
Proof.
  intro Hsame.
  assert (Hfield : forall (k : string) dflt,
             In (lit k) canonical_keys -> field d' k dflt = field d k dflt).
  { intros k dflt Hin. unfold field. rewrite (Hsame _ Hin). reflexivity. }
  rewrite !search_save_dict. unfold search_values.
  rewrite !Hfield by (vm_compute; tauto). reflexivity.
Qed.



(** ** C3: legacy and canonical field names *)

(** C3, as the code has it.  engine.py's store, the one with the legacy
    prompt, stores the payload's technologies in its technologies column
    and its core_concepts in its core_concepts column, an absent field as
    the empty list.  The stores of search.py and commit_analyzer.py map
    no legacy field: what they do depends on the five canonical keys of
    the payload only, whatever the database; search.py stores the
    primary technologies added to the supporting libraries, and the
    patterns added to the inferred skills.  A payload with none of the
    canonical keys, as a legacy one, is stored by both with empty lists
    and an empty summary whenever the call returns, and it returns on
    the table of the program when the user, the path, the repository and
    the label encode to UTF-8. *)
Theorem C3_each_store_reads_its_own_field_names :
  (forall user path d e w w',
     engine.save_expertise (PStr user) (PStr path) (PDict d) e w
       = (Ok tt, w') ->
     exists r,
       one_more (db w) (db w') r
       /\ cell r (lit "technologies")
          = SqlText (JsonDumps (field d "technologies" (PList [])))
       /\ cell r (lit "core_concepts")
          = SqlText (JsonDumps (field d "core_concepts" (PList []))))
  /\ (forall d d',
        (forall k, In k canonical_keys ->
                   dict_lookup k d' = dict_lookup k d) ->
        forall e w,
          (forall user path,
             search.save_expertise (PStr user) (PStr path) (PDict d') e w
               = search.save_expertise (PStr user) (PStr path) (PDict d) e w)
          /\ (forall u rn h,
                commit_analyzer.save_expertise u rn h (PDict d') e w
                  = commit_analyzer.save_expertise u rn h (PDict d) e w))
  /\ (forall user path d e w w',
        search.save_expertise (PStr user) (PStr path) (PDict d) e w
          = (Ok tt, w') ->
        exists r technologies core_concepts,
          one_more (db w) (db w') r
          /\ py_add (field d "primary_technologies" (PList []))
                    (field d "supporting_libraries" (PList []))
             = Ok technologies
          /\ py_add (field d "key_patterns_and_concepts" (PList []))
                    (field d "inferred_skills" (PList []))
             = Ok core_concepts
          /\ cell r (lit "technologies") = SqlText (JsonDumps technologies)
          /\ cell r (lit "core_concepts")
             = SqlText (JsonDumps core_concepts))
  /\ (forall d,
        no_canonical_key d ->
        (forall user path e w w',
           search.save_expertise (PStr user) (PStr path) (PDict d) e w
             = (Ok tt, w') ->
           exists r,
             one_more (db w) (db w') r
             /\ cell r (lit "technologies") = SqlText (JsonDumps (PList []))
             /\ cell r (lit "core_concepts") = SqlText (JsonDumps (PList []))
             /\ cell r (lit "summary") = SqlText (Str []))
        /\ (forall u rn h e w w',
              commit_analyzer.save_expertise u rn h (PDict d) e w
                = (Ok tt, w') ->
              exists r,
                one_more (db w) (db w') r
                /\ (forall k : string,
                      In k ["primary_technologies"; "supporting_libraries";
                            "key_patterns_and_concepts";
                            "inferred_skills"]%string ->
                      cell r (lit k) = SqlText (JsonDumps (PList [])))
                /\ cell r (lit "analysis_summary") = SqlText (Str []))
        /\ (forall e w t,
              db_opens e = true -> db w = Some t ->
              next_id t <= int64_max ->
              (forall user path,
                 columns t = search.schema ->
                 encodable user = true -> encodable path = true ->
                 fst (search.save_expertise (PStr user) (PStr path)
                        (PDict d) e w) = Ok tt)
              /\ (forall u rn h,
                    columns t = commit_analyzer.schema ->
                    encodable u = true -> encodable rn = true ->
                    encodable h = true ->
                    fst (commit_analyzer.save_expertise
                           (PStr u) (PStr rn) (PStr h) (PDict d) e w)
                      = Ok tt))).
Proof.
  split; [| split; [| split]].
  - intros user path d e w w' Hok.
    apply engine_save_stores in Hok.
    destruct Hok as (r & Hone & Ht & Hc & _).
    exists r. split; [exact Hone |]. split; assumption.
  - intros d d' Hsame e w. split.
    + intros user path. apply search_save_reads_canonical_keys. exact Hsame.
    + intros u rn h. apply commit_save_reads_canonical_keys. exact Hsame.
  - intros user path d e w w' Hok.
    apply search_save_stores in Hok.
    destruct Hok as (r & tech & conc & Hone & Ht & Hc & Hct & Hcc & _).
    exists r, tech, conc. tauto.
  - intros d Hnone.
    assert (Hfield : forall (k : string) dflt,
               In (lit k) canonical_keys -> field d k dflt = dflt).
    { intros k dflt Hin. unfold field. rewrite (Hnone _ Hin). reflexivity. }
    assert (Hpt : field d "primary_technologies" (PList []) = PList [])
      by (apply Hfield; vm_compute; tauto).
    assert (Hsl : field d "supporting_libraries" (PList []) = PList [])
      by (apply Hfield; vm_compute; tauto).
    assert (Hkp : field d "key_patterns_and_concepts" (PList []) = PList [])
      by (apply Hfield; vm_compute; tauto).
    assert (Hsk : field d "inferred_skills" (PList []) = PList [])
      by (apply Hfield; vm_compute; tauto).
    assert (Hsu : field d "analysis_summary" (PStr []) = PStr [])
      by (apply Hfield; vm_compute; tauto).
    split; [| split].
    + intros user path e w w' Hok.
      apply search_save_stores in Hok.
      destruct Hok as (r & tech & conc & Hone & Ht & Hc & Hct & Hcc & Hs).
      rewrite Hpt, Hsl in Ht. rewrite Hkp, Hsk in Hc. rewrite Hsu in Hs.
      injection Ht as <-. injection Hc as <-. injection Hs as Hs.
      exists r. split; [exact Hone |].
      split; [exact Hct |]. split; [exact Hcc | symmetry; exact Hs].
    + intros u rn h e w w' Hok.
      apply commit_save_stores in Hok.
      destruct Hok as (r & Hone & _ & Hlists & Hs).
      rewrite Hsu in Hs. injection Hs as Hs.
      exists r. split; [exact Hone |]. split; [| symmetry; exact Hs].
      intros k Hin. rewrite (Hlists k Hin). simpl in Hin.
      destruct Hin as [<- | [<- | [<- | [<- | []]]]];
        rewrite ?Hpt, ?Hsl, ?Hkp, ?Hsk; reflexivity.
    + intros e w t Hopen Hdb Hmax. split.
      * intros user path Hc Hu Hp.
        erewrite search_save_succeeds;
          [reflexivity | exact Hopen | exact Hdb | exact Hc | exact Hmax
           | exact Hu | exact Hp
           | rewrite Hpt, Hsl; reflexivity
           | rewrite Hkp, Hsk; reflexivity
           | rewrite Hsu; reflexivity].
      * intros u rn h Hc Hu Hrn Hh.
        erewrite commit_save_succeeds;
          [reflexivity | exact Hopen | exact Hdb | exact Hc | exact Hmax
           | exact Hu | exact Hrn | exact Hh
           | rewrite Hsu; reflexivity].
Qed.

(** C3 at the legacy payload: engine.py stores its two lists, and
    commit_analyzer.py, on its own table, stores it with empty lists. *)
Lemma C3_witness :
  (exists r,
     one_more (db watching)
       (db (snd (engine.save_expertise (PStr (lit "callum"))
                   (PStr (src_path saved_file)) (PDict legacy_payload)
                   (answering []) watching))) r
     /\ cell r (lit "technologies")
        = SqlText (JsonDumps
                     (PList [PStr (lit "Python"); PStr (lit "Flask")]))
     /\ cell r (lit "core_concepts")
        = SqlText (JsonDumps (PList [PStr (lit "web server")])))
  /\ fst (commit_analyzer.save_expertise
            (PStr (lit "Callum McCabe")) (PStr (lit "Turbotise"))
            (PStr (lit "pre-commit-analysis")) (PDict legacy_payload)
            (answering []) hooked) = Ok tt
  /\ exists r,
       one_more (db hooked)
         (db (snd (commit_analyzer.save_expertise
                     (PStr (lit "Callum McCabe")) (PStr (lit "Turbotise"))
                     (PStr (lit "pre-commit-analysis"))
                     (PDict legacy_payload) (answering []) hooked))) r
       /\ cell r (lit "primary_technologies")
          = SqlText (JsonDumps (PList []))
       /\ cell r (lit "key_patterns_and_concepts")
          = SqlText (JsonDumps (PList [])).
Proof.
  destruct C3_each_store_reads_its_own_field_names
    as (Hengine & _ & _ & Hlegacy).
  assert (Hnone : no_canonical_key legacy_payload).
  { intros k Hin. unfold canonical_keys in Hin. simpl in Hin.
    destruct Hin as [<- | [<- | [<- | [<- | [<- | []]]]]];
      vm_compute; reflexivity. }
  destruct (Hlegacy legacy_payload Hnone) as (_ & Hcommit & Hlive).
  split; [| split].
  - apply (Hengine (lit "callum") (src_path saved_file) legacy_payload
             (answering []) watching).
    vm_compute. reflexivity.
  - assert (Hm : next_id {| columns := commit_analyzer.schema;
                            rows := []; seq := 0 |} <= int64_max)
      by (vm_compute; discriminate).
    exact (proj2 (Hlive (answering []) hooked _ eq_refl eq_refl Hm)
             (lit "Callum McCabe") (lit "Turbotise")
             (lit "pre-commit-analysis") eq_refl eq_refl eq_refl eq_refl).
  - destruct (Hcommit (PStr (lit "Callum McCabe")) (PStr (lit "Turbotise"))
                (PStr (lit "pre-commit-analysis")) (answering []) hooked
                (snd (commit_analyzer.save_expertise
                        (PStr (lit "Callum McCabe")) (PStr (lit "Turbotise"))
                        (PStr (lit "pre-commit-analysis"))
                        (PDict legacy_payload) (answering []) hooked)))
      as (r & Hone & Hlists & _).
    + vm_compute. reflexivity.
    + exists r. split; [exact Hone |].
      split; apply Hlists; simpl; tauto.
Defined.

(** The claim fails on the stores with canonical columns: given the
    legacy payload, search.py's stores two empty lists, and so does
    commit_analyzer.py's in primary_technologies and
    key_patterns_and_concepts. *)
Lemma C3_counterexample :
  dict_lookup (lit "technologies") legacy_payload
    = Some (PList [PStr (lit "Python"); PStr (lit "Flask")])
  /\ map (fun r => (cell r (lit "technologies"), cell r (lit "core_concepts")))
         (records (db (snd (search.save_expertise (PStr (lit "callum"))
                              (PStr (src_path saved_file))
                              (PDict legacy_payload)
                              (answering []) watching))))
     = [(SqlText (JsonDumps (PList [])), SqlText (JsonDumps (PList [])))]
  /\ map (fun r => (cell r (lit "primary_technologies"),
                    cell r (lit "key_patterns_and_concepts")))
         (records (db (snd (commit_analyzer.save_expertise
                              (PStr (lit "callum")) (PStr (lit "Turbotise"))
                              (PStr (lit "pre-commit-analysis"))
                              (PDict legacy_payload)
                              (answering []) hooked))))
     = [(SqlText (JsonDumps (PList [])), SqlText (JsonDumps (PList [])))].
Proof. vm_compute. repeat split; reflexivity. Qed.

(** ** C10: a str where a list is expected *)

(** C10. [save_expertise] does not check the types of the payload's
    fields: there is a payload, an object whose primary_technologies is a
    str, on which search.py's [save_expertise] raises TypeError from the
    concatenation (OperationalError if the database does not even open)
    and leaves the database as it was; handled as an event, the failure is
    printed and no record is written. *)
Theorem C10_str_for_list_aborts_the_append :
  exists (d : dict) (s : str),
    dict_lookup (lit "primary_technologies") d = Some (PStr s)
    /\ (forall user path e w,
          fst (search.save_expertise (PStr user) (PStr path) (PDict d) e w)
            = Raise (if db_opens e then TypeError else OperationalError)
          /\ db (snd (search.save_expertise (PStr user) (PStr path)
                        (PDict d) e w)) = db w)
    /\ (forall e w,
          parsed (reply e) = Ok (PDict d) ->
          db (snd (search.on_modified saved_file e w)) = db w).
Proof.
  exists str_for_list, (lit "Python").
  split; [vm_compute; reflexivity |]. split.
  - intros user path e w. rewrite search_save_dict.
    destruct (db_opens e); split; reflexivity.
  - intros e w P.
    assert (Hadd : py_add (field str_for_list "primary_technologies" (PList []))
                          (field str_for_list "supporting_libraries" (PList []))
                   = Raise TypeError) by (vm_compute; reflexivity).
    unfold search.on_modified, search.show. run.
    change (startswith (lit ".") (basename (src_path saved_file))) with false.
    simpl.
    destruct (file_text e) as [content |]; simpl; [| reflexivity].
    destruct (strip content); simpl; [reflexivity |].
    rewrite search_analyze_run. simpl. rewrite P. simpl.
    destruct (login e) as [u |]; simpl; [| reflexivity].
    rewrite search_save_dict, Hadd.
    destruct (db_opens e); reflexivity.
Qed.

(** The types are not checked elsewhere either.  Where nothing is
    concatenated a str is stored in the list column as it is, and two
    strs concatenate to a str that is stored. *)
Lemma a_str_is_stored_in_a_list_column :
  map (fun r => cell r (lit "primary_technologies"))
      (records (db (snd (commit_analyzer.save_expertise
                           (PStr (lit "callum")) (PStr (lit "Turbotise"))
                           (PStr (lit "pre-commit-analysis"))
                           (PDict str_for_list) (answering []) hooked))))
    = [SqlText (JsonDumps (PStr (lit "Python")))]
  /\ map (fun r => cell r (lit "technologies"))
         (records (db (snd (search.save_expertise (PStr (lit "callum"))
                              (PStr (src_path saved_file))
                              (PDict [(lit "primary_technologies",
                                       PStr (lit "Py"));
                                      (lit "supporting_libraries",
                                       PStr (lit "thon"))])
                              (answering []) watching))))
     = [SqlText (JsonDumps (PStr (lit "Python")))].
Proof. vm_compute. split; reflexivity. Qed.

(** ** C8: ids and timestamps *)

Lemma one_more_unique (d d' : database) (r r' : row) :
  one_more d d' r -> records d' = records d ++ [r'] -> r' = r.
Proof.
  intros (H & _) H'. rewrite H in H'.
  apply app_inv_head in H'. congruence.
Qed.

(** One call of commit_analyzer's [save_expertise]: when it returns, the
    log has one more record, under the next id and stamped with the
    instant of the call; when it raises, the database is as it was. *)
Lemma commit_save_step (u rn h a : pyval) (e : Env) (w : World) :
  match fst (commit_analyzer.save_expertise u rn h a e w) with
  | Ok _ =>
      exists r,
        one_more (db w)
          (db (snd (commit_analyzer.save_expertise u rn h a e w))) r
        /\ cell r (lit "timestamp") = SqlText (Strftime (clock w))
  | Raise _ => db (snd (commit_analyzer.save_expertise u rn h a e w)) = db w
  end.
Proof.
  destruct (is_dict a) eqn:D.
  - destruct a; try discriminate.
    destruct (commit_analyzer.save_expertise u rn h (PDict d) e w)
      as [r w'] eqn:S.
    destruct r as [[] | x]; simpl.
    + apply commit_save_stores in S.
      destruct S as (r & Hone & Hts & _). exists r. split; assumption.
    + rewrite commit_save_dict in S.
      destruct (db_opens e); [| injection S as _ <-; reflexivity].
      destruct (sql_insert _ _ (db w)); [discriminate |].
      injection S as _ <-. reflexivity.
  - rewrite commit_save_other by exact D. reflexivity.
Qed.

Lemma run_saves_ids (calls : list save_call) :
  forall w,
  exists added,
    records (db (snd (run_saves calls w))) = records (db w) ++ added
    /\ next_of (db (snd (run_saves calls w)))
       = next_of (db w) + Z.of_nat (List.length added)
    /\ map rowid added
       = ids_from (next_of (db w))
                  (List.length (written (fst (run_saves calls w))))
    /\ map (fun r => cell r (lit "timestamp")) added
       = map (fun o => SqlText (Strftime (snd o)))
             (written (fst (run_saves calls w))).
Proof.
  induction calls as [| c rest IH]; intro w.
  - exists []. simpl. rewrite app_nil_r. repeat split. lia.
  - simpl.
    pose proof (commit_save_step (call_user c) (call_repo c) (call_hash c)
                  (call_analysis c) (call_env c) (tick (call_after c) w))
      as Hstep.
    destruct (commit_analyzer.save_expertise _ _ _ _ _ _) as [r w1].
    specialize (IH w1).
    destruct (run_saves rest w1) as [rs w2].
    destruct IH as (added & Hrec & Hnext & Hids & Hts).
    simpl in *. unfold written in *. simpl.
    destruct r as [[] | x]; simpl.
    + destruct Hstep as (r & (Hone & Hid & Hn) & Hstamp).
      exists (r :: added).
      rewrite Hrec, Hone, <- app_assoc. split; [reflexivity |].
      split; [rewrite Hnext, Hn; simpl List.length; lia |].
      split.
      * simpl. rewrite Hid, Hids, Hn. reflexivity.
      * simpl. rewrite Hstamp, Hts. reflexivity.
    + exists added. rewrite Hrec, Hnext, Hids, Hts, Hstep.
      repeat split.
Qed.

(** C8. For any sequence of calls of [save_expertise] made by a single
    writer, the records appended by the calls that succeed take the next
    ids in order, with no gap, and each holds the clock's reading at the
    instant of its own call.  In the hook that instant comes after the
    analysis: the record's timestamp is the clock after the backend has
    answered. *)
Theorem C8_ids_without_gaps_and_write_time_stamps
    (calls : list save_call) (w : World) :
  (exists added,
      records (db (snd (run_saves calls w))) = records (db w) ++ added
      /\ map rowid added
         = ids_from (next_of (db w))
                    (List.length (written (fst (run_saves calls w))))
      /\ map (fun r => cell r (lit "timestamp")) added
         = map (fun o => SqlText (Strftime (snd o)))
               (written (fst (run_saves calls w))))
  /\ (forall e r,
        records (db (snd (commit_analyzer.main e w))) = records (db w) ++ [r] ->
        rowid r = next_of (db w)
        /\ cell r (lit "timestamp")
           = SqlText (Strftime (clock w + latency e))).
Proof.
  split.
  - destruct (run_saves_ids calls w) as (added & H1 & _ & H2 & H3).
    exists added. repeat split; assumption.
  - intros e r Hr.
    destruct (commit_main_cases e w)
      as [H | (k & v & d & r0 & _ & Hone & Hts & _)].
    + rewrite H in Hr. exfalso; exact (@app_one_neq _ _ _ Hr).
    + rewrite (@one_more_unique _ _ _ _ Hone Hr).
      destruct Hone as (_ & Hid & _). split; assumption.
Qed.

(** C8 at three calls from a fresh table, the second of which fails. *)
Lemma C8_witness :
  exists added,
    records (db (snd (run_saves three_commits hooked)))
      = records (db hooked) ++ added
    /\ map rowid added
       = ids_from (next_of (db hooked))
                  (List.length (written (fst (run_saves three_commits
                                                hooked))))
    /\ map (fun r => cell r (lit "timestamp")) added
       = map (fun o => SqlText (Strftime (snd o)))
             (written (fst (run_saves three_commits hooked))).
Proof.
  exact (proj1 (C8_ids_without_gaps_and_write_time_stamps
                  three_commits hooked)).
Defined.


(** Three calls from a fresh table, the second of which fails: ids 1 and
    2, stamped one minute and eleven and a half minutes after the start. *)
Lemma three_commits_run :
  map (fun r => (rowid r, cell r (lit "timestamp")))
      (records (db (snd (run_saves three_commits hooked))))
    = [ (1, SqlText (Strftime 1700000060));
        (2, SqlText (Strftime 1700000690)) ]
  /\ map fst (fst (run_saves three_commits hooked))
     = [Ok tt; Raise InterfaceError; Ok tt].
Proof. vm_compute. split; reflexivity. Qed.

(* ================================================================== *)
(** * Part VI: further properties *)
(* ================================================================== *)

(** What the three programs do beyond the rules of the pipeline: how
    [init_database], [save_expertise], [analyze_content_with_llm] and
    [get_git_info] behave on their own, and how the hook, the handlers
    and the watch loop compose them.  Where a handler stores a record
    these properties speak of its requests, its connections and the
    database: the lines it prints on that path are not all in the model
    (the rule printed under the analysis is left out). *)

(** ** [init_database] *)

Lemma commit_init_run (e : Env) (w : World) :
  commit_analyzer.init_database e w =
    if db_opens e
    then (Ok tt, {| db := sql_create commit_analyzer.schema (db w);
                    clock := clock w; trace := trace w ++ [Connect] |})
    else (Raise OperationalError, logged w [Connect]).
Proof.
  autounfold with py. unfold logged. simpl.
  destruct (db_opens e); reflexivity.
Qed.

Lemma search_init_run (e : Env) (w : World) :
  search.init_database e w =
    if db_opens e
    then (Ok tt, {| db := sql_create search.schema (db w);
                    clock := clock w; trace := trace w ++ [Connect] |})
    else (Raise OperationalError, logged w [Connect]).
Proof.
  autounfold with py. unfold logged. simpl.
  destruct (db_opens e); reflexivity.
Qed.

Lemma engine_init_run (e : Env) (w : World) :
  engine.init_database e w =
    if db_opens e
    then (Ok tt, {| db := sql_create engine.schema (db w);
                    clock := clock w; trace := trace w ++ [Connect] |})
    else (Raise OperationalError, logged w [Connect]).
Proof.
  autounfold with py. unfold logged. simpl.
  destruct (db_opens e); reflexivity.
Qed.

Lemma sql_create_twice (c1 c2 : list column) (d : database) :
  sql_create c2 (sql_create c1 d) = sql_create c1 d.
Proof. destruct d; reflexivity. Qed.

Lemma initializer_run (i : M unit * list column) (e : Env) (w : World) :
  In i initializers ->
  fst i e w =
    if db_opens e
    then (Ok tt, {| db := sql_create (snd i) (db w);
                    clock := clock w; trace := trace w ++ [Connect] |})
    else (Raise OperationalError, logged w [Connect]).
Proof.
  intro H. unfold initializers in H. simpl in H.
  destruct H as [<- | [<- | [<- | []]]]; simpl.
  - apply commit_init_run.
  - apply search_init_run.
  - apply engine_init_run.
Qed.

(** X1. [init_database] can be called at every start.  Whichever of the
    three programs calls it, and whichever called it before, a second
    call changes nothing, no record is lost, and a table that exists is
    left as it is, also when its columns are those of another program.
    A file without the table gets an empty one with the caller's
    columns.  All this once the first call could open the file. *)
Theorem init_database_is_idempotent
    (first second : M unit * list column) (e1 e2 : Env) (w : World) :
  In first initializers -> In second initializers ->
  db_opens e1 = true ->
  db (snd (fst second e2 (snd (fst first e1 w)))) = db (snd (fst first e1 w))
  /\ records (db (snd (fst first e1 w))) = records (db w)
  /\ next_of (db (snd (fst first e1 w))) = next_of (db w)
  /\ (forall t, db w = Some t -> db (snd (fst first e1 w)) = Some t)
  /\ (db w = None ->
      db (snd (fst first e1 w))
        = Some {| columns := snd first; rows := []; seq := 0 |}).
Proof.
  intros Hf Hs Ho.
  rewrite (@initializer_run second e2 _ Hs), (@initializer_run first e1 w Hf).
  rewrite Ho. destruct (db_opens e2); simpl;
    rewrite ?sql_create_twice, ?records_create, ?next_of_create;
    (split; [reflexivity |]); (split; [reflexivity |]);
    (split; [reflexivity |]);
    (split; [intros t Ht; rewrite Ht; reflexivity |]);
    intros Hn; rewrite Hn; reflexivity.
Qed.

(** X1 at the watcher's start followed by the hook's, on a new machine. *)
Lemma init_database_is_idempotent_witness :
  db (snd (commit_analyzer.init_database (answering [])
             (snd (search.init_database (answering []) fresh))))
    = db (snd (search.init_database (answering []) fresh))
  /\ db (snd (search.init_database (answering []) fresh))
     = Some {| columns := search.schema; rows := []; seq := 0 |}.
Proof.
  destruct (@init_database_is_idempotent
              (search.init_database, search.schema)
              (commit_analyzer.init_database, commit_analyzer.schema)
              (answering []) (answering []) fresh)
    as (H1 & _ & _ & _ & H5).
  - unfold initializers. simpl. tauto.
  - unfold initializers. simpl. tauto.
  - reflexivity.
  - split; [exact H1 | exact (H5 eq_refl)].
Defined.

(** ** The handlers, when they store *)

(** search.py's handler leaves the database as it was, unless the file
    is a visible one whose text does not trim to empty, the analysis
    returned a non-empty dict, the login name is known and
    [save_expertise] returned: then the database is the one that call
    left. *)
Lemma search_on_modified_saves (ev : event) (e : Env) (w : World) :
  db (snd (search.on_modified ev e w)) = db w
  \/ exists content u d w1 w2,
       is_directory ev = false
       /\ startswith (lit ".") (basename (src_path ev)) = false
       /\ file_text e = Some content /\ strip content <> []
       /\ parsed (reply e) = Ok (PDict d) /\ d <> []
       /\ login e = Some u
       /\ db w1 = db w /\ clock w1 = clock w + latency e
       /\ search.save_expertise (PStr u) (PStr (src_path ev)) (PDict d) e w1
          = (Ok tt, w2)
       /\ db (snd (search.on_modified ev e w)) = db w2.
Proof.
  unfold search.on_modified, search.show. run.
  destruct (is_directory ev); simpl; [left; reflexivity |].
  destruct (startswith (lit ".") (basename (src_path ev))); simpl;
    [left; reflexivity |].
  destruct (file_text e) as [content |]; simpl; [| left; reflexivity].
  destruct (strip content) eqn:Hs; simpl; [left; reflexivity |].
  rewrite search_analyze_run. simpl.
  destruct (parsed (reply e)) as [a | x] eqn:P; simpl.
  2:{ pose proof (parsed_raises_Exception _ P) as Hx.
      destruct x; simpl; try discriminate; left; reflexivity. }
  destruct (truthy a) eqn:T; simpl; [| left; reflexivity].
  destruct a as [| b | z | f | s0 | l0 | d]; simpl; try (left; reflexivity).
  destruct d as [| [k v] d]; [discriminate |].
  destruct (login e) as [u |] eqn:L; simpl; [| left; reflexivity].
  match goal with
  | |- context [search.save_expertise _ _ _ e ?W] =>
      set (w1 := W);
      destruct (search_save_summary u (src_path ev) ((k, v) :: d) e w1)
        as (l & _ & _ & _ & Hres)
  end.
  destruct (search.save_expertise _ _ _ e w1) as [r w2] eqn:S.
  simpl in Hres.
  destruct r as [[] | x]; simpl.
  - right. exists content, u, ((k, v) :: d), w1, w2.
    rewrite Hs. repeat split; try reflexivity; try discriminate; exact S.
  - destruct Hres as [Hx Hdb]. rewrite Hx. simpl. left. exact Hdb.
Qed.

(** The same for engine.py's handler, hidden files included. *)
Lemma engine_on_modified_saves (ev : event) (e : Env) (w : World) :
  db (snd (engine.on_modified ev e w)) = db w
  \/ exists content u d w1 w2,
       is_directory ev = false
       /\ file_text e = Some content /\ strip content <> []
       /\ parsed (reply e) = Ok (PDict d) /\ d <> []
       /\ login e = Some u
       /\ db w1 = db w /\ clock w1 = clock w + latency e
       /\ engine.save_expertise (PStr u) (PStr (src_path ev)) (PDict d) e w1
          = (Ok tt, w2)
       /\ db (snd (engine.on_modified ev e w)) = db w2.
Proof.
  unfold engine.on_modified, engine.show. run.
  destruct (is_directory ev); simpl; [left; reflexivity |].
  destruct (file_text e) as [content |]; simpl; [| left; reflexivity].
  destruct (strip content) eqn:Hs; simpl; [left; reflexivity |].
  rewrite engine_analyze_run. simpl.
  destruct (parsed (reply e)) as [a | x] eqn:P; simpl.
  2:{ pose proof (parsed_raises_Exception _ P) as Hx.
      destruct x; simpl; try discriminate; left; reflexivity. }
  destruct (truthy a) eqn:T; simpl; [| left; reflexivity].
  destruct a as [| b | z | f | s0 | l0 | d]; simpl; try (left; reflexivity).
  destruct d as [| [k v] d]; [discriminate |].
  destruct (login e) as [u |] eqn:L; simpl; [| left; reflexivity].
  match goal with
  | |- context [engine.save_expertise _ _ _ e ?W] =>
      set (w1 := W);
      destruct (engine_save_summary u (src_path ev) ((k, v) :: d) e w1)
        as (l & _ & _ & _ & Hres)
  end.
  destruct (engine.save_expertise _ _ _ e w1) as [r w2] eqn:S.
  simpl in Hres.
  destruct r as [[] | x]; simpl.
  - right. exists content, u, ((k, v) :: d), w1, w2.
    rewrite Hs. repeat split; try reflexivity; try discriminate; exact S.
  - destruct Hres as [Hx Hdb]. rewrite Hx. simpl. left. exact Hdb.
Qed.

(** The hook leaves the database as [init_database] made it, unless the
    git reads succeeded, the analysis returned a non-empty dict and
    [save_expertise] returned. *)
Lemma commit_main_saves (e : Env) (w : World) :
  db (snd (commit_analyzer.main e w))
    = db (snd (commit_analyzer.init_database e w))
  \/ exists diff msg user top d w1 w2,
       db_opens e = true
       /\ staged e = Some diff /\ message e = Some msg
       /\ git_user e = Some user /\ toplevel e = Some top
       /\ strip diff <> [] /\ strip msg <> []
       /\ parsed (reply e) = Ok (PDict d) /\ d <> []
       /\ db w1 = sql_create commit_analyzer.schema (db w)
       /\ clock w1 = clock w + latency e
       /\ trace w1
          = trace w ++ [Print LRunning; Connect; Print LAnalyzing;
                        Post commit_analyzer.MODEL_NAME
                          (CommitPrompt
                             (commit_analyzer.analysis_content
                                (Some msg) (Some diff))) 180]
       /\ commit_analyzer.save_expertise
            (PStr (strip user)) (PStr (basename (strip top)))
            (PStr (lit "pre-commit-analysis")) (PDict d) e w1 = (Ok tt, w2)
       /\ commit_analyzer.main e w
          = (Raise (SystemExit 0), w2).
Proof.
  rewrite commit_init_run.
  destruct (commit_analyzer.main e w) as [r wf] eqn:M.
  unfold commit_analyzer.main, commit_analyzer.get_git_info in M.
  unfold bind at 1 2 in M. unfold print at 1, act at 1 in M. simpl in M.
  rewrite commit_init_run in M. simpl in M.
  destruct (db_opens e) eqn:Hdb; simpl in *;
    [| injection M as <- <-; left; reflexivity].
  revert M. run.
  destruct (staged e) as [diff |]; simpl;
    [| intros [= <- <-]; left; reflexivity].
  destruct (message e) as [msg |]; simpl;
    [| intros [= <- <-]; left; reflexivity].
  destruct (git_user e) as [user |]; simpl;
    [| intros [= <- <-]; left; reflexivity].
  destruct (toplevel e) as [top |]; simpl;
    [| intros [= <- <-]; left; reflexivity].
  destruct (strip diff) eqn:Hd; simpl;
    [intros [= <- <-]; left; reflexivity |].
  destruct (strip msg) eqn:Hm; simpl;
    [intros [= <- <-]; left; reflexivity |].
  rewrite commit_analyze_run. simpl.
  destruct (parsed (reply e)) as [a | x] eqn:P; simpl.
  2:{ destruct x; simpl; intros [= <- <-]; left; reflexivity. }
  destruct (truthy a) eqn:T; simpl;
    [| intros [= <- <-]; left; reflexivity].
  destruct (is_dict a) eqn:D.
  2:{ rewrite commit_save_other by exact D. simpl.
      intros [= <- <-]. left; reflexivity. }
  destruct a as [| | | | | | d]; try discriminate.
  destruct d as [| [k v] d]; [discriminate |].
  match goal with
  | |- context [commit_analyzer.save_expertise _ _ _ _ e ?W] =>
      set (w1 := W)
  end.
  destruct (commit_analyzer.save_expertise _ _ _ _ e w1) as [r1 w2] eqn:S.
  destruct r1 as [[] | x]; simpl; intros [= <- <-].
  - right. exists diff, msg, user, top, ((k, v) :: d), w1, w2.
    rewrite Hd, Hm. subst w1. simpl.
    repeat split; try reflexivity; try discriminate; try exact S.
    rewrite <- !app_assoc. reflexivity.
  - left. rewrite commit_save_dict in S. subst w1. simpl in S.
    rewrite Hdb in S.
    destruct (sql_insert _ _ _); [discriminate |].
    injection S as _ <-. reflexivity.
Qed.

(** ** One file, two tables *)

Lemma sql_insert_missing_column (names : list str) (ps : list param)
                                (t : table) (name : str) :
  In name names -> has_column t name = false ->
  sql_insert names ps (Some t) = Raise OperationalError.
Proof.
  intros Hin Hno. unfold sql_insert.
  destruct (forallb (has_column t) names) eqn:F; [| reflexivity].
  rewrite forallb_forall in F. rewrite (F name Hin) in Hno. discriminate.
Qed.

(** X2. search.py and commit_analyzer.py both keep their table
    expertise_log in the expertise.db beside the scripts, with different
    columns, and [init_database] never alters a table that exists.  On a
    table without the column repo_name, such as the one search.py
    creates, commit_analyzer's [save_expertise] raises OperationalError
    for every payload; the hook stores nothing and, when the analysis has
    returned a non-empty object, ends with status 1.  On a table without
    the column file_path, such as the one the hook creates, neither
    watcher ever stores anything. *)
Theorem hook_and_watcher_cannot_share_a_table
    (t : table) (e : Env) (w : World) :
  db w = Some t ->
  (has_column t (lit "repo_name") = false ->
   (forall u rn h d,
      fst (commit_analyzer.save_expertise u rn h (PDict d) e w)
        = Raise OperationalError)
   /\ db (snd (commit_analyzer.main e w)) = db w
   /\ (forall diff msg user top d,
         db_opens e = true ->
         staged e = Some diff -> message e = Some msg ->
         git_user e = Some user -> toplevel e = Some top ->
         strip diff <> [] -> strip msg <> [] ->
         parsed (reply e) = Ok (PDict d) -> d <> [] ->
         fst (commit_analyzer.main e w) = Raise OperationalError
         /\ status_of commit_analyzer.main e w = 1))
  /\ (has_column t (lit "file_path") = false ->
      forall ev,
        db (snd (search.on_modified ev e w)) = db w
        /\ db (snd (engine.on_modified ev e w)) = db w).
Proof.
  intro Ht. split.
  - intro Hno.
    assert (Hsave : forall u rn h d w1, db w1 = Some t ->
              commit_analyzer.save_expertise u rn h (PDict d) e w1
                = (Raise OperationalError, logged w1 [Connect])).
    { intros u rn h d w1 H1. rewrite commit_save_dict, H1.
      rewrite (@sql_insert_missing_column _ _ t (lit "repo_name"))
        by (try exact Hno; vm_compute; tauto).
      destruct (db_opens e); reflexivity. }
    split; [| split].
    + intros u rn h d. rewrite (Hsave u rn h d w Ht). reflexivity.
    + destruct (commit_main_saves e w)
        as [H | (diff & msg & user & top & d & w1 & w2 & _ & _ & _ & _ & _
                 & _ & _ & _ & _ & H1 & _ & _ & S & _)].
      * rewrite H, commit_init_run.
        destruct (db_opens e); simpl; [rewrite Ht |]; reflexivity.
      * rewrite Hsave in S by (rewrite H1, Ht; reflexivity). discriminate.
    + intros diff msg user top d Hdb Hd Hm Hu Htop Hdne Hmne P Hne.
      unfold status_of.
      destruct (commit_analyzer.main e w) as [r wf] eqn:M.
      unfold commit_analyzer.main, commit_analyzer.get_git_info in M.
      unfold bind at 1 2 in M. unfold print at 1, act at 1 in M.
      simpl in M. rewrite commit_init_run in M. simpl in M.
      rewrite Hdb in M. simpl in M. revert M. run.
      rewrite Hd. simpl. rewrite Hm. simpl. rewrite Hu. simpl.
      rewrite Htop. simpl.
      destruct (strip diff); [contradiction |].
      destruct (strip msg); [contradiction |]. simpl.
      rewrite commit_analyze_run. simpl. rewrite P. simpl.
      destruct d as [| kv d]; [contradiction |]. simpl.
      rewrite Hsave by (simpl; rewrite Ht; reflexivity). simpl.
      intros [= <- _]. split; reflexivity.
  - intros Hno ev. split.
    + destruct (search_on_modified_saves ev e w)
        as [H | (content & u & d & w1 & w2 & _ & _ & _ & _ & _ & _ & _
                 & H1 & _ & S & _)]; [exact H |].
      rewrite search_save_dict, H1, Ht in S.
      destruct (db_opens e); [| discriminate].
      destruct (py_add _ _); [| discriminate].
      destruct (py_add _ _); [| discriminate].
      rewrite (@sql_insert_missing_column _ _ t (lit "file_path")) in S
        by (try exact Hno; vm_compute; tauto).
      discriminate.
    + destruct (engine_on_modified_saves ev e w)
        as [H | (content & u & d & w1 & w2 & _ & _ & _ & _ & _ & _
                 & H1 & _ & S & _)]; [exact H |].
      rewrite engine_save_dict, H1, Ht in S.
      rewrite (@sql_insert_missing_column _ _ t (lit "file_path")) in S
        by (try exact Hno; vm_compute; tauto).
      destruct (db_opens e); discriminate.
Qed.

(** X2 where search.py has started first: the hook, given the five
    fields, stores nothing and ends with status 1. *)
Lemma hook_and_watcher_cannot_share_a_table_witness :
  db (snd (commit_analyzer.main (answering five_field_answer)
             watcher_first)) = db watcher_first
  /\ status_of commit_analyzer.main (answering five_field_answer)
       watcher_first = 1.
Proof.
  destruct (@hook_and_watcher_cannot_share_a_table
              {| columns := search.schema; rows := []; seq := 0 |}
              (answering five_field_answer) watcher_first eq_refl)
    as [Hhook _].
  destruct (Hhook eq_refl) as (_ & Hdb & Hstatus).
  split; [exact Hdb |].
  refine (proj2 (Hstatus (lit "+def foo(): pass") (lit "add foo")
                   (lit "Callum McCabe") (lit "/Users/callum/Turbotise")
                   _ eq_refl eq_refl eq_refl eq_refl eq_refl _ _ _ _)).
  - vm_compute. discriminate.
  - vm_compute. discriminate.
  - vm_compute. reflexivity.
  - discriminate.
Defined.

(** ** [analyze_content_with_llm] *)

Lemma parsed_when_backend_fails (e : Env) :
  backend_fails e -> parsed (reply e) = Raise RequestException.
Proof.
  intros [H | (status & body & H & Hlo & Hhi)]; rewrite H; simpl.
  - reflexivity.
  - replace (400 <=? status) with true by (symmetry; apply Z.leb_le; lia).
    replace (status <? 600) with true by (symmetry; apply Z.ltb_lt; lia).
    reflexivity.
Qed.

Lemma parsed_when_backend_answers (e : Env) (body : str) :
  backend_answers e body ->
  parsed (reply e)
    = match decode body with
      | None => Raise RequestException
      | Some envelope =>
          match py_get envelope (lit "response") (PStr (lit "{}")) with
          | Ok payload => json_loads payload
          | Raise x => Raise x
          end
      end.
Proof.
  intros (status & H & Hs). rewrite H. simpl.
  replace ((400 <=? status) && (status <? 600)) with false; [reflexivity |].
  symmetry. apply andb_false_iff.
  destruct Hs; [left; apply Z.leb_gt | right; apply Z.ltb_ge]; lia.
Qed.

(** X3. When the backend does not answer, or answers with a status from
    400 to 599, each [analyze_content_with_llm] prints that it could not
    connect and returns None: nothing is raised. *)
Theorem analysis_returns_None_when_the_backend_fails
    (content : str) (e : Env) (w : World) :
  backend_fails e ->
  commit_analyzer.analyze_content_with_llm content e w
    = (Ok PNone,
       {| db := db w; clock := clock w + latency e;
          trace := trace w ++ [Print LAnalyzing;
                               Post (lit "mistral") (CommitPrompt content) 180;
                               Print LNoBackend] |})
  /\ search.analyze_content_with_llm content e w
     = (Ok PNone,
        {| db := db w; clock := clock w + latency e;
           trace := trace w ++ [Print LAsking;
                                Print (LLength (List.length content));
                                Post (lit "mistral") (CodePrompt content) 120;
                                Print LNoBackend] |})
  /\ engine.analyze_content_with_llm content e w
     = (Ok PNone,
        {| db := db w; clock := clock w + latency e;
           trace := trace w ++ [Print LAsking;
                                Print (LLength (List.length content));
                                Post (lit "mistral") (SkillsPrompt content) 120;
                                Print LNoBackend] |}).
Proof.
  intro H. apply parsed_when_backend_fails in H.
  rewrite commit_analyze_run, search_analyze_run, engine_analyze_run, H.
  simpl. rewrite <- !app_assoc. repeat split.
Qed.

(** X3 where the backend is down. *)
Lemma analysis_returns_None_when_the_backend_fails_witness :
  fst (commit_analyzer.analyze_content_with_llm (lit "+def foo(): pass")
         backend_down fresh) = Ok PNone.
Proof.
  rewrite (proj1 (@analysis_returns_None_when_the_backend_fails
                    (lit "+def foo(): pass") backend_down fresh
                    (or_introl eq_refl))).
  reflexivity.
Defined.

(** X4. Whatever the backend does, and also when the call ends in an
    exception, each [analyze_content_with_llm] sends exactly one request:
    to the model mistral, with the prompt of its program around the very
    content it was given, waiting 180 seconds for a commit and 120 for a
    file.  It opens no file and no database connection, and the database
    is as it was. *)
Theorem analysis_sends_exactly_one_request
    (content : str) (e : Env) (w : World) :
  (posts (snd (commit_analyzer.analyze_content_with_llm content e w))
     = posts w ++ [Post (lit "mistral") (CommitPrompt content) 180]
   /\ posts (snd (search.analyze_content_with_llm content e w))
      = posts w ++ [Post (lit "mistral") (CodePrompt content) 120]
   /\ posts (snd (engine.analyze_content_with_llm content e w))
      = posts w ++ [Post (lit "mistral") (SkillsPrompt content) 120])
  /\ forall analyze,
       In analyze [ commit_analyzer.analyze_content_with_llm;
                    search.analyze_content_with_llm;
                    engine.analyze_content_with_llm ] ->
       db (snd (analyze content e w)) = db w
       /\ clock (snd (analyze content e w)) = clock w + latency e
       /\ connects (snd (analyze content e w)) = connects w
       /\ opens (snd (analyze content e w)) = opens w.
Proof.
  assert (Hrep : forall r, filter is_post (reported r) = []
                           /\ filter is_connect (reported r) = []
                           /\ filter is_open (reported r) = []).
  { intros [a | x]; [| destruct x]; repeat split. }
  split.
  - unfold posts.
    rewrite commit_analyze_run, search_analyze_run, engine_analyze_run.
    simpl. rewrite !filter_app.
    destruct (Hrep (parsed (reply e))) as (-> & _ & _). simpl.
    rewrite !app_nil_r. repeat split.
  - intros analyze Hin. simpl in Hin. unfold connects, opens.
    destruct (Hrep (parsed (reply e))) as (_ & Hc & Ho).
    destruct Hin as [<- | [<- | [<- | []]]];
      rewrite ?commit_analyze_run, ?search_analyze_run, ?engine_analyze_run;
      simpl; rewrite !filter_app, Hc, Ho; simpl; rewrite !app_nil_r;
      repeat split.
Qed.

(** X5. On an answer whose status [raise_for_status] accepts and whose
    body is JSON, [analyze_content_with_llm] checks nothing.  A body that
    is not an object makes [.get] raise AttributeError; a "response" that
    is not a str makes [json.loads] raise TypeError; a "response" that is
    a str is parsed, a missing one counting as the str of an empty
    object, and whatever JSON value it holds is returned, object or not;
    a str that is not JSON raises JSONDecodeError.  None of these is
    caught in the function. *)
Theorem analysis_of_an_answered_request
    (content : str) (e : Env) (w : World) (body : str) (v : pyval) :
  backend_answers e body ->
  decode body = Some v ->
  forall analyze,
    In analyze [ commit_analyzer.analyze_content_with_llm;
                 search.analyze_content_with_llm;
                 engine.analyze_content_with_llm ] ->
    (is_dict v = false -> fst (analyze content e w) = Raise AttributeError)
    /\ (forall envelope,
          v = PDict envelope ->
          match dict_lookup (lit "response") envelope with
          | None => fst (analyze content e w) = Ok (PDict [])
          | Some (PStr payload) =>
              fst (analyze content e w)
                = match decode payload with
                  | Some a => Ok a
                  | None => Raise JSONDecodeError
                  end
          | Some _ => fst (analyze content e w) = Raise TypeError
          end).
Proof.
  intros Ha Hv analyze Hin.
  assert (Hfst : fst (analyze content e w) = returned (parsed (reply e))).
  { simpl in Hin. destruct Hin as [<- | [<- | [<- | []]]];
      rewrite ?commit_analyze_run, ?search_analyze_run, ?engine_analyze_run;
      reflexivity. }
  rewrite Hfst, (parsed_when_backend_answers Ha), Hv. split.
  - intro Hd. destruct v; try discriminate; reflexivity.
  - intros envelope ->. simpl.
    destruct (dict_lookup (lit "response") envelope) as [p |].
    + destruct p; try reflexivity.
      simpl. unfold json_loads_str. destruct (decode s); reflexivity.
    + reflexivity.
Qed.

(** X5 at an answer whose body is a JSON list. *)
Lemma analysis_of_an_answered_request_witness :
  fst (search.analyze_content_with_llm (lit "def foo(): pass")
         (answering (json "[1, 2]")) fresh) = Raise AttributeError.
Proof.
  refine (proj1 (@analysis_of_an_answered_request
                   (lit "def foo(): pass") (answering (json "[1, 2]")) fresh
                   (json "[1, 2]") (PList [PInt 1; PInt 2]) _ _ _ _) _).
  - exists 200. split; [reflexivity | left; reflexivity].
  - vm_compute. reflexivity.
  - simpl. tauto.
  - reflexivity.
Defined.

(** ** [save_expertise] after [init_database] *)

(** X6. On a file that holds no table yet, or the hook's own table,
    [init_database] followed by [save_expertise] with strs that encode
    to UTF-8 and an analysis whose summary is a str that encodes, None
    or absent returns, and the log has one more record: under the next
    id, stamped at the call, holding the user, the repository and the
    commit label as given, the four lists of the analysis as JSON, an
    absent one as the empty list, and the summary (NULL for None, the
    empty str for an absent one). *)
Theorem the_hook_stores_what_it_is_given
    (u rn h : str) (d : dict) (summary : sqlval) (e : Env) (w : World) :
  db_opens e = true ->
  holds_table commit_analyzer.schema (db w) ->
  encodable u = true -> encodable rn = true -> encodable h = true ->
  text_cell (field d "analysis_summary" (PStr [])) = Some summary ->
  fst (commit_analyzer.save_expertise (PStr u) (PStr rn) (PStr h) (PDict d) e
         (snd (commit_analyzer.init_database e w))) = Ok tt
  /\ db (snd (commit_analyzer.save_expertise (PStr u) (PStr rn) (PStr h)
                (PDict d) e (snd (commit_analyzer.init_database e w))))
     = Some
         {| columns := commit_analyzer.schema;
            rows :=
              records (db w) ++
              [ {| rowid := next_of (db w);
                   cells :=
                     [ (lit "user_id", SqlText (Str u));
                       (lit "timestamp", SqlText (Strftime (clock w)));
                       (lit "repo_name", SqlText (Str rn));
                       (lit "commit_hash", SqlText (Str h));
                       (lit "primary_technologies",
                        SqlText (JsonDumps
                                   (field d "primary_technologies" (PList []))));
                       (lit "supporting_libraries",
                        SqlText (JsonDumps
                                   (field d "supporting_libraries" (PList []))));
                       (lit "key_patterns_and_concepts",
                        SqlText (JsonDumps
                                   (field d "key_patterns_and_concepts"
                                      (PList []))));
                       (lit "inferred_skills",
                        SqlText (JsonDumps
                                   (field d "inferred_skills" (PList []))));
                       (lit "analysis_summary", summary) ] |} ];
            seq := next_of (db w) |}.
Proof.
  intros Hopen Htab Hu Hrn Hh Hsum.
  destruct (holds_table_create _ _ Htab) as (t & Ht & Hc & Hr & Hn & Hmax).
  rewrite commit_init_run, Hopen. cbn [snd]. rewrite Ht.
  erewrite commit_save_succeeds;
    [| exact Hopen | reflexivity | exact Hc | exact Hmax
     | exact Hu | exact Hrn | exact Hh | exact Hsum].
  cbn [fst snd db clock]. rewrite Hr, Hn. split; reflexivity.
Qed.

(** X6 at the first record of a new file. *)
Lemma the_hook_stores_what_it_is_given_witness :
  map rowid
    (records
       (db (snd (commit_analyzer.save_expertise
                   (PStr (lit "Callum McCabe")) (PStr (lit "Turbotise"))
                   (PStr (lit "pre-commit-analysis"))
                   (PDict [(lit "analysis_summary", PStr (lit "Adds foo."))])
                   (answering [])
                   (snd (commit_analyzer.init_database (answering [])
                           fresh))))))
  = [1].
Proof.
  rewrite (proj2 (@the_hook_stores_what_it_is_given
                    (lit "Callum McCabe") (lit "Turbotise")
                    (lit "pre-commit-analysis")
                    [(lit "analysis_summary", PStr (lit "Adds foo."))]
                    (SqlText (Str (lit "Adds foo.")))
                    (answering []) fresh
                    eq_refl I eq_refl eq_refl eq_refl eq_refl)).
  reflexivity.
Defined.

(** X7. The same for the two watchers, whose tables have the same six
    columns, for a summary that is a str that encodes, None or absent.
    search.py stores the concatenation of the primary technologies with
    the supporting libraries, and of the patterns with the inferred
    skills, when Python can add them; engine.py stores the fields
    technologies and core_concepts of its own prompt, and its summary is
    the field summary. *)
Theorem the_watchers_store_what_they_are_given
    (u p : str) (d : dict) (e : Env) (w : World) :
  db_opens e = true ->
  holds_table search.schema (db w) ->
  encodable u = true -> encodable p = true ->
  (forall technologies core_concepts summary,
     py_add (field d "primary_technologies" (PList []))
            (field d "supporting_libraries" (PList [])) = Ok technologies ->
     py_add (field d "key_patterns_and_concepts" (PList []))
            (field d "inferred_skills" (PList [])) = Ok core_concepts ->
     text_cell (field d "analysis_summary" (PStr [])) = Some summary ->
     fst (search.save_expertise (PStr u) (PStr p) (PDict d) e
            (snd (search.init_database e w))) = Ok tt
     /\ db (snd (search.save_expertise (PStr u) (PStr p) (PDict d) e
                   (snd (search.init_database e w))))
        = Some
            {| columns := search.schema;
               rows :=
                 records (db w) ++
                 [ {| rowid := next_of (db w);
                      cells :=
                        [ (lit "user_id", SqlText (Str u));
                          (lit "timestamp", SqlText (Strftime (clock w)));
                          (lit "file_path", SqlText (Str p));
                          (lit "technologies",
                           SqlText (JsonDumps technologies));
                          (lit "core_concepts",
                           SqlText (JsonDumps core_concepts));
                          (lit "summary", summary) ] |} ];
               seq := next_of (db w) |})
  /\ (forall summary,
        text_cell (field d "summary" (PStr [])) = Some summary ->
        fst (engine.save_expertise (PStr u) (PStr p) (PDict d) e
               (snd (engine.init_database e w))) = Ok tt
        /\ db (snd (engine.save_expertise (PStr u) (PStr p) (PDict d) e
                      (snd (engine.init_database e w))))
           = Some
               {| columns := engine.schema;
                  rows :=
                    records (db w) ++
                    [ {| rowid := next_of (db w);
                         cells :=
                           [ (lit "user_id", SqlText (Str u));
                             (lit "timestamp", SqlText (Strftime (clock w)));
                             (lit "file_path", SqlText (Str p));
                             (lit "technologies",
                              SqlText (JsonDumps
                                         (field d "technologies" (PList []))));
                             (lit "core_concepts",
                              SqlText (JsonDumps
                                         (field d "core_concepts" (PList []))));
                             (lit "summary", summary) ] |} ];
                  seq := next_of (db w) |}).
Proof.
  intros Hopen Htab Hu Hp.
  destruct (holds_table_create _ _ Htab) as (t & Ht & Hc & Hr & Hn & Hmax).
  split.
  - intros technologies core_concepts summary Ht1 Ht2 Hsum.
    rewrite search_init_run, Hopen. cbn [snd]. rewrite Ht.
    erewrite search_save_succeeds;
      [| exact Hopen | reflexivity | exact Hc | exact Hmax
       | exact Hu | exact Hp | exact Ht1 | exact Ht2 | exact Hsum].
    cbn [fst snd db clock]. rewrite Hr, Hn. split; reflexivity.
  - intros summary Hsum.
    rewrite engine_init_run, Hopen. cbn [snd].
    change engine.schema with search.schema. rewrite Ht.
    erewrite engine_save_succeeds;
      [| exact Hopen | reflexivity | exact Hc | exact Hmax
       | exact Hu | exact Hp | exact Hsum].
    cbn [fst snd db clock]. rewrite Hr, Hn. split; reflexivity.
Qed.

(** X7 at the first record of a watcher's file. *)
Lemma the_watchers_store_what_they_are_given_witness :
  map rowid
    (records
       (db (snd (engine.save_expertise
                   (PStr (lit "callum")) (PStr (lit "/tmp/notes.py"))
                   (PDict [(lit "summary", PStr (lit "Notes."))])
                   (answering [])
                   (snd (engine.init_database (answering []) watching))))))
  = [1].
Proof.
  assert (Htab : holds_table search.schema (db watching))
    by (vm_compute; split; [reflexivity | discriminate]).
  rewrite (proj2 (proj2 (@the_watchers_store_what_they_are_given
                           (lit "callum") (lit "/tmp/notes.py")
                           [(lit "summary", PStr (lit "Notes."))]
                           (answering []) watching
                           eq_refl Htab eq_refl eq_refl)
                    (SqlText (Str (lit "Notes."))) eq_refl)).
  reflexivity.
Defined.

(** ** [save_expertise], when it fails *)

Lemma search_save_other (u p : str) (a : pyval) (e : Env) (w : World) :
  is_dict a = false ->
  search.save_expertise (PStr u) (PStr p) a e w =
    (Raise (if db_opens e then AttributeError else OperationalError),
     logged w [Connect]).
Proof.
  intro H. autounfold with py. unfold logged. simpl.
  destruct (db_opens e); simpl; [| reflexivity].
  destruct a; try discriminate; reflexivity.
Qed.

Lemma engine_save_other (u p : str) (a : pyval) (e : Env) (w : World) :
  is_dict a = false ->
  engine.save_expertise (PStr u) (PStr p) a e w =
    (Raise (if db_opens e then AttributeError else OperationalError),
     logged w [Connect]).
Proof.
  intro H. autounfold with py. unfold logged. simpl.
  destruct (db_opens e); simpl; [| reflexivity].
  destruct a; try discriminate; reflexivity.
Qed.

Lemma bind_container (v : pyval) :
  is_container v = true -> bind_param (PyVal v) = Raise InterfaceError.
Proof. destruct v; try discriminate; reflexivity. Qed.

(** X8. A call of [save_expertise] that raises has opened its connection
    and done nothing else: the database is as it was and no line is
    printed.  It raises OperationalError when the file cannot be opened,
    AttributeError when the analysis is not a dict, and some exception
    when the summary of the analysis is a list or a dict, which SQLite
    cannot bind: the record is then lost whole, the lists with it. *)
Theorem a_failed_save_stores_nothing
    (u rn h : pyval) (user path : str) (e : Env) (w : World) :
  (forall a save,
     In save [ commit_analyzer.save_expertise u rn h a;
               search.save_expertise (PStr user) (PStr path) a;
               engine.save_expertise (PStr user) (PStr path) a ] ->
     (forall x, fst (save e w) = Raise x -> snd (save e w) = logged w [Connect])
     /\ (db_opens e = false -> fst (save e w) = Raise OperationalError)
     /\ (db_opens e = true -> is_dict a = false ->
         fst (save e w) = Raise AttributeError))
  /\ (forall d summary,
        is_container summary = true ->
        (dict_lookup (lit "analysis_summary") d = Some summary ->
         (exists x, fst (commit_analyzer.save_expertise u rn h (PDict d) e w)
                    = Raise x)
         /\ (exists x, fst (search.save_expertise (PStr user) (PStr path)
                              (PDict d) e w) = Raise x))
        /\ (dict_lookup (lit "summary") d = Some summary ->
            exists x, fst (engine.save_expertise (PStr user) (PStr path)
                             (PDict d) e w) = Raise x)).
Proof.
  split.
  - intros a save Hin. simpl in Hin.
    destruct (is_dict a) eqn:D.
    + destruct a as [| | | | | | d]; try discriminate.
      destruct Hin as [<- | [<- | [<- | []]]];
        rewrite ?commit_save_dict, ?search_save_dict, ?engine_save_dict;
        destruct (db_opens e); simpl;
        repeat split; try discriminate; try reflexivity;
        try (intros x;
             repeat match goal with
                    | |- context [match ?s with Ok _ => _ | Raise _ => _ end] =>
                        destruct s
                    end; simpl; intro; try discriminate; reflexivity).
    + destruct Hin as [<- | [<- | [<- | []]]];
        rewrite ?commit_save_other, ?search_save_other, ?engine_save_other
          by exact D;
        destruct (db_opens e); simpl;
        repeat split; try discriminate; reflexivity.
  - intros d summary Hc. split.
    + intro Hs.
      assert (Hb : bind_param (PyVal (field d "analysis_summary" (PStr [])))
                   = Raise InterfaceError).
      { unfold field. rewrite Hs. exact (bind_container _ Hc). }
      split.
      * rewrite commit_save_dict. destruct (db_opens e); [| simpl; eauto].
        destruct (sql_insert _ _ (db w)) as [d' | x] eqn:S; [| simpl; eauto].
        exfalso. apply sql_insert_ok in S.
        destruct S as (r & vs & _ & Hvs & _).
        apply commit_values_bound in Hvs.
        destruct Hvs as (? & ? & ? & ? & _ & Hsum). congruence.
      * rewrite search_save_dict. destruct (db_opens e); [| simpl; eauto].
        destruct (py_add _ _) as [t |]; [| simpl; eauto].
        destruct (py_add _ _) as [c |] in |- *; [| simpl; eauto].
        destruct (sql_insert _ _ (db w)) as [d' | x] eqn:S; [| simpl; eauto].
        exfalso. apply sql_insert_ok in S.
        destruct S as (r & vs & _ & Hvs & _).
        apply search_values_bound in Hvs.
        destruct Hvs as (? & ? & ? & _ & Hsum). congruence.
    + intro Hs.
      assert (Hb : bind_param (PyVal (field d "summary" (PStr [])))
                   = Raise InterfaceError).
      { unfold field. rewrite Hs. exact (bind_container _ Hc). }
      rewrite engine_save_dict. destruct (db_opens e); [| simpl; eauto].
      destruct (sql_insert _ _ (db w)) as [d' | x] eqn:S; [| simpl; eauto].
      exfalso. apply sql_insert_ok in S.
      destruct S as (r & vs & _ & Hvs & _).
      apply engine_values_bound in Hvs.
      destruct Hvs as (? & ? & ? & _ & Hsum). congruence.
Qed.

(** ** Where a record comes from *)

Lemma bind_params_cons (p : param) (ps : list param) (vs : list sqlval) :
  bind_params (p :: ps) = Ok vs ->
  exists v vs', bind_param p = Ok v /\ bind_params ps = Ok vs' /\ vs = v :: vs'.
Proof.
  cbn [bind_params].
  destruct (bind_param p) as [v |]; [| discriminate].
  destruct (bind_params ps) as [vs' |]; [| discriminate].
  intros [= <-]. exists v, vs'. repeat split.
Qed.

Lemma bind_str_inv (s : str) (v : sqlval) :
  bind_param (PyVal (PStr s)) = Ok v -> v = SqlText (Str s).
Proof.
  simpl. destruct (existsb is_surrogate s); [discriminate |].
  intros [= <-]. reflexivity.
Qed.

(** The user, the repository, the label and the instant of a record the
    hook's [save_expertise] has stored. *)
Lemma commit_save_row (u rn h : str) (d : dict) (e : Env) (w w' : World) :
  commit_analyzer.save_expertise (PStr u) (PStr rn) (PStr h) (PDict d) e w
    = (Ok tt, w') ->
  exists r,
    one_more (db w) (db w') r
    /\ cell r (lit "user_id") = SqlText (Str u)
    /\ cell r (lit "repo_name") = SqlText (Str rn)
    /\ cell r (lit "commit_hash") = SqlText (Str h)
    /\ cell r (lit "timestamp") = SqlText (Strftime (clock w)).
Proof.
  rewrite commit_save_dict.
  destruct (db_opens e); [| discriminate].
  destruct (sql_insert _ _ (db w)) as [d' | x] eqn:S; [| discriminate].
  intros [= <-].
  destruct (sql_insert_ok _ _ _ S) as (r & vs & Hone & Hb & Hcell).
  unfold commit_values in Hb.
  apply bind_params_cons in Hb. destruct Hb as (vu & vs1 & Hu & Hb & ->).
  apply bind_params_cons in Hb. destruct Hb as (vt & vs2 & Ht & Hb & ->).
  apply bind_params_cons in Hb. destruct Hb as (vr & vs3 & Hr & Hb & ->).
  apply bind_params_cons in Hb. destruct Hb as (vh & vs4 & Hh & Hb & ->).
  apply bind_str_inv in Hu, Hr, Hh. subst vu vr vh.
  injection Ht as <-.
  exists r. split; [exact Hone |].
  repeat split; rewrite Hcell by (vm_compute; tauto); reflexivity.
Qed.

(** The user, the file and the instant of a record a watcher's
    [save_expertise] has stored. *)
Lemma search_save_row (u p : str) (d : dict) (e : Env) (w w' : World) :
  search.save_expertise (PStr u) (PStr p) (PDict d) e w = (Ok tt, w') ->
  exists r,
    one_more (db w) (db w') r
    /\ cell r (lit "user_id") = SqlText (Str u)
    /\ cell r (lit "file_path") = SqlText (Str p)
    /\ cell r (lit "timestamp") = SqlText (Strftime (clock w)).
Proof.
  rewrite search_save_dict.
  destruct (db_opens e); [| discriminate].
  destruct (py_add _ _) as [tech | x]; [| discriminate].
  destruct (py_add _ _) as [conc | x] in |- *; [| discriminate].
  destruct (sql_insert _ _ (db w)) as [d' | x] eqn:S; [| discriminate].
  intros [= <-].
  destruct (sql_insert_ok _ _ _ S) as (r & vs & Hone & Hb & Hcell).
  unfold search_values in Hb.
  apply bind_params_cons in Hb. destruct Hb as (vu & vs1 & Hu & Hb & ->).
  apply bind_params_cons in Hb. destruct Hb as (vt & vs2 & Ht & Hb & ->).
  apply bind_params_cons in Hb. destruct Hb as (vp & vs3 & Hp & Hb & ->).
  apply bind_str_inv in Hu, Hp. subst vu vp.
  injection Ht as <-.
  exists r. split; [exact Hone |].
  repeat split; rewrite Hcell by (vm_compute; tauto); reflexivity.
Qed.

Lemma engine_save_row (u p : str) (d : dict) (e : Env) (w w' : World) :
  engine.save_expertise (PStr u) (PStr p) (PDict d) e w = (Ok tt, w') ->
  exists r,
    one_more (db w) (db w') r
    /\ cell r (lit "user_id") = SqlText (Str u)
    /\ cell r (lit "file_path") = SqlText (Str p)
    /\ cell r (lit "timestamp") = SqlText (Strftime (clock w)).
Proof.
  rewrite engine_save_dict.
  destruct (db_opens e); [| discriminate].
  destruct (sql_insert _ _ (db w)) as [d' | x] eqn:S; [| discriminate].
  intros [= <-].
  destruct (sql_insert_ok _ _ _ S) as (r & vs & Hone & Hb & Hcell).
  unfold engine_values in Hb.
  apply bind_params_cons in Hb. destruct Hb as (vu & vs1 & Hu & Hb & ->).
  apply bind_params_cons in Hb. destruct Hb as (vt & vs2 & Ht & Hb & ->).
  apply bind_params_cons in Hb. destruct Hb as (vp & vs3 & Hp & Hb & ->).
  apply bind_str_inv in Hu, Hp. subst vu vp.
  injection Ht as <-.
  exists r. split; [exact Hone |].
  repeat split; rewrite Hcell by (vm_compute; tauto); reflexivity.
Qed.

(** X9. Whatever the hook meets, it leaves the records as they were or
    adds exactly one.  A record is added only when git gave the diff,
    the message, the user name and the top-level directory, the diff and
    the message do not trim to empty and the analysis is a non-empty
    dict.  The record then carries the trimmed user name, the base name
    of the trimmed top-level directory as the repository, the label
    pre-commit-analysis in place of a commit hash, and the instant at
    which the backend had answered; one request was sent, holding the
    message and the diff untrimmed; and the hook exits with status 0. *)
Theorem every_hook_record_is_labelled (e : Env) (w : World) :
  records (db (snd (commit_analyzer.main e w))) = records (db w)
  \/ exists diff msg user top d r,
       staged e = Some diff /\ message e = Some msg
       /\ git_user e = Some user /\ toplevel e = Some top
       /\ strip diff <> [] /\ strip msg <> []
       /\ parsed (reply e) = Ok (PDict d) /\ d <> []
       /\ one_more (db w) (db (snd (commit_analyzer.main e w))) r
       /\ cell r (lit "user_id") = SqlText (Str (strip user))
       /\ cell r (lit "repo_name") = SqlText (Str (basename (strip top)))
       /\ cell r (lit "commit_hash")
          = SqlText (Str (lit "pre-commit-analysis"))
       /\ cell r (lit "timestamp")
          = SqlText (Strftime (clock w + latency e))
       /\ posts (snd (commit_analyzer.main e w))
          = posts w
              ++ [Post (lit "mistral")
                    (CommitPrompt
                       (lit "Commit Message:" ++ [10%N] ++ msg
                          ++ [10%N; 10%N] ++ lit "Code Diff:" ++ [10%N]
                          ++ diff)) 180]
       /\ status_of commit_analyzer.main e w = 0.
Proof.
  destruct (commit_main_saves e w)
    as [H | (diff & msg & user & top & d & w1 & w2 & Hdb & Hd & Hm & Hu & Ht
             & Hdne & Hmne & P & Hne & Hw1 & Hc1 & Ht1 & S & M)].
  - left. rewrite H, commit_init_run.
    destruct (db_opens e); simpl; [apply records_create | reflexivity].
  - right. exists diff, msg, user, top, d.
    destruct (commit_save_row _ _ _ _ _ _ S)
      as (r & Hone & Hcu & Hcr & Hch & Hct).
    exists r. unfold status_of. rewrite M. cbn [fst snd].
    rewrite Hw1 in Hone. apply one_more_after_create in Hone.
    rewrite Hc1 in Hct.
    repeat split; try assumption; try apply Hone.
    rewrite commit_save_dict, Hdb in S.
    destruct (sql_insert _ _ (db w1)); [| discriminate].
    injection S as <-. unfold posts. simpl.
    rewrite !filter_app, Ht1, !filter_app. simpl.
    rewrite !app_nil_r. reflexivity.
Qed.

(** The record a handler of search.py adds, when it adds one. *)
Lemma search_on_modified_row (ev : event) (e : Env) (w : World) :
  db (snd (search.on_modified ev e w)) = db w
  \/ exists content u d r,
       is_directory ev = false
       /\ startswith (lit ".") (basename (src_path ev)) = false
       /\ file_text e = Some content /\ strip content <> []
       /\ parsed (reply e) = Ok (PDict d) /\ d <> []
       /\ login e = Some u
       /\ one_more (db w) (db (snd (search.on_modified ev e w))) r
       /\ cell r (lit "user_id") = SqlText (Str u)
       /\ cell r (lit "file_path") = SqlText (Str (src_path ev))
       /\ cell r (lit "timestamp")
          = SqlText (Strftime (clock w + latency e)).
Proof.
  destruct (search_on_modified_saves ev e w)
    as [H | (content & u & d & w1 & w2 & Hdir & Hhid & Hf & Hs & P & Hne
             & L & Hw1 & Hc1 & S & Hdb)]; [left; exact H |].
  right. exists content, u, d.
  destruct (search_save_row _ _ _ _ _ S) as (r & Hone & Hcu & Hcp & Hct).
  exists r. rewrite Hdb. rewrite Hw1 in Hone. rewrite Hc1 in Hct.
  repeat split; try assumption; apply Hone.
Qed.

(** The same for engine.py, which has no test for hidden files. *)
Lemma engine_on_modified_row (ev : event) (e : Env) (w : World) :
  db (snd (engine.on_modified ev e w)) = db w
  \/ exists content u d r,
       is_directory ev = false
       /\ file_text e = Some content /\ strip content <> []
       /\ parsed (reply e) = Ok (PDict d) /\ d <> []
       /\ login e = Some u
       /\ one_more (db w) (db (snd (engine.on_modified ev e w))) r
       /\ cell r (lit "user_id") = SqlText (Str u)
       /\ cell r (lit "file_path") = SqlText (Str (src_path ev))
       /\ cell r (lit "timestamp")
          = SqlText (Strftime (clock w + latency e)).
Proof.
  destruct (engine_on_modified_saves ev e w)
    as [H | (content & u & d & w1 & w2 & Hdir & Hf & Hs & P & Hne
             & L & Hw1 & Hc1 & S & Hdb)]; [left; exact H |].
  right. exists content, u, d.
  destruct (engine_save_row _ _ _ _ _ S) as (r & Hone & Hcu & Hcp & Hct).
  exists r. rewrite Hdb. rewrite Hw1 in Hone. rewrite Hc1 in Hct.
  repeat split; try assumption; apply Hone.
Qed.

(** X10. Whatever a watcher's handler meets, it leaves the database as
    it was or adds exactly one record.  A record is added only for a
    file, not a directory (and for search.py not a hidden file), whose
    text does not trim to empty, when the analysis is a non-empty dict
    and the login name is known.  The record then carries the login
    name, the path of the event as it was delivered, and the instant at
    which the backend had answered. *)
Theorem every_watcher_record_is_labelled (ev : event) (e : Env) (w : World) :
  (db (snd (search.on_modified ev e w)) = db w
   \/ exists content u d r,
        is_directory ev = false
        /\ startswith (lit ".") (basename (src_path ev)) = false
        /\ file_text e = Some content /\ strip content <> []
        /\ parsed (reply e) = Ok (PDict d) /\ d <> []
        /\ login e = Some u
        /\ one_more (db w) (db (snd (search.on_modified ev e w))) r
        /\ cell r (lit "user_id") = SqlText (Str u)
        /\ cell r (lit "file_path") = SqlText (Str (src_path ev))
        /\ cell r (lit "timestamp")
           = SqlText (Strftime (clock w + latency e)))
  /\ (db (snd (engine.on_modified ev e w)) = db w
      \/ exists content u d r,
           is_directory ev = false
           /\ file_text e = Some content /\ strip content <> []
           /\ parsed (reply e) = Ok (PDict d) /\ d <> []
           /\ login e = Some u
           /\ one_more (db w) (db (snd (engine.on_modified ev e w))) r
           /\ cell r (lit "user_id") = SqlText (Str u)
           /\ cell r (lit "file_path") = SqlText (Str (src_path ev))
           /\ cell r (lit "timestamp")
              = SqlText (Strftime (clock w + latency e))).
Proof.
  split; [apply search_on_modified_row | apply engine_on_modified_row].
Qed.

(** ** The hook, from start to exit *)

Lemma commit_git_run (e : Env) (w : World) :
  commit_analyzer.get_git_info e w =
    match staged e, message e, git_user e, toplevel e with
    | Some diff, Some msg, Some user, Some top =>
        (Ok (Some diff, Some msg, Some (strip user),
             Some (basename (strip top))), w)
    | _, _, _, _ =>
        (Ok (None, None, None, None), logged w [Print (LGitError (git_error e))])
    end.
Proof.
  unfold commit_analyzer.get_git_info, git_error, logged. run.
  destruct (staged e); simpl; [| reflexivity].
  destruct (message e); simpl; [| reflexivity].
  destruct (git_user e); simpl; [| reflexivity].
  destruct (toplevel e); simpl; reflexivity.
Qed.

Lemma commit_main_run (e : Env) (w : World) :
  commit_analyzer.main e w =
    if db_opens e then
      match staged e, message e, git_user e, toplevel e with
      | Some diff, Some msg, Some user, Some top =>
          if nonempty (strip diff) && nonempty (strip msg) then
            match returned (parsed (reply e)) with
            | Ok a =>
                if truthy a then
                  match commit_analyzer.save_expertise
                          (PStr (strip user)) (PStr (basename (strip top)))
                          (PStr (lit "pre-commit-analysis")) a e
                          (analyzed e w msg diff) with
                  | (Ok _, w2) => (Raise (SystemExit 0), w2)
                  | (Raise x, w2) => (Raise x, w2)
                  end
                else (Raise (SystemExit 0),
                      logged (analyzed e w msg diff) [Print LAnalysisFailed])
            | Raise x => (Raise x, analyzed e w msg diff)
            end
          else (Raise (SystemExit 0), logged (started w) [Print LSkipping])
      | _, _, _, _ =>
          (Raise AttributeError,
           logged (started w) [Print (LGitError (git_error e))])
      end
    else (Raise OperationalError, logged w [Print LRunning; Connect]).
Proof.
  unfold commit_analyzer.main.
  unfold bind at 1. unfold print at 1, act at 1. cbn [fst snd].
  unfold bind at 1. rewrite commit_init_run. cbn [db clock trace].
  destruct (db_opens e); [| unfold logged; simpl;
                            rewrite <- app_assoc; reflexivity].
  unfold bind at 1. rewrite commit_git_run. unfold git_error.
  unfold started, analyzed, logged.
  destruct (staged e) as [diff |]; simpl;
    [| run; rewrite <- !app_assoc; reflexivity].
  destruct (message e) as [msg |]; simpl;
    [| run; rewrite <- !app_assoc; reflexivity].
  destruct (git_user e) as [user |]; simpl;
    [| run; rewrite <- !app_assoc; reflexivity].
  destruct (toplevel e) as [top |]; simpl;
    [| run; rewrite <- !app_assoc; reflexivity].
  run.
  destruct (strip diff); simpl; [rewrite <- !app_assoc; reflexivity |].
  destruct (strip msg); simpl; [rewrite <- !app_assoc; reflexivity |].
  rewrite commit_analyze_run. simpl. rewrite <- !app_assoc. simpl.
  destruct (returned (parsed (reply e))) as [a | x]; simpl; [| reflexivity].
  destruct (truthy a); simpl; [| rewrite <- !app_assoc; reflexivity].
  destruct (commit_analyzer.save_expertise _ _ _ _ _ _) as [[[] | x] w2];
    reflexivity.
Qed.

Lemma commit_save_raises (u rn h a : pyval) (e : Env) (w : World) (x : exn) :
  fst (commit_analyzer.save_expertise u rn h a e w) = Raise x ->
  is_Exception x = true
  /\ db (snd (commit_analyzer.save_expertise u rn h a e w)) = db w.
Proof.
  destruct (is_dict a) eqn:D.
  - destruct a; try discriminate. rewrite commit_save_dict.
    destruct (db_opens e); [| intros [= <-]; split; reflexivity].
    destruct (sql_insert _ _ (db w)) eqn:S; [discriminate |].
    intros [= <-]. split; [exact (sql_insert_raises _ _ _ S) | reflexivity].
  - rewrite commit_save_other by exact D.
    intros [= <-]. destruct (db_opens e); split; reflexivity.
Qed.

Lemma status_of_Exception {A} (x : exn) :
  is_Exception x = true -> exit_status (@Raise A x) = 1.
Proof. destruct x; try discriminate; reflexivity. Qed.

Lemma returned_raises_Exception (r : http_reply) (x : exn) :
  returned (parsed r) = Raise x -> is_Exception x = true.
Proof.
  destruct (parsed r) as [a | y] eqn:P; simpl; [discriminate |].
  pose proof (parsed_raises_Exception _ P) as Hy.
  destruct y; simpl; try discriminate; intros [= <-]; reflexivity.
Qed.

(** X11. [get_git_info] never raises and gives all or nothing.  When
    the staged diff, the message file, the user name and the top-level
    directory can all be read it returns the diff and the message as
    they are, the user name trimmed and the base name of the trimmed
    directory, and does nothing else; when one of them cannot, it
    prints the error and returns four None, also for those it had
    read. *)
Theorem get_git_info_gives_all_or_nothing (e : Env) (w : World) :
  (exists diff msg user top,
     staged e = Some diff /\ message e = Some msg
     /\ git_user e = Some user /\ toplevel e = Some top
     /\ commit_analyzer.get_git_info e w
        = (Ok (Some diff, Some msg, Some (strip user),
               Some (basename (strip top))), w))
  \/ ((staged e = None \/ message e = None \/ git_user e = None
       \/ toplevel e = None)
      /\ exists x,
           is_Exception x = true
           /\ commit_analyzer.get_git_info e w
              = (Ok (None, None, None, None),
                 logged w [Print (LGitError x)])).
Proof.
  rewrite commit_git_run. unfold git_error.
  destruct (staged e) as [diff |];
    [| right; split; [tauto | eexists; split; [| reflexivity]; reflexivity]].
  destruct (message e) as [msg |];
    [| right; split; [tauto | eexists; split; [| reflexivity]; reflexivity]].
  destruct (git_user e) as [user |];
    [| right; split; [tauto | eexists; split; [| reflexivity]; reflexivity]].
  destruct (toplevel e) as [top |];
    [| right; split; [tauto | eexists; split; [| reflexivity]; reflexivity]].
  left. exists diff, msg, user, top. repeat split.
Qed.

(** X12. When the database opens on no table or the hook's own, git
    gives a diff and a message that do not trim to empty, the analysis
    is a non-empty dict whose summary is a str that encodes to UTF-8,
    None or absent, and the user and repository names encode to UTF-8,
    the hook exits with status 0 having sent one request and stored one
    record: the one [save_expertise] builds from the trimmed user name,
    the base name of the top-level directory, the label
    pre-commit-analysis and the analysis, stamped when the backend had
    answered. *)
Theorem the_hook_records_an_analyzed_commit
    (diff msg user top : str) (d : dict) (summary : sqlval)
    (e : Env) (w : World) :
  db_opens e = true ->
  holds_table commit_analyzer.schema (db w) ->
  staged e = Some diff -> message e = Some msg ->
  git_user e = Some user -> toplevel e = Some top ->
  strip diff <> [] -> strip msg <> [] ->
  parsed (reply e) = Ok (PDict d) -> d <> [] ->
  encodable (strip user) = true ->
  encodable (basename (strip top)) = true ->
  text_cell (field d "analysis_summary" (PStr [])) = Some summary ->
  commit_analyzer.main e w
  = (Raise (SystemExit 0),
     {| db :=
          Some
            {| columns := commit_analyzer.schema;
               rows :=
                 records (db w) ++
                 [ {| rowid := next_of (db w);
                      cells :=
                        [ (lit "user_id", SqlText (Str (strip user)));
                          (lit "timestamp",
                           SqlText (Strftime (clock w + latency e)));
                          (lit "repo_name",
                           SqlText (Str (basename (strip top))));
                          (lit "commit_hash",
                           SqlText (Str (lit "pre-commit-analysis")));
                          (lit "primary_technologies",
                           SqlText (JsonDumps
                                      (field d "primary_technologies"
                                         (PList []))));
                          (lit "supporting_libraries",
                           SqlText (JsonDumps
                                      (field d "supporting_libraries"
                                         (PList []))));
                          (lit "key_patterns_and_concepts",
                           SqlText (JsonDumps
                                      (field d "key_patterns_and_concepts"
                                         (PList []))));
                          (lit "inferred_skills",
                           SqlText (JsonDumps
                                      (field d "inferred_skills" (PList []))));
                          (lit "analysis_summary", summary) ] |} ];
               seq := next_of (db w) |};
        clock := clock w + latency e;
        trace :=
          trace w
            ++ [ Print LRunning; Connect; Print LAnalyzing;
                 Post (lit "mistral")
                   (CommitPrompt
                      (commit_analyzer.analysis_content (Some msg)
                         (Some diff))) 180;
                 Connect; Print LSaved ] |}).
Proof.
  intros Hopen Htab Hd Hm Hu Ht Hdne Hmne P Hne Heu Het Hsum.
  destruct (holds_table_create _ _ Htab) as (t & Hcr & Hc & Hr & Hn & Hmax).
  rewrite commit_main_run, Hopen, Hd, Hm, Hu, Ht.
  destruct (strip diff) eqn:Sd; [contradiction |].
  destruct (strip msg) eqn:Sm; [contradiction |].
  cbn [nonempty andb]. rewrite P. cbn [returned].
  destruct d as [| kv d]; [contradiction |]. cbn [truthy].
  erewrite commit_save_succeeds;
    [| exact Hopen | exact Hcr | exact Hc | exact Hmax
     | exact Heu | exact Het | reflexivity | exact Hsum].
  unfold analyzed. rewrite P. cbn [clock trace reported].
  rewrite Hr, Hn, <- !app_assoc. reflexivity.
Qed.

(** X12 at the commit that adds [foo]. *)
Lemma the_hook_records_an_analyzed_commit_witness :
  status_of commit_analyzer.main (answering five_field_answer) fresh = 0
  /\ map rowid
       (records (db (snd (commit_analyzer.main (answering five_field_answer)
                            fresh)))) = [1].
Proof.
  unfold status_of.
  erewrite (@the_hook_records_an_analyzed_commit
              (lit "+def foo(): pass") (lit "add foo") (lit "Callum McCabe")
              (lit "/Users/callum/Turbotise") _ _
              (answering five_field_answer) fresh);
    try reflexivity; try exact I; try (vm_compute; discriminate).
  split; vm_compute; reflexivity.
Defined.

(** X13. The hook exits with status 0 or 1.  It exits with 0 exactly
    when the database opened, git gave its four answers, and then the
    diff or the message trimmed to empty, or the analysis came back
    falsy (None after a failed request, an empty object, ...), or a
    record was stored.  In every other case (no database, no git, a
    payload that is not JSON, a truthy analysis that cannot be stored)
    the status is 1, which makes git abort the commit. *)
Theorem the_hook_exit_status (e : Env) (w : World) :
  (status_of commit_analyzer.main e w = 0
   \/ status_of commit_analyzer.main e w = 1)
  /\ (status_of commit_analyzer.main e w = 0 <->
      db_opens e = true
      /\ exists diff msg user top,
           staged e = Some diff /\ message e = Some msg
           /\ git_user e = Some user /\ toplevel e = Some top
           /\ (strip diff = [] \/ strip msg = []
               \/ (exists a, returned (parsed (reply e)) = Ok a
                             /\ truthy a = false)
               \/ (exists r,
                     one_more (db w)
                       (db (snd (commit_analyzer.main e w))) r))).
Proof.
  unfold status_of. rewrite commit_main_run.
  destruct (db_opens e) eqn:Hopen.
  2:{ simpl. split; [right; reflexivity |].
      split; [discriminate | intros [H _]; discriminate]. }
  destruct (staged e) as [diff |].
  2:{ simpl. split; [right; reflexivity |].
      split; [discriminate | intros (_ & ? & ? & ? & ? & H & _); discriminate]. }
  destruct (message e) as [msg |].
  2:{ simpl. split; [right; reflexivity |].
      split; [discriminate
             | intros (_ & ? & ? & ? & ? & _ & H & _); discriminate]. }
  destruct (git_user e) as [user |].
  2:{ simpl. split; [right; reflexivity |].
      split; [discriminate
             | intros (_ & ? & ? & ? & ? & _ & _ & H & _); discriminate]. }
  destruct (toplevel e) as [top |].
  2:{ simpl. split; [right; reflexivity |].
      split; [discriminate
             | intros (_ & ? & ? & ? & ? & _ & _ & _ & H & _); discriminate]. }
  assert (Hgit : forall Q : str -> str -> Prop,
            Q diff msg ->
            exists diff' msg' user' top' : str,
              Some diff = Some diff' /\ Some msg = Some msg'
              /\ Some user = Some user' /\ Some top = Some top'
              /\ Q diff' msg').
  { intros Q HQ. exists diff, msg, user, top. repeat split. exact HQ. }
  destruct (strip diff) as [| cd sd] eqn:Sd.
  { simpl. split; [left; reflexivity |].
    split; [| reflexivity]. intros _. split; [reflexivity |].
    apply (Hgit (fun diff' msg' => _)). rewrite Sd. left. reflexivity. }
  destruct (strip msg) as [| cm sm] eqn:Sm.
  { simpl. split; [left; reflexivity |].
    split; [| reflexivity]. intros _. split; [reflexivity |].
    apply (Hgit (fun diff' msg' => _)). rewrite Sm. right. left. reflexivity. }
  cbn [nonempty andb].
  assert (Hnot : forall (x : exn) (w' : World),
            is_Exception x = true ->
            db w' = sql_create commit_analyzer.schema (db w) ->
            (forall a, returned (parsed (reply e)) = Ok a -> truthy a = true) ->
            (exit_status (@Raise unit x) = 0 \/ exit_status (@Raise unit x) = 1)
            /\ (exit_status (@Raise unit x) = 0 <->
                true = true
                /\ exists diff' msg' user' top' : str,
                     Some diff = Some diff' /\ Some msg = Some msg'
                     /\ Some user = Some user' /\ Some top = Some top'
                     /\ (strip diff' = [] \/ strip msg' = []
                         \/ (exists a, returned (parsed (reply e)) = Ok a
                                       /\ truthy a = false)
                         \/ (exists r, one_more (db w) (db w') r)))).
  { intros x w' Hx Hdb Htr. rewrite (@status_of_Exception unit x Hx).
    split; [right; reflexivity |]. split; [discriminate |].
    intros (_ & diff' & msg' & user' & top' & [= <-] & [= <-] & _ & _ & H).
    exfalso. destruct H as [H | [H | [(a & Ha & Hf) | (r & Hr & _)]]].
    - rewrite Sd in H. discriminate.
    - rewrite Sm in H. discriminate.
    - rewrite (Htr a Ha) in Hf. discriminate.
    - rewrite Hdb, records_create in Hr.
      exact (@app_one_neq _ _ _ Hr). }
  destruct (returned (parsed (reply e))) as [a | x] eqn:R.
  2:{ apply Hnot; [exact (returned_raises_Exception _ R) | reflexivity |].
      intros a Ha. discriminate. }
  destruct (truthy a) eqn:T.
  2:{ simpl. split; [left; reflexivity |]. split; [| reflexivity].
      intros _. split; [reflexivity |].
      apply (Hgit (fun diff' msg' => _)). right. right. left.
      exists a. split; [reflexivity | exact T]. }
  destruct (commit_analyzer.save_expertise _ _ _ a e (analyzed e w msg diff))
    as [r w2] eqn:S.
  destruct r as [[] | x]; cbn [fst snd].
  - simpl. split; [left; reflexivity |]. split; [| reflexivity].
    intros _. split; [reflexivity |].
    apply (Hgit (fun diff' msg' => _)). right. right. right.
    pose proof (commit_save_step (PStr (strip user))
                  (PStr (basename (strip top)))
                  (PStr (lit "pre-commit-analysis")) a e
                  (analyzed e w msg diff)) as Hstep.
    rewrite S in Hstep. cbn [fst snd] in Hstep.
    destruct Hstep as (r & Hone & _). exists r.
    apply one_more_after_create with (cols := commit_analyzer.schema).
    exact Hone.
  - pose proof (commit_save_raises (PStr (strip user))
                  (PStr (basename (strip top)))
                  (PStr (lit "pre-commit-analysis")) a e
                  (analyzed e w msg diff)) as Hraise.
    rewrite S in Hraise. cbn [fst snd] in Hraise.
    destruct (Hraise x eq_refl) as [Hx Hdb].
    apply Hnot; [exact Hx | exact Hdb |].
    intros a' [= <-]. exact T.
Qed.

(** ** When the backend fails *)

(** X14. When the backend does not answer, or answers with a status
    from 400 to 599, nothing is stored and nothing is raised.  The hook,
    given a diff and a message, reports that the analysis failed and
    exits with status 0, its table created; a watcher's handler, given a
    file with text, returns after the one request, the database as it
    was. *)
Theorem a_backend_failure_stores_nothing (e : Env) (w : World) :
  backend_fails e ->
  (forall diff msg user top,
     db_opens e = true ->
     staged e = Some diff -> message e = Some msg ->
     git_user e = Some user -> toplevel e = Some top ->
     strip diff <> [] -> strip msg <> [] ->
     commit_analyzer.main e w
     = (Raise (SystemExit 0),
        {| db := sql_create commit_analyzer.schema (db w);
           clock := clock w + latency e;
           trace :=
             trace w
               ++ [ Print LRunning; Connect; Print LAnalyzing;
                    Post (lit "mistral")
                      (CommitPrompt
                         (commit_analyzer.analysis_content (Some msg)
                            (Some diff))) 180;
                    Print LNoBackend; Print LAnalysisFailed ] |}))
  /\ (forall ev content,
        is_directory ev = false ->
        file_text e = Some content -> strip content <> [] ->
        (startswith (lit ".") (basename (src_path ev)) = false ->
         search.on_modified ev e w
         = (Ok tt,
            {| db := db w; clock := clock w + latency e;
               trace :=
                 trace w
                   ++ [ Print (LDetected (src_path ev)); Open (src_path ev);
                        Print LAsking; Print (LLength (List.length content));
                        Post (lit "mistral") (CodePrompt content) 120;
                        Print LNoBackend ] |}))
        /\ engine.on_modified ev e w
           = (Ok tt,
              {| db := db w; clock := clock w + latency e;
                 trace :=
                   trace w
                     ++ [ Print (LDetected (src_path ev)); Open (src_path ev);
                          Print LAsking;
                          Print (LLength (List.length content));
                          Post (lit "mistral") (SkillsPrompt content) 120;
                          Print LNoBackend ] |})).
Proof.
  intro Hfail. apply parsed_when_backend_fails in Hfail. split.
  - intros diff msg user top Hopen Hd Hm Hu Ht Hdne Hmne.
    rewrite commit_main_run, Hopen, Hd, Hm, Hu, Ht.
    destruct (strip diff); [contradiction |].
    destruct (strip msg); [contradiction |].
    cbn [nonempty andb]. unfold analyzed, logged. rewrite Hfail. simpl.
    rewrite <- !app_assoc. reflexivity.
  - intros ev content Hdir Hf Hs. split.
    + intro Hhid. unfold search.on_modified. run.
      rewrite Hdir. simpl. rewrite Hhid. simpl. rewrite Hf. simpl.
      destruct (strip content); [contradiction |]. simpl.
      rewrite search_analyze_run, Hfail. simpl.
      rewrite <- !app_assoc. reflexivity.
    + unfold engine.on_modified. run.
      rewrite Hdir. simpl. rewrite Hf. simpl.
      destruct (strip content); [contradiction |]. simpl.
      rewrite engine_analyze_run, Hfail. simpl.
      rewrite <- !app_assoc. reflexivity.
Qed.

(** X14 where the backend is down. *)
Lemma a_backend_failure_stores_nothing_witness :
  status_of commit_analyzer.main backend_down fresh = 0
  /\ records (db (snd (commit_analyzer.main backend_down fresh))) = [].
Proof.
  unfold status_of.
  rewrite (proj1 (@a_backend_failure_stores_nothing backend_down fresh
                    (or_introl eq_refl))
             (lit "+def foo(): pass") (lit "add foo") (lit "Callum McCabe")
             (lit "/Users/callum/Turbotise")
             eq_refl eq_refl eq_refl eq_refl eq_refl);
    [split; reflexivity | vm_compute; discriminate | vm_compute; discriminate].
Defined.

(** ** The handlers, from event to record *)



(** ** What a handler swallows *)



(** ** The watch loop *)

Lemma watch_log (handler : event -> M unit) :
  (forall ev e w,
     db (snd (handler ev e w)) = db w
     \/ exists u d r,
          is_directory ev = false
          /\ parsed (reply e) = Ok (PDict d)
          /\ login e = Some u
          /\ one_more (db w) (db (snd (handler ev e w))) r
          /\ cell r (lit "user_id") = SqlText (Str u)
          /\ cell r (lit "file_path") = SqlText (Str (src_path ev))) ->
  forall (deliveries : list (Env * event)) (w : World),
  exists added,
    records (db (watch handler deliveries w)) = records (db w) ++ added
    /\ (List.length added <= List.length deliveries)%nat
    /\ map rowid added = ids_from (next_of (db w)) (List.length added)
    /\ (forall r, In r added ->
          exists e ev u,
            In (e, ev) deliveries
            /\ is_directory ev = false
            /\ login e = Some u
            /\ cell r (lit "user_id") = SqlText (Str u)
            /\ cell r (lit "file_path") = SqlText (Str (src_path ev)))
    /\ ((forall e ev, In (e, ev) deliveries -> backend_fails e) ->
        added = []).
Proof.
  intros Hstep deliveries.
  induction deliveries as [| [e ev] rest IH]; intro w; simpl.
  - exists []. rewrite app_nil_r. simpl.
    repeat split; try lia; try contradiction.
  - destruct (IH (snd (handler ev e w)))
      as (added & Hrec & Hlen & Hids & Hfrom & Hnone).
    destruct (Hstep ev e w)
      as [Hdb | (u & d & r & Hdir & P & L & Hone & Hcu & Hcp)].
    + exists added. rewrite Hrec, Hids, Hdb.
      repeat split; try lia.
      * intros r Hr. destruct (Hfrom r Hr) as (e' & ev' & u' & Hin & H).
        exists e', ev', u'. split; [right; exact Hin | exact H].
      * intro Hall. apply Hnone. intros e' ev' Hin.
        apply (Hall e' ev'). right. exact Hin.
    + destruct Hone as (Hr & Hid & Hnext).
      exists (r :: added). rewrite Hrec, Hr, <- app_assoc.
      simpl List.length. repeat split; try lia.
      * simpl. rewrite Hid, Hids, Hnext. reflexivity.
      * intros r' [<- | Hr'].
        -- exists e, ev, u. repeat split; try assumption. left. reflexivity.
        -- destruct (Hfrom r' Hr') as (e' & ev' & u' & Hin & H).
           exists e', ev', u'. split; [right; exact Hin | exact H].
      * intro Hall. exfalso.
        assert (Hf : backend_fails e) by (apply (Hall e ev); left; reflexivity).
        apply parsed_when_backend_fails in Hf. congruence.
Qed.

(** X17. Over any run of a watcher's loop, whatever the events and
    whatever they meet, the log only grows: the records that were there
    stay as they were and in place, at most one record is added per
    delivered event, the new records take the next ids in order, and
    each of them carries the path of one of the delivered events, not a
    directory, and the login name found at that event.  While the
    backend fails at every event, nothing is added. *)
Theorem the_watch_loop_only_appends
    (deliveries : list (Env * event)) (w : World) :
  forall handler,
    In handler [search.on_modified; engine.on_modified] ->
    exists added,
      records (db (watch handler deliveries w)) = records (db w) ++ added
      /\ (List.length added <= List.length deliveries)%nat
      /\ map rowid added = ids_from (next_of (db w)) (List.length added)
      /\ (forall r, In r added ->
            exists e ev u,
              In (e, ev) deliveries
              /\ is_directory ev = false
              /\ login e = Some u
              /\ cell r (lit "user_id") = SqlText (Str u)
              /\ cell r (lit "file_path") = SqlText (Str (src_path ev)))
      /\ ((forall e ev, In (e, ev) deliveries -> backend_fails e) ->
          added = []).
Proof.
  intros handler Hin. apply watch_log. intros ev e w0.
  simpl in Hin. destruct Hin as [<- | [<- | []]].
  - destruct (search_on_modified_row ev e w0)
      as [H | (content & u & d & r & Hdir & _ & _ & _ & P & _ & L & Hone
               & Hcu & Hcp & _)]; [left; exact H |].
    right. exists u, d, r. tauto.
  - destruct (engine_on_modified_row ev e w0)
      as [H | (content & u & d & r & Hdir & _ & _ & P & _ & L & Hone
               & Hcu & Hcp & _)]; [left; exact H |].
    right. exists u, d, r. tauto.
Qed.

(** X17 at a run of engine.py that sees a hidden file, then a file while
    the backend is down. *)
Lemma the_watch_loop_only_appends_witness :
  exists added,
    records (db (watch engine.on_modified
                   [ (answering skills_answer, hidden_file);
                     (backend_down, saved_file) ] watching))
      = records (db watching) ++ added
    /\ (List.length added <= 2)%nat
    /\ map rowid added = ids_from 1 (List.length added).
Proof.
  destruct (@the_watch_loop_only_appends
              [ (answering skills_answer, hidden_file);
                (backend_down, saved_file) ] watching
              engine.on_modified (or_intror (or_introl eq_refl)))
    as (added & Hrec & Hlen & Hids & _).
  exists added. split; [exact Hrec |]. split; [exact Hlen | exact Hids].
Defined.
